(** * Access control and ownership rules of the gym API trainers router

    A shallow embedding of [app/routers/trainers.py]: the relational store
    is a record of tables, every table a list of rows in storage order, and
    every endpoint is a handler in a small state-and-error monad over that
    store.  The theorems at the end of the file settle the properties that
    the specification states about these endpoints. *)

From Stdlib Require Import ZArith Lia PrimFloat Ascii String.
From stdpp Require Import base decidable option list strings.

Open Scope Z_scope.
Open Scope string_scope.
Open Scope list_scope.

(** ** Values carried by the rows *)

(** [datetime.date] and [datetime.time]: only stored and compared. *)
Record date := mkDate { year : Z; month : Z; day : Z }.
Record time := mkTime { hour : Z; minute : Z; second : Z }.

#[global] Instance date_eq_dec : EqDecision date.
Proof. solve_decision. Defined.

(** Python truth value of an [Optional[str]]: [None] and the empty string
    are both false. *)
Definition truthy (s : option string) : bool :=
  match s with
  | None => false
  | Some v => negb (bool_decide (v = ""))
  end.

(** ** Rows and payloads

    Each model and schema is a record in a module of its own, so that the
    fields keep the names they have in the source. *)

(** [models.User] rows and the [schemas.UserResponse] caller object carry the
    same fields as far as this router reads them. *)
Module User.
Record t := mk { id : Z; name : string; role : string; branch : option string }.
Definition set_branch (b : option string) (u : t) : t :=
  {| id := id u; name := name u; role := role u; branch := b |}.
End User.

Module Trainer.
Record t := mk {
  id : Z;
  name : string;
  specialization : option string;
  rating : float;
  experience : Z;
  phone : string;
  email : string;
  password : string;
  availability : option string;
  branch_name : option string
}.
End Trainer.

Module TrainerCreate.
Record t := mk {
  name : string;
  specialization : list string;
  rating : float;
  experience : Z;
  phone : string;
  email : string;
  password : string;
  availability : option string;
  branch_name : option string
}.
End TrainerCreate.

Module TrainerResponse.
Record t := mk {
  id : Z;
  name : string;
  specialization : list string;
  rating : float;
  experience : Z;
  phone : string;
  email : string;
  availability : option string;
  branch_name : option string
}.
End TrainerResponse.

Module SessionSchedule.
Record t := mk {
  id : Z;
  trainer_id : Z;
  session_name : string;
  session_date : date;
  start_time : time;
  end_time : time;
  branch_name : option string;
  max_capacity : Z;
  description : option string
}.
End SessionSchedule.

Module SessionScheduleCreate.
Record t := mk {
  session_name : string;
  session_date : date;
  start_time : time;
  end_time : time;
  max_capacity : Z;
  description : option string
}.
End SessionScheduleCreate.

Module SessionAttendance.
Record t := mk {
  id : Z;
  session_id : Z;
  user_id : Z;
  status : string;
  attendance_date : date
}.
Definition set_status (v : string) (a : t) : t :=
  {| id := id a; session_id := session_id a; user_id := user_id a;
     status := v; attendance_date := attendance_date a |}.
Definition set_user_id (v : Z) (a : t) : t :=
  {| id := id a; session_id := session_id a; user_id := v;
     status := status a; attendance_date := attendance_date a |}.
Definition set_attendance_date (v : date) (a : t) : t :=
  {| id := id a; session_id := session_id a; user_id := user_id a;
     status := status a; attendance_date := v |}.
End SessionAttendance.

Module SessionAttendanceCreate.
Record t := mk { user_id : Z; status : string; attendance_date : date }.
End SessionAttendanceCreate.

Module DietPlan.
Record t := mk {
  id : Z;
  user_id : Z;
  assigned_by_trainer_id : Z;
  title : string;
  description : option string;
  assigned_date : date;
  expiry_date : option date;
  branch_name : option string
}.
End DietPlan.

Module DietPlanCreate.
Record t := mk {
  user_id : Z;
  title : string;
  description : option string;
  expiry_date : option date
}.
End DietPlanCreate.

Module ExercisePlan.
Record t := mk {
  id : Z;
  user_id : Z;
  assigned_by_trainer_id : Z;
  title : string;
  description : option string;
  assigned_date : date;
  expiry_date : option date;
  branch_name : option string
}.
End ExercisePlan.

Module ExercisePlanCreate.
Record t := mk {
  user_id : Z;
  title : string;
  description : option string;
  expiry_date : option date
}.
End ExercisePlanCreate.

(** ** The store

    One list of rows per table, in storage order.  The storage engine keys
    the rows; the model gives the tables no other uniqueness constraint: the
    specification places the attendance invariant in the upsert of the
    service layer, not in the storage layer. *)

Record DB := mkDB {
  users : list User.t;
  trainers : list Trainer.t;
  sessions : list SessionSchedule.t;
  attendances : list SessionAttendance.t;
  diet_plans : list DietPlan.t;
  exercise_plans : list ExercisePlan.t
}.

Definition set_trainers (v : list Trainer.t) (db : DB) : DB :=
  {| users := users db; trainers := v; sessions := sessions db;
     attendances := attendances db; diet_plans := diet_plans db;
     exercise_plans := exercise_plans db |}.
Definition set_sessions (v : list SessionSchedule.t) (db : DB) : DB :=
  {| users := users db; trainers := trainers db; sessions := v;
     attendances := attendances db; diet_plans := diet_plans db;
     exercise_plans := exercise_plans db |}.
Definition set_attendances (v : list SessionAttendance.t) (db : DB) : DB :=
  {| users := users db; trainers := trainers db; sessions := sessions db;
     attendances := v; diet_plans := diet_plans db;
     exercise_plans := exercise_plans db |}.
Definition set_diet_plans (v : list DietPlan.t) (db : DB) : DB :=
  {| users := users db; trainers := trainers db; sessions := sessions db;
     attendances := attendances db; diet_plans := v;
     exercise_plans := exercise_plans db |}.
Definition set_exercise_plans (v : list ExercisePlan.t) (db : DB) : DB :=
  {| users := users db; trainers := trainers db; sessions := sessions db;
     attendances := attendances db; diet_plans := diet_plans db;
     exercise_plans := v |}.

(** ** Queries on a table

    [query.filter(p).first()] is the first row in storage order that
    satisfies [p].  The ORM object it returns stands for that row: assigning
    to its attributes and committing rewrites that row, [db.delete] removes
    it. *)

Definition first {A} (p : A -> bool) (rows : list A) : option A :=
  List.find p rows.

Fixpoint update_first {A} (p : A -> bool) (f : A -> A) (rows : list A) : list A :=
  match rows with
  | [] => []
  | r :: rest => if p r then f r :: rest else r :: update_first p f rest
  end.

Fixpoint delete_first {A} (p : A -> bool) (rows : list A) : list A :=
  match rows with
  | [] => []
  | r :: rest => if p r then rest else r :: delete_first p rest
  end.

(** Filters on the primary key of a table. *)
Definition user_with_id (user_id : Z) (u : User.t) : bool :=
  bool_decide (User.id u = user_id).
Definition trainer_with_id (trainer_id : Z) (t : Trainer.t) : bool :=
  bool_decide (Trainer.id t = trainer_id).
Definition session_with_id (session_id : Z) (s : SessionSchedule.t) : bool :=
  bool_decide (SessionSchedule.id s = session_id).
Definition attendance_with_id (attendance_id : Z) (a : SessionAttendance.t) : bool :=
  bool_decide (SessionAttendance.id a = attendance_id).

(** The key the storage engine gives to an inserted row: one more than the
    largest key in the table. *)
Definition next_id (ids : list Z) : Z := 1 + foldr Z.max 0 ids.

(** ** Handlers: state and [HTTPException] *)

Inductive HTTPError :=
| HTTP_400_BAD_REQUEST
| HTTP_401_UNAUTHORIZED
| HTTP_403_FORBIDDEN
| HTTP_404_NOT_FOUND
| HTTP_500_INTERNAL_SERVER_ERROR.

(** The error names of the specification. *)
Definition InvalidState := HTTP_400_BAD_REQUEST.
Definition Unauthenticated := HTTP_401_UNAUTHORIZED.
Definition Forbidden := HTTP_403_FORBIDDEN.
Definition NotFound := HTTP_404_NOT_FOUND.

Inductive Result (A : Type) :=
| Ok (a : A)
| Raise (e : HTTPError).
Arguments Ok {A} a.
Arguments Raise {A} e.

(** A handler runs on the store and leaves the store as committed when it
    returns or raises. *)
Definition Handler (A : Type) : Type := DB -> Result A * DB.

Definition ret {A} (a : A) : Handler A := fun db => (Ok a, db).
Definition raise {A} (e : HTTPError) : Handler A := fun db => (Raise e, db).
Definition bind {A B} (m : Handler A) (k : A -> Handler B) : Handler B :=
  fun db =>
    match m db with
    | (Ok a, db') => k a db'
    | (Raise e, db') => (Raise e, db')
    end.
Definition get_db : Handler DB := fun db => (Ok db, db).
(** [db.commit()], taken to succeed: a refusal by the storage engine is
    outside the model. *)
Definition commit (db' : DB) : Handler unit := fun _ => (Ok tt, db').

#[global] Instance Handler_ret : MRet Handler := @ret.
#[global] Instance Handler_bind : MBind Handler := fun A B k m => bind m k.
#[global] Instance Handler_fmap : FMap Handler :=
  fun A B f m => bind m (fun a => ret (f a)).

(** ** Dependencies resolving the caller *)

Definition get_current_active_user (current_user : option User.t) : Handler User.t :=
  match current_user with
  | None => raise HTTP_401_UNAUTHORIZED
  | Some u => ret u
  end.

Definition get_current_trainer (current_user : option User.t) : Handler User.t :=
  u ← get_current_active_user current_user;
  if bool_decide (User.role u ≠ "trainer")
  then raise HTTP_403_FORBIDDEN
  else ret u.

Definition get_current_admin_or_superadmin (current_user : option User.t) : Handler User.t :=
  u ← get_current_active_user current_user;
  if negb (bool_decide (User.role u ∈ ["admin"; "superadmin"]))
  then raise HTTP_403_FORBIDDEN
  else ret u.

(** ** Session management (trainer role only) *)

Definition create_session (session : SessionScheduleCreate.t)
    (current_user : option User.t) : Handler SessionSchedule.t :=
  current_trainer ← get_current_trainer current_user;
  if negb (truthy (User.branch current_trainer))
  then raise HTTP_400_BAD_REQUEST
  else
    db ← get_db;
    let new_session :=
      {| SessionSchedule.id := next_id (SessionSchedule.id <$> sessions db);
         SessionSchedule.trainer_id := User.id current_trainer;
         SessionSchedule.session_name := SessionScheduleCreate.session_name session;
         SessionSchedule.session_date := SessionScheduleCreate.session_date session;
         SessionSchedule.start_time := SessionScheduleCreate.start_time session;
         SessionSchedule.end_time := SessionScheduleCreate.end_time session;
         SessionSchedule.branch_name := User.branch current_trainer;
         SessionSchedule.max_capacity := SessionScheduleCreate.max_capacity session;
         SessionSchedule.description := SessionScheduleCreate.description session |} in
    commit (set_sessions (sessions db ++ [new_session]) db);;
    ret new_session.

(** The six assignments of [update_session] to the fetched row. *)
Definition assign_session (session_update : SessionScheduleCreate.t)
    (db_session : SessionSchedule.t) : SessionSchedule.t :=
  {| SessionSchedule.id := SessionSchedule.id db_session;
     SessionSchedule.trainer_id := SessionSchedule.trainer_id db_session;
     SessionSchedule.session_name := SessionScheduleCreate.session_name session_update;
     SessionSchedule.session_date := SessionScheduleCreate.session_date session_update;
     SessionSchedule.start_time := SessionScheduleCreate.start_time session_update;
     SessionSchedule.end_time := SessionScheduleCreate.end_time session_update;
     SessionSchedule.branch_name := SessionSchedule.branch_name db_session;
     SessionSchedule.max_capacity := SessionScheduleCreate.max_capacity session_update;
     SessionSchedule.description := SessionScheduleCreate.description session_update |}.

(** The filter shared by [update_session] and [delete_session]. *)
Definition own_session (session_id : Z) (current_trainer : User.t)
    (s : SessionSchedule.t) : bool :=
  bool_decide (SessionSchedule.id s = session_id)
  && bool_decide (SessionSchedule.trainer_id s = User.id current_trainer).

Definition update_session (session_id : Z) (session_update : SessionScheduleCreate.t)
    (current_user : option User.t) : Handler SessionSchedule.t :=
  current_trainer ← get_current_trainer current_user;
  db ← get_db;
  match first (own_session session_id current_trainer) (sessions db) with
  | None => raise HTTP_404_NOT_FOUND
  | Some db_session =>
      commit (set_sessions
                (update_first (own_session session_id current_trainer)
                   (assign_session session_update) (sessions db)) db);;
      ret (assign_session session_update db_session)
  end.

Definition delete_session (session_id : Z) (current_user : option User.t)
    : Handler string :=
  current_trainer ← get_current_trainer current_user;
  db ← get_db;
  match first (own_session session_id current_trainer) (sessions db) with
  | None => raise HTTP_404_NOT_FOUND
  | Some db_session =>
      commit (set_sessions
                (delete_first (own_session session_id current_trainer) (sessions db)) db);;
      ret "Session deleted successfully"
  end.

(** ** Session attendance *)

(** The filter of the lookup that precedes an insert in
    [mark_session_attendance]. *)
Definition same_booking (session_id user_id : Z) (attendance_date : date)
    (a : SessionAttendance.t) : bool :=
  bool_decide (SessionAttendance.session_id a = session_id)
  && bool_decide (SessionAttendance.user_id a = user_id)
  && bool_decide (SessionAttendance.attendance_date a = attendance_date).

(** A user with the given key in the given branch. *)
Definition user_in_branch (user_id : Z) (branch : option string) (u : User.t) : bool :=
  bool_decide (User.id u = user_id) && bool_decide (User.branch u = branch).

(** A session with the given key, made by the caller, in the caller's branch. *)
Definition own_session_in_branch (session_id : Z) (current_user : User.t)
    (s : SessionSchedule.t) : bool :=
  bool_decide (SessionSchedule.id s = session_id)
  && bool_decide (SessionSchedule.trainer_id s = User.id current_user)
  && bool_decide (SessionSchedule.branch_name s = User.branch current_user).

Definition mark_session_attendance (session_id : Z)
    (attendance_data : SessionAttendanceCreate.t) (current_user : option User.t)
    : Handler (SessionAttendance.t * User.t) :=
  current_user ← get_current_active_user current_user;
  db ← get_db;
  match first (session_with_id session_id) (sessions db) with
  | None => raise HTTP_404_NOT_FOUND
  | Some db_session =>
      user ←
        (if bool_decide (User.role current_user = "trainer") then
           if bool_decide (SessionSchedule.trainer_id db_session ≠ User.id current_user)
              || bool_decide (SessionSchedule.branch_name db_session ≠ User.branch current_user)
           then raise HTTP_403_FORBIDDEN
           else
             match first (user_in_branch (SessionAttendanceCreate.user_id attendance_data)
                            (User.branch current_user)) (users db) with
             | None => raise HTTP_404_NOT_FOUND
             | Some user => ret user
             end
         else
           if bool_decide (SessionAttendanceCreate.user_id attendance_data ≠ User.id current_user)
           then raise HTTP_403_FORBIDDEN
           else
             match first (user_with_id (User.id current_user)) (users db) with
             | None => raise HTTP_404_NOT_FOUND
             | Some user => ret user
             end);
      let existing :=
        same_booking session_id (SessionAttendanceCreate.user_id attendance_data)
          (SessionAttendanceCreate.attendance_date attendance_data) in
      match first existing (attendances db) with
      | Some existing_attendance =>
          let assign :=
            SessionAttendance.set_status (SessionAttendanceCreate.status attendance_data) in
          commit (set_attendances (update_first existing assign (attendances db)) db);;
          ret (assign existing_attendance, user)
      | None =>
          let new_attendance :=
            {| SessionAttendance.id := next_id (SessionAttendance.id <$> attendances db);
               SessionAttendance.session_id := session_id;
               SessionAttendance.user_id := SessionAttendanceCreate.user_id attendance_data;
               SessionAttendance.status := SessionAttendanceCreate.status attendance_data;
               SessionAttendance.attendance_date :=
                 SessionAttendanceCreate.attendance_date attendance_data |} in
          commit (set_attendances (attendances db ++ [new_attendance]) db);;
          ret (new_attendance, user)
      end
  end.

Definition update_session_attendance (attendance_id : Z)
    (attendance_data : SessionAttendanceCreate.t) (current_user : option User.t)
    : Handler (SessionAttendance.t * option User.t) :=
  current_user ← get_current_active_user current_user;
  db ← get_db;
  match first (attendance_with_id attendance_id) (attendances db) with
  | None => raise HTTP_404_NOT_FOUND
  | Some db_attendance =>
      db_attendance ←
        (if bool_decide (User.role current_user = "trainer") then
           match first (own_session_in_branch (SessionAttendance.session_id db_attendance)
                          current_user) (sessions db) with
           | None => raise HTTP_403_FORBIDDEN
           | Some db_session =>
               if bool_decide (SessionAttendanceCreate.user_id attendance_data
                               ≠ SessionAttendance.user_id db_attendance)
               then
                 match first (user_in_branch (SessionAttendanceCreate.user_id attendance_data)
                                (User.branch current_user)) (users db) with
                 | None => raise HTTP_404_NOT_FOUND
                 | Some user =>
                     ret (SessionAttendance.set_user_id
                            (SessionAttendanceCreate.user_id attendance_data) db_attendance)
                 end
               else ret db_attendance
           end
         else
           if bool_decide (SessionAttendance.user_id db_attendance ≠ User.id current_user)
           then raise HTTP_403_FORBIDDEN
           else if bool_decide (SessionAttendanceCreate.user_id attendance_data
                                ≠ User.id current_user)
           then raise HTTP_403_FORBIDDEN
           else ret db_attendance);
      let db_attendance :=
        SessionAttendance.set_attendance_date
          (SessionAttendanceCreate.attendance_date attendance_data)
          (SessionAttendance.set_status
             (SessionAttendanceCreate.status attendance_data) db_attendance) in
      commit (set_attendances
                (update_first (attendance_with_id attendance_id) (λ _, db_attendance)
                   (attendances db)) db);;
      ret (db_attendance,
           first (user_with_id (SessionAttendance.user_id db_attendance)) (users db))
  end.

Definition delete_session_attendance (attendance_id : Z)
    (current_user : option User.t) : Handler string :=
  current_user ← get_current_active_user current_user;
  db ← get_db;
  match first (attendance_with_id attendance_id) (attendances db) with
  | None => raise HTTP_404_NOT_FOUND
  | Some db_attendance =>
      (if bool_decide (User.role current_user = "trainer") then
         match first (own_session_in_branch (SessionAttendance.session_id db_attendance)
                        current_user) (sessions db) with
         | None => raise HTTP_403_FORBIDDEN
         | Some db_session => ret tt
         end
       else
         if bool_decide (SessionAttendance.user_id db_attendance ≠ User.id current_user)
         then raise HTTP_403_FORBIDDEN
         else ret tt);;
      commit (set_attendances
                (delete_first (attendance_with_id attendance_id) (attendances db)) db);;
      ret "Session deleted successfully"
  end.

(** ** Response assembly: the specialization field *)

(** [str.split(sep)] for a one-character separator. *)
Fixpoint split (sep : ascii) (s : string) : list string :=
  match s with
  | EmptyString => [""]
  | String c rest =>
      if bool_decide (c = sep) then "" :: split sep rest
      else
        match split sep rest with
        | [] => [String c ""]
        | w :: ws => String c w :: ws
        end
  end.

(** [",".join(items)]. *)
Definition join (items : list string) : string := String.concat "," items.

(** [x.split(",") if isinstance(x, str) and x else []] *)
Definition specialization_list (stored : option string) : list string :=
  match stored with
  | Some s => if bool_decide (s = "") then [] else split "," s
  | None => []
  end.

(** [schemas.TrainerResponse.from_orm] on a trainer row whose specialization
    attribute has been replaced by a list. *)
Definition trainer_response (specialization : list string) (t : Trainer.t)
    : TrainerResponse.t :=
  {| TrainerResponse.id := Trainer.id t;
     TrainerResponse.name := Trainer.name t;
     TrainerResponse.specialization := specialization;
     TrainerResponse.rating := Trainer.rating t;
     TrainerResponse.experience := Trainer.experience t;
     TrainerResponse.phone := Trainer.phone t;
     TrainerResponse.email := Trainer.email t;
     TrainerResponse.availability := Trainer.availability t;
     TrainerResponse.branch_name := Trainer.branch_name t |}.

(** The placeholder of the update paths for a missing trainer row. *)
Definition unknown_trainer (trainer_id : Z) : TrainerResponse.t :=
  {| TrainerResponse.id := trainer_id;
     TrainerResponse.name := "Unknown Trainer";
     TrainerResponse.specialization := [];
     TrainerResponse.rating := 0%float;
     TrainerResponse.experience := 0;
     TrainerResponse.phone := "";
     TrainerResponse.email := "";
     TrainerResponse.availability := None;
     TrainerResponse.branch_name := None |}.

Definition trainer_schema (trainer_id : Z) (db : DB) : TrainerResponse.t :=
  match first (trainer_with_id trainer_id) (trainers db) with
  | Some trainer_data =>
      trainer_response (specialization_list (Trainer.specialization trainer_data))
        trainer_data
  | None => unknown_trainer trainer_id
  end.

(** ** Diet plans and exercise plans (trainer role only) *)

Module DietPlanResponse.
Record t := mk {
  plan : DietPlan.t;
  user : User.t;
  assigned_by_trainer : TrainerResponse.t
}.
End DietPlanResponse.

Module ExercisePlanResponse.
Record t := mk {
  plan : ExercisePlan.t;
  user : User.t;
  assigned_by_trainer : TrainerResponse.t
}.
End ExercisePlanResponse.

Definition own_diet_plan (plan_id : Z) (current_trainer : User.t)
    (p : DietPlan.t) : bool :=
  bool_decide (DietPlan.id p = plan_id)
  && bool_decide (DietPlan.assigned_by_trainer_id p = User.id current_trainer)
  && bool_decide (DietPlan.branch_name p = User.branch current_trainer).

Definition assign_diet_plan (diet_plan_update : DietPlanCreate.t)
    (p : DietPlan.t) : DietPlan.t :=
  {| DietPlan.id := DietPlan.id p;
     DietPlan.user_id := DietPlan.user_id p;
     DietPlan.assigned_by_trainer_id := DietPlan.assigned_by_trainer_id p;
     DietPlan.title := DietPlanCreate.title diet_plan_update;
     DietPlan.description := DietPlanCreate.description diet_plan_update;
     DietPlan.assigned_date := DietPlan.assigned_date p;
     DietPlan.expiry_date := DietPlanCreate.expiry_date diet_plan_update;
     DietPlan.branch_name := DietPlan.branch_name p |}.

(** [schemas.UserResponse.from_orm(user)] does not validate when the lookup
    of the subject user found no row; this happens after the commit. *)
Definition update_diet_plan (plan_id : Z) (diet_plan_update : DietPlanCreate.t)
    (current_user : option User.t) : Handler DietPlanResponse.t :=
  current_trainer ← get_current_trainer current_user;
  db ← get_db;
  match first (own_diet_plan plan_id current_trainer) (diet_plans db) with
  | None => raise HTTP_404_NOT_FOUND
  | Some db_diet_plan =>
      if bool_decide (DietPlanCreate.user_id diet_plan_update ≠ DietPlan.user_id db_diet_plan)
      then raise HTTP_400_BAD_REQUEST
      else
        commit (set_diet_plans
                  (update_first (own_diet_plan plan_id current_trainer)
                     (assign_diet_plan diet_plan_update) (diet_plans db)) db);;
        let db_diet_plan := assign_diet_plan diet_plan_update db_diet_plan in
        match first (user_with_id (DietPlan.user_id db_diet_plan)) (users db) with
        | None => raise HTTP_500_INTERNAL_SERVER_ERROR
        | Some user =>
            ret {| DietPlanResponse.plan := db_diet_plan;
                   DietPlanResponse.user := user;
                   DietPlanResponse.assigned_by_trainer :=
                     trainer_schema (DietPlan.assigned_by_trainer_id db_diet_plan) db |}
        end
  end.

Definition own_exercise_plan (plan_id : Z) (current_trainer : User.t)
    (p : ExercisePlan.t) : bool :=
  bool_decide (ExercisePlan.id p = plan_id)
  && bool_decide (ExercisePlan.assigned_by_trainer_id p = User.id current_trainer)
  && bool_decide (ExercisePlan.branch_name p = User.branch current_trainer).

Definition assign_exercise_plan (exercise_plan_update : ExercisePlanCreate.t)
    (p : ExercisePlan.t) : ExercisePlan.t :=
  {| ExercisePlan.id := ExercisePlan.id p;
     ExercisePlan.user_id := ExercisePlan.user_id p;
     ExercisePlan.assigned_by_trainer_id := ExercisePlan.assigned_by_trainer_id p;
     ExercisePlan.title := ExercisePlanCreate.title exercise_plan_update;
     ExercisePlan.description := ExercisePlanCreate.description exercise_plan_update;
     ExercisePlan.assigned_date := ExercisePlan.assigned_date p;
     ExercisePlan.expiry_date := ExercisePlanCreate.expiry_date exercise_plan_update;
     ExercisePlan.branch_name := ExercisePlan.branch_name p |}.

Definition update_exercise_plan (plan_id : Z)
    (exercise_plan_update : ExercisePlanCreate.t)
    (current_user : option User.t) : Handler ExercisePlanResponse.t :=
  current_trainer ← get_current_trainer current_user;
  db ← get_db;
  match first (own_exercise_plan plan_id current_trainer) (exercise_plans db) with
  | None => raise HTTP_404_NOT_FOUND
  | Some db_exercise_plan =>
      if bool_decide (ExercisePlanCreate.user_id exercise_plan_update
                      ≠ ExercisePlan.user_id db_exercise_plan)
      then raise HTTP_400_BAD_REQUEST
      else
        commit (set_exercise_plans
                  (update_first (own_exercise_plan plan_id current_trainer)
                     (assign_exercise_plan exercise_plan_update) (exercise_plans db)) db);;
        let db_exercise_plan :=
          assign_exercise_plan exercise_plan_update db_exercise_plan in
        match first (user_with_id (ExercisePlan.user_id db_exercise_plan)) (users db) with
        | None => raise HTTP_500_INTERNAL_SERVER_ERROR
        | Some user =>
            ret {| ExercisePlanResponse.plan := db_exercise_plan;
                   ExercisePlanResponse.user := user;
                   ExercisePlanResponse.assigned_by_trainer :=
                     trainer_schema
                       (ExercisePlan.assigned_by_trainer_id db_exercise_plan) db |}
        end
  end.

(** ** Trainer records *)

Section TrainerCRUD.

(** [utils.get_password_hash], the credential hashing service. *)
Variable get_password_hash : string -> string.

Definition add_trainer (trainer : TrainerCreate.t) (current_user : option User.t)
    : Handler TrainerResponse.t :=
  current_admin ← get_current_admin_or_superadmin current_user;
  db ← get_db;
  match first (λ t, bool_decide (Trainer.email t = TrainerCreate.email trainer))
          (trainers db) with
  | Some existing_trainer => raise HTTP_400_BAD_REQUEST
  | None =>
      let hashed_password := get_password_hash (TrainerCreate.password trainer) in
      let new_trainer :=
        {| Trainer.id := next_id (Trainer.id <$> trainers db);
           Trainer.name := TrainerCreate.name trainer;
           Trainer.specialization := Some (join (TrainerCreate.specialization trainer));
           Trainer.rating := TrainerCreate.rating trainer;
           Trainer.experience := TrainerCreate.experience trainer;
           Trainer.phone := TrainerCreate.phone trainer;
           Trainer.email := TrainerCreate.email trainer;
           Trainer.password := hashed_password;
           Trainer.availability := TrainerCreate.availability trainer;
           Trainer.branch_name :=
             if bool_decide (User.role current_admin = "admin")
             then User.branch current_admin
             else TrainerCreate.branch_name trainer |} in
      commit (set_trainers (trainers db ++ [new_trainer]) db);;
      ret (trainer_response (TrainerCreate.specialization trainer) new_trainer)
  end.

Definition get_trainers (current_user : option User.t)
    : Handler (list TrainerResponse.t) :=
  current_user ← get_current_active_user current_user;
  db ← get_db;
  let in_branch :=
    λ t, bool_decide (Trainer.branch_name t = User.branch current_user) in
  query ←
    (if bool_decide (User.role current_user = "admin") then
       if negb (truthy (User.branch current_user))
       then raise HTTP_400_BAD_REQUEST
       else ret (List.filter in_branch (trainers db))
     else if bool_decide (User.role current_user = "superadmin") then
       ret (trainers db)
     else
       if truthy (User.branch current_user)
       then ret (List.filter in_branch (trainers db))
       else ret (trainers db));
  ret ((λ t, trainer_response (specialization_list (Trainer.specialization t)) t)
         <$> query).

Definition get_trainer_by_id (trainer_id : Z) : Handler TrainerResponse.t :=
  db ← get_db;
  match first (trainer_with_id trainer_id) (trainers db) with
  | None => raise HTTP_404_NOT_FOUND
  | Some trainer =>
      ret (trainer_response (specialization_list (Trainer.specialization trainer))
             trainer)
  end.

(** The nine assignments of [update_trainer] to the fetched row. *)
Definition assign_trainer (trainer : TrainerCreate.t) (db_trainer : Trainer.t)
    : Trainer.t :=
  {| Trainer.id := Trainer.id db_trainer;
     Trainer.name := TrainerCreate.name trainer;
     Trainer.specialization := Some (join (TrainerCreate.specialization trainer));
     Trainer.rating := TrainerCreate.rating trainer;
     Trainer.experience := TrainerCreate.experience trainer;
     Trainer.phone := TrainerCreate.phone trainer;
     Trainer.email := TrainerCreate.email trainer;
     Trainer.password := get_password_hash (TrainerCreate.password trainer);
     Trainer.availability := TrainerCreate.availability trainer;
     Trainer.branch_name := TrainerCreate.branch_name trainer |}.

Definition update_trainer (trainer_id : Z) (trainer : TrainerCreate.t)
    : Handler TrainerResponse.t :=
  db ← get_db;
  match first (trainer_with_id trainer_id) (trainers db) with
  | None => raise HTTP_404_NOT_FOUND
  | Some db_trainer =>
      commit (set_trainers (update_first (trainer_with_id trainer_id) (assign_trainer trainer)
                         (trainers db)) db);;
      ret (trainer_response (TrainerCreate.specialization trainer)
             (assign_trainer trainer db_trainer))
  end.

Definition delete_trainer (trainer_id : Z) : Handler string :=
  db ← get_db;
  match first (trainer_with_id trainer_id) (trainers db) with
  | None => raise HTTP_404_NOT_FOUND
  | Some db_trainer =>
      commit (set_trainers (delete_first (trainer_with_id trainer_id) (trainers db)) db);;
      ret "Trainer deleted successfully"
  end.

(** ** The router

    A request reaches its endpoint together with the caller that the
    identity provider resolved from its credentials, if any.  An endpoint
    that declares no caller dependency never looks at it. *)

Inductive Request :=
| POST_sessions (session : SessionScheduleCreate.t)
| PUT_sessions (session_id : Z) (session_update : SessionScheduleCreate.t)
| DELETE_sessions (session_id : Z)
| POST_sessions_attendance (session_id : Z) (attendance_data : SessionAttendanceCreate.t)
| PUT_sessions_attendance (attendance_id : Z) (attendance_data : SessionAttendanceCreate.t)
| DELETE_sessions_attendance (attendance_id : Z)
| PUT_diet_plans (plan_id : Z) (diet_plan_update : DietPlanCreate.t)
| PUT_exercise_plans (plan_id : Z) (exercise_plan_update : ExercisePlanCreate.t)
| POST_add_trainer (trainer : TrainerCreate.t)
| GET_trainers
| GET_trainer (trainer_id : Z)
| PUT_trainer (trainer_id : Z) (trainer : TrainerCreate.t)
| DELETE_trainer (trainer_id : Z).

Inductive Response :=
| SessionScheduleResponse (s : SessionSchedule.t)
| SessionAttendanceResponse (a : SessionAttendance.t) (user : option User.t)
| DietPlanBody (r : DietPlanResponse.t)
| ExercisePlanBody (r : ExercisePlanResponse.t)
| TrainerBody (r : TrainerResponse.t)
| TrainerList (rs : list TrainerResponse.t)
| Message (message : string).

Definition route (credentials : option User.t) (req : Request) : Handler Response :=
  match req with
  | POST_sessions session =>
      SessionScheduleResponse <$> create_session session credentials
  | PUT_sessions session_id session_update =>
      SessionScheduleResponse <$> update_session session_id session_update credentials
  | DELETE_sessions session_id =>
      Message <$> delete_session session_id credentials
  | POST_sessions_attendance session_id attendance_data =>
      (λ r, SessionAttendanceResponse r.1 (Some r.2))
        <$> mark_session_attendance session_id attendance_data credentials
  | PUT_sessions_attendance attendance_id attendance_data =>
      (λ r, SessionAttendanceResponse r.1 r.2)
        <$> update_session_attendance attendance_id attendance_data credentials
  | DELETE_sessions_attendance attendance_id =>
      Message <$> delete_session_attendance attendance_id credentials
  | PUT_diet_plans plan_id diet_plan_update =>
      DietPlanBody <$> update_diet_plan plan_id diet_plan_update credentials
  | PUT_exercise_plans plan_id exercise_plan_update =>
      ExercisePlanBody <$> update_exercise_plan plan_id exercise_plan_update credentials
  | POST_add_trainer trainer => TrainerBody <$> add_trainer trainer credentials
  | GET_trainers => TrainerList <$> get_trainers credentials
  | GET_trainer trainer_id => TrainerBody <$> get_trainer_by_id trainer_id
  | PUT_trainer trainer_id trainer => TrainerBody <$> update_trainer trainer_id trainer
  | DELETE_trainer trainer_id => Message <$> delete_trainer trainer_id
  end.

End TrainerCRUD.

(** * The remaining endpoints of the router *)

(** Python truth value of an [Optional[int]] query parameter: [None] and [0]
    are both false. *)
Definition truthy_int (n : option Z) : bool :=
  match n with
  | None => false
  | Some v => negb (bool_decide (v = 0))
  end.

(** [.join(models.User, row.user_id == models.User.id)]: an inner join on the
    primary key of the user table keeps the rows whose subject has a user
    row, each once. *)
Definition joined_with_user (users : list User.t) (user_id : Z) : bool :=
  existsb (user_with_id user_id) users.

(** ** Listing sessions *)

Definition get_trainer_sessions (current_user : option User.t)
    : Handler (list SessionSchedule.t) :=
  current_trainer ← get_current_trainer current_user;
  db ← get_db;
  ret (List.filter
         (λ s, bool_decide (SessionSchedule.trainer_id s = User.id current_trainer))
         (sessions db)).

Definition get_public_sessions (current_user : option User.t)
    : Handler (list SessionSchedule.t) :=
  current_user ← get_current_active_user current_user;
  db ← get_db;
  ret (sessions db).

(** ** Listing attendance *)

Definition get_session_attendance (session_id : Z) (user_id : option Z)
    (attendance_date : option date) (current_user : option User.t)
    : Handler (list (SessionAttendance.t * option User.t)) :=
  current_user ← get_current_active_user current_user;
  db ← get_db;
  match first (session_with_id session_id) (sessions db) with
  | None => raise HTTP_404_NOT_FOUND
  | Some db_session =>
      query ←
        (if bool_decide (User.role current_user = "trainer") then
           if bool_decide (SessionSchedule.trainer_id db_session ≠ User.id current_user)
              || bool_decide (SessionSchedule.branch_name db_session ≠ User.branch current_user)
           then raise HTTP_403_FORBIDDEN
           else
             let query :=
               List.filter
                 (λ a, bool_decide (SessionAttendance.session_id a = session_id)
                       && joined_with_user (users db) (SessionAttendance.user_id a))
                 (attendances db) in
             let query :=
               if truthy_int user_id
               then List.filter
                      (λ a, bool_decide (Some (SessionAttendance.user_id a) = user_id)) query
               else query in
             let query :=
               match attendance_date with
               | Some d =>
                   List.filter
                     (λ a, bool_decide (SessionAttendance.attendance_date a = d)) query
               | None => query
               end in
             ret query
         else
           let query :=
             List.filter
               (λ a, bool_decide (SessionAttendance.session_id a = session_id)
                     && bool_decide (SessionAttendance.user_id a = User.id current_user)
                     && joined_with_user (users db) (SessionAttendance.user_id a))
               (attendances db) in
           let query :=
             match attendance_date with
             | Some d =>
                 List.filter
                   (λ a, bool_decide (SessionAttendance.attendance_date a = d)) query
             | None => query
             end in
           ret query);
      ret ((λ record,
              (record,
               first (user_with_id (SessionAttendance.user_id record)) (users db)))
             <$> query)
  end.

(** ** Assigning, listing and deleting plans *)

(** The trainer object of the create and list responses: the caller's trainer
    row with its specialization as a list, or a placeholder that carries the
    caller's id, name and branch. *)
Definition caller_trainer_schema (current_trainer : User.t) (db : DB)
    : TrainerResponse.t :=
  match first (trainer_with_id (User.id current_trainer)) (trainers db) with
  | Some trainer_data =>
      trainer_response (specialization_list (Trainer.specialization trainer_data))
        trainer_data
  | None =>
      {| TrainerResponse.id := User.id current_trainer;
         TrainerResponse.name := User.name current_trainer;
         TrainerResponse.specialization := [];
         TrainerResponse.rating := 0%float;
         TrainerResponse.experience := 0;
         TrainerResponse.phone := "";
         TrainerResponse.email := "";
         TrainerResponse.availability := None;
         TrainerResponse.branch_name := User.branch current_trainer |}
  end.

(** The constructor call of [create_diet_plan] gives no [assigned_date]; the
    model's default fills it in on insert.  [assigned] is that value, an
    input of the call. *)
Definition create_diet_plan (assigned : date) (diet_plan : DietPlanCreate.t)
    (current_user : option User.t) : Handler DietPlanResponse.t :=
  current_trainer ← get_current_trainer current_user;
  db ← get_db;
  match first (user_in_branch (DietPlanCreate.user_id diet_plan)
                 (User.branch current_trainer)) (users db) with
  | None => raise HTTP_404_NOT_FOUND
  | Some user =>
      let new_diet_plan :=
        {| DietPlan.id := next_id (DietPlan.id <$> diet_plans db);
           DietPlan.user_id := DietPlanCreate.user_id diet_plan;
           DietPlan.assigned_by_trainer_id := User.id current_trainer;
           DietPlan.title := DietPlanCreate.title diet_plan;
           DietPlan.description := DietPlanCreate.description diet_plan;
           DietPlan.assigned_date := assigned;
           DietPlan.expiry_date := DietPlanCreate.expiry_date diet_plan;
           DietPlan.branch_name := User.branch current_trainer |} in
      commit (set_diet_plans (diet_plans db ++ [new_diet_plan]) db);;
      ret {| DietPlanResponse.plan := new_diet_plan;
             DietPlanResponse.user := user;
             DietPlanResponse.assigned_by_trainer :=
               caller_trainer_schema current_trainer db |}
  end.

Definition delete_diet_plan (plan_id : Z) (current_user : option User.t)
    : Handler string :=
  current_trainer ← get_current_trainer current_user;
  db ← get_db;
  match first (own_diet_plan plan_id current_trainer) (diet_plans db) with
  | None => raise HTTP_404_NOT_FOUND
  | Some db_diet_plan =>
      commit (set_diet_plans
                (delete_first (own_diet_plan plan_id current_trainer) (diet_plans db)) db);;
      ret "Diet plan deleted successfully"
  end.

(** The loop of [get_trainer_diet_plans]: one response per plan, with the
    subject's user row; [from_orm] does not validate without a row. *)
Definition diet_plan_responses (users : list User.t)
    (assigned_by_trainer : TrainerResponse.t) (plans : list DietPlan.t)
    : option (list DietPlanResponse.t) :=
  mapM (λ dp,
          match first (user_with_id (DietPlan.user_id dp)) users with
          | None => None
          | Some user =>
              Some {| DietPlanResponse.plan := dp;
                      DietPlanResponse.user := user;
                      DietPlanResponse.assigned_by_trainer := assigned_by_trainer |}
          end) plans.

Definition get_trainer_diet_plans (user_id : option Z) (current_user : option User.t)
    : Handler (list DietPlanResponse.t) :=
  current_trainer ← get_current_trainer current_user;
  db ← get_db;
  let query :=
    List.filter
      (λ p, bool_decide (DietPlan.assigned_by_trainer_id p = User.id current_trainer)
            && bool_decide (DietPlan.branch_name p = User.branch current_trainer)
            && joined_with_user (users db) (DietPlan.user_id p))
      (diet_plans db) in
  let query :=
    if truthy_int user_id
    then List.filter (λ p, bool_decide (Some (DietPlan.user_id p) = user_id)) query
    else query in
  match diet_plan_responses (users db) (caller_trainer_schema current_trainer db) query with
  | None => raise HTTP_500_INTERNAL_SERVER_ERROR
  | Some result => ret result
  end.

Definition create_exercise_plan (assigned : date) (exercise_plan : ExercisePlanCreate.t)
    (current_user : option User.t) : Handler ExercisePlanResponse.t :=
  current_trainer ← get_current_trainer current_user;
  db ← get_db;
  match first (user_in_branch (ExercisePlanCreate.user_id exercise_plan)
                 (User.branch current_trainer)) (users db) with
  | None => raise HTTP_404_NOT_FOUND
  | Some user =>
      let new_exercise_plan :=
        {| ExercisePlan.id := next_id (ExercisePlan.id <$> exercise_plans db);
           ExercisePlan.user_id := ExercisePlanCreate.user_id exercise_plan;
           ExercisePlan.assigned_by_trainer_id := User.id current_trainer;
           ExercisePlan.title := ExercisePlanCreate.title exercise_plan;
           ExercisePlan.description := ExercisePlanCreate.description exercise_plan;
           ExercisePlan.assigned_date := assigned;
           ExercisePlan.expiry_date := ExercisePlanCreate.expiry_date exercise_plan;
           ExercisePlan.branch_name := User.branch current_trainer |} in
      commit (set_exercise_plans (exercise_plans db ++ [new_exercise_plan]) db);;
      ret {| ExercisePlanResponse.plan := new_exercise_plan;
             ExercisePlanResponse.user := user;
             ExercisePlanResponse.assigned_by_trainer :=
               caller_trainer_schema current_trainer db |}
  end.

Definition delete_exercise_plan (plan_id : Z) (current_user : option User.t)
    : Handler string :=
  current_trainer ← get_current_trainer current_user;
  db ← get_db;
  match first (own_exercise_plan plan_id current_trainer) (exercise_plans db) with
  | None => raise HTTP_404_NOT_FOUND
  | Some db_exercise_plan =>
      commit (set_exercise_plans
                (delete_first (own_exercise_plan plan_id current_trainer)
                   (exercise_plans db)) db);;
      ret "Exercise plan deleted successfully"
  end.

Definition exercise_plan_responses (users : list User.t)
    (assigned_by_trainer : TrainerResponse.t) (plans : list ExercisePlan.t)
    : option (list ExercisePlanResponse.t) :=
  mapM (λ ep,
          match first (user_with_id (ExercisePlan.user_id ep)) users with
          | None => None
          | Some user =>
              Some {| ExercisePlanResponse.plan := ep;
                      ExercisePlanResponse.user := user;
                      ExercisePlanResponse.assigned_by_trainer := assigned_by_trainer |}
          end) plans.

Definition get_trainer_exercise_plans (user_id : option Z)
    (current_user : option User.t) : Handler (list ExercisePlanResponse.t) :=
  current_trainer ← get_current_trainer current_user;
  db ← get_db;
  let query :=
    List.filter
      (λ p, bool_decide (ExercisePlan.assigned_by_trainer_id p = User.id current_trainer)
            && bool_decide (ExercisePlan.branch_name p = User.branch current_trainer)
            && joined_with_user (users db) (ExercisePlan.user_id p))
      (exercise_plans db) in
  let query :=
    if truthy_int user_id
    then List.filter (λ p, bool_decide (Some (ExercisePlan.user_id p) = user_id)) query
    else query in
  match exercise_plan_responses (users db) (caller_trainer_schema current_trainer db)
          query with
  | None => raise HTTP_500_INTERNAL_SERVER_ERROR
  | Some result => ret result
  end.

(** ** Every call of the router

    The requests of [route] together with the endpoints above; [dispatch]
    runs a call and keeps its outcome without the response body. *)

Inductive Call :=
| Routed (req : Request)
| GET_sessions
| GET_public_sessions
| GET_sessions_attendance (session_id : Z) (user_id : option Z)
    (attendance_date : option date)
| POST_diet_plans (assigned : date) (diet_plan : DietPlanCreate.t)
| DELETE_diet_plans (plan_id : Z)
| GET_diet_plans (user_id : option Z)
| POST_exercise_plans (assigned : date) (exercise_plan : ExercisePlanCreate.t)
| DELETE_exercise_plans (plan_id : Z)
| GET_exercise_plans (user_id : option Z).

Definition dispatch (get_password_hash : string -> string)
    (credentials : option User.t) (call : Call) : Handler unit :=
  match call with
  | Routed req => (λ _, tt) <$> route get_password_hash credentials req
  | GET_sessions => (λ _, tt) <$> get_trainer_sessions credentials
  | GET_public_sessions => (λ _, tt) <$> get_public_sessions credentials
  | GET_sessions_attendance session_id user_id attendance_date =>
      (λ _, tt) <$> get_session_attendance session_id user_id attendance_date credentials
  | POST_diet_plans assigned diet_plan =>
      (λ _, tt) <$> create_diet_plan assigned diet_plan credentials
  | DELETE_diet_plans plan_id => (λ _, tt) <$> delete_diet_plan plan_id credentials
  | GET_diet_plans user_id => (λ _, tt) <$> get_trainer_diet_plans user_id credentials
  | POST_exercise_plans assigned exercise_plan =>
      (λ _, tt) <$> create_exercise_plan assigned exercise_plan credentials
  | DELETE_exercise_plans plan_id =>
      (λ _, tt) <$> delete_exercise_plan plan_id credentials
  | GET_exercise_plans user_id =>
      (λ _, tt) <$> get_trainer_exercise_plans user_id credentials
  end.

(** The store after a sequence of calls, each with its own caller. *)
Fixpoint run_calls (get_password_hash : string -> string)
    (calls : list (option User.t * Call)) (db : DB) : DB :=
  match calls with
  | [] => db
  | (credentials, call) :: rest =>
      run_calls get_password_hash rest
        (dispatch get_password_hash credentials call db).2
  end.

(** The calls that only read. *)
Definition read_only (call : Call) : bool :=
  match call with
  | Routed GET_trainers | Routed (GET_trainer _)
  | GET_sessions | GET_public_sessions | GET_sessions_attendance _ _ _
  | GET_diet_plans _ | GET_exercise_plans _ => true
  | _ => false
  end.

(** The primary keys of every table are pairwise distinct. *)
Definition keys_unique (db : DB) : Prop :=
  NoDup (Trainer.id <$> trainers db)
  /\ NoDup (SessionSchedule.id <$> sessions db)
  /\ NoDup (SessionAttendance.id <$> attendances db)
  /\ NoDup (DietPlan.id <$> diet_plans db)
  /\ NoDup (ExercisePlan.id <$> exercise_plans db).

(** * Vocabulary of the properties

    Definitions that the statements below use to speak about stores, tables
    and requests. *)

(** The fields of a session that [update_session] never assigns. *)
Definition same_owner (s s' : SessionSchedule.t) : Prop :=
  SessionSchedule.id s' = SessionSchedule.id s
  /\ SessionSchedule.trainer_id s' = SessionSchedule.trainer_id s
  /\ SessionSchedule.branch_name s' = SessionSchedule.branch_name s.

(** A sequence of [update_session] calls, by any callers, failed or not. *)
Fixpoint run_session_updates
    (calls : list (option User.t * Z * SessionScheduleCreate.t)) (db : DB) : DB :=
  match calls with
  | [] => db
  | (caller, session_id, session_update) :: rest =>
      run_session_updates rest (update_session session_id session_update caller db).2
  end.

(** The subject-user check of [mark_session_attendance]: a trainer marks on
    a session of their own in their branch for a user of that branch, any
    other caller marks for themselves. *)
Definition may_mark (c : User.t) (s : SessionSchedule.t)
    (attendance_data : SessionAttendanceCreate.t) (db : DB) (user : User.t) : Prop :=
  (User.role c = "trainer"
   /\ SessionSchedule.trainer_id s = User.id c
   /\ SessionSchedule.branch_name s = User.branch c
   /\ first (user_in_branch (SessionAttendanceCreate.user_id attendance_data)
               (User.branch c)) (users db) = Some user)
  \/ (User.role c ≠ "trainer"
      /\ SessionAttendanceCreate.user_id attendance_data = User.id c
      /\ first (user_with_id (User.id c)) (users db) = Some user).

(** The record that a successful [mark_session_attendance] returns. *)
Definition marked (session_id : Z) (attendance_data : SessionAttendanceCreate.t)
    (rows : list SessionAttendance.t) : SessionAttendance.t :=
  match first (same_booking session_id (SessionAttendanceCreate.user_id attendance_data)
                 (SessionAttendanceCreate.attendance_date attendance_data)) rows with
  | Some existing_attendance =>
      SessionAttendance.set_status (SessionAttendanceCreate.status attendance_data)
        existing_attendance
  | None =>
      {| SessionAttendance.id := next_id (SessionAttendance.id <$> rows);
         SessionAttendance.session_id := session_id;
         SessionAttendance.user_id := SessionAttendanceCreate.user_id attendance_data;
         SessionAttendance.status := SessionAttendanceCreate.status attendance_data;
         SessionAttendance.attendance_date :=
           SessionAttendanceCreate.attendance_date attendance_data |}
  end.

(** The attendance table that a successful [mark_session_attendance]
    commits. *)
Definition upsert (session_id : Z) (attendance_data : SessionAttendanceCreate.t)
    (rows : list SessionAttendance.t) : list SessionAttendance.t :=
  let existing :=
    same_booking session_id (SessionAttendanceCreate.user_id attendance_data)
      (SessionAttendanceCreate.attendance_date attendance_data) in
  match first existing rows with
  | Some _ =>
      update_first existing
        (SessionAttendance.set_status (SessionAttendanceCreate.status attendance_data))
        rows
  | None => rows ++ [marked session_id attendance_data rows]
  end.

(** The invariant of the attendance table: at most one record per
    (session_id, user_id, attendance_date). *)
Definition unique_attendance (rows : list SessionAttendance.t) : Prop :=
  forall session_id user_id d,
    (length (List.filter (same_booking session_id user_id d) rows) <= 1)%nat.

(** Filters on the primary key of the plan tables. *)
Definition diet_plan_with_id (plan_id : Z) (p : DietPlan.t) : bool :=
  bool_decide (DietPlan.id p = plan_id).
Definition exercise_plan_with_id (plan_id : Z) (p : ExercisePlan.t) : bool :=
  bool_decide (ExercisePlan.id p = plan_id).

(** The body of the list response for the given trainer rows. *)
Definition listed (rows : list Trainer.t) : list TrainerResponse.t :=
  (λ t, trainer_response (specialization_list (Trainer.specialization t)) t) <$> rows.

(** The trainer rows of a branch. *)
Definition of_branch (b : option string) (rows : list Trainer.t) : list Trainer.t :=
  List.filter (λ t, bool_decide (Trainer.branch_name t = b)) rows.



(** The requests whose endpoints declare no caller dependency. *)
Definition trainer_record_request (req : Request) : Prop :=
  match req with
  | GET_trainer _ | PUT_trainer _ _ | DELETE_trainer _ => True
  | _ => False
  end.

(** What one call may do to a table keyed by [key]: nothing, append one row
    under the next key, rewrite the first row that passes a filter without
    changing its key, or remove the first row that passes a filter. *)
Inductive table_write {A} (key : A -> Z) (rows rows' : list A) : Prop :=
| write_none : rows' = rows -> table_write key rows rows'
| write_insert (x : A) :
    key x = next_id (key <$> rows) -> rows' = rows ++ [x] -> table_write key rows rows'
| write_update (p : A -> bool) (f : A -> A) :
    (forall r, p r = true -> key (f r) = key r) ->
    rows' = update_first p f rows -> table_write key rows rows'
| write_delete (p : A -> bool) :
    rows' = delete_first p rows -> table_write key rows rows'.

(** What one call may do to the store. *)
Definition store_write (db db' : DB) : Prop :=
  users db' = users db
  /\ table_write Trainer.id (trainers db) (trainers db')
  /\ table_write SessionSchedule.id (sessions db) (sessions db')
  /\ table_write SessionAttendance.id (attendances db) (attendances db')
  /\ table_write DietPlan.id (diet_plans db) (diet_plans db')
  /\ table_write ExercisePlan.id (exercise_plans db) (exercise_plans db').

(** The integers that a 64-bit integer column stores.  The handlers hand
    every integer of a payload to the storage engine as it is; a commit that
    the engine refuses for a value outside its columns is outside this
    model, in which a commit always succeeds. *)
Definition fits_integer_column (n : Z) : Prop := - 2 ^ 63 <= n < 2 ^ 63.

(** ** Example data *)

Module Example.
Definition june1 : date := mkDate 2024 6 1.
Definition june2 : date := mkDate 2024 6 2.
Definition nine : time := mkTime 9 0 0.
Definition ten : time := mkTime 10 0 0.

Definition trainer_a : User.t := User.mk 1 "A" "trainer" (Some "X").
Definition trainer_b : User.t := User.mk 2 "B" "trainer" (Some "X").
Definition member_m : User.t := User.mk 5 "M" "member" (Some "X").
Definition member_n : User.t := User.mk 6 "N" "member" (Some "Y").

Definition yoga_payload : SessionScheduleCreate.t :=
  SessionScheduleCreate.mk "Yoga" june1 nine ten 20 None.
Definition pilates_payload : SessionScheduleCreate.t :=
  SessionScheduleCreate.mk "Pilates" june2 nine ten 10 (Some "mat work").

(** The session that [trainer_a] gets from [create_session] on an empty
    table. *)
Definition yoga : SessionSchedule.t :=
  SessionSchedule.mk 1 1 "Yoga" june1 nine ten (Some "X") 20 None.

Definition book_m : SessionAttendanceCreate.t :=
  SessionAttendanceCreate.mk 5 "booked" june1.
Definition attend_m : SessionAttendanceCreate.t :=
  SessionAttendanceCreate.mk 5 "attended" june1.
Definition booked_m : SessionAttendance.t :=
  SessionAttendance.mk 1 1 5 "booked" june1.
Definition booked_m_next_day : SessionAttendance.t :=
  SessionAttendance.mk 2 1 5 "booked" june2.

Definition empty_db : DB := mkDB [] [] [] [] [] [].
Definition gym : DB :=
  mkDB [trainer_a; trainer_b; member_m; member_n] [] [yoga] [] [] [].
(** [trainer_a] after a move to branch Y, and plans assigned before it. *)
Definition trainer_a_moved : User.t := User.mk 1 "A" "trainer" (Some "Y").
Definition cut : DietPlan.t :=
  DietPlan.mk 1 5 1 "Cut" None june1 None (Some "X").
Definition strength : ExercisePlan.t :=
  ExercisePlan.mk 1 5 1 "Strength" None june1 None (Some "X").
Definition cut_for_n : DietPlanCreate.t := DietPlanCreate.mk 6 "Cut" None None.
Definition strength_for_n : ExercisePlanCreate.t :=
  ExercisePlanCreate.mk 6 "Strength" None None.
Definition gym_plans : DB :=
  mkDB [trainer_a; trainer_b; member_m; member_n] [] [yoga] [] [cut] [strength].

(** Trainer rows of two branches, and callers whose branch is the empty
    string. *)
Definition coach_x : Trainer.t :=
  Trainer.mk 1 "CX" (Some "yoga,pilates") 4.5%float 3 "100" "cx@gym" "h1" None (Some "X").
Definition coach_y : Trainer.t :=
  Trainer.mk 2 "CY" (Some "") 4%float 1 "200" "cy@gym" "h2" None (Some "Y").
Definition member_e : User.t := User.mk 7 "E" "member" (Some "").
Definition admin_e : User.t := User.mk 8 "AE" "admin" (Some "").
Definition admin_x : User.t := User.mk 9 "AX" "admin" (Some "X").
Definition root : User.t := User.mk 10 "R" "superadmin" None.
Definition gym_coaches : DB := set_trainers [coach_x; coach_y] gym.

Definition gym_booked : DB := set_attendances [booked_m] gym.
Definition gym_booked_twice : DB := set_attendances [booked_m; booked_m_next_day] gym.
End Example.

(** * Properties *)

(** ** Running handlers *)

Ltac unfold_handler :=
  unfold mbind, mret, fmap, Handler_bind, Handler_ret, Handler_fmap,
    bind, ret, raise, get_db, commit in *.

Lemma first_Some {A} (p : A -> bool) (rows : list A) (x : A) :
  first p rows = Some x -> x ∈ rows /\ p x = true.
Proof.
  unfold first. intros H. apply find_some in H as [Hin Hp].
  split; [by apply list_elem_of_In | done].
Qed.

Lemma first_None {A} (p : A -> bool) (rows : list A) :
  first p rows = None <-> Forall (λ x, p x = false) rows.
Proof.
  unfold first. induction rows as [|r rows IH]; simpl.
  - split; [constructor | done].
  - destruct (p r) eqn:E.
    + split; [done | intros H; inversion H; congruence].
    + rewrite IH. split; [by constructor | by inversion 1].
Qed.

Lemma first_is_Some {A} (p : A -> bool) (rows : list A) (x : A) :
  x ∈ rows -> p x = true -> is_Some (first p rows).
Proof.
  intros Hin Hp. destruct (first p rows) eqn:E; [by eexists |].
  apply first_None in E. rewrite Forall_forall in E.
  specialize (E x Hin). congruence.
Qed.

(** The callers that the dependencies let through. *)
Lemma get_current_trainer_ok (c : User.t) (db : DB) :
  User.role c = "trainer" -> get_current_trainer (Some c) db = (Ok c, db).
Proof.
  intros Hrole. unfold get_current_trainer, get_current_active_user.
  unfold_handler. rewrite bool_decide_eq_false_2; [done | by intros []].
Qed.

(** ** C3: absence and ownership failure of a session *)

(** C3, as stated, fails: [trainer_b] updates or deletes the existing session
    [yoga] of [trainer_a] and gets [NotFound], not [Forbidden]. *)
Lemma session_of_other_trainer_not_forbidden :
  User.role Example.trainer_b = "trainer"
  /\ Example.yoga ∈ sessions Example.gym
  /\ SessionSchedule.id Example.yoga = 1
  /\ SessionSchedule.trainer_id Example.yoga ≠ User.id Example.trainer_b
  /\ update_session 1 Example.pilates_payload (Some Example.trainer_b) Example.gym
     = (Raise NotFound, Example.gym)
  /\ delete_session 1 (Some Example.trainer_b) Example.gym
     = (Raise NotFound, Example.gym)
  /\ @Raise SessionSchedule.t NotFound ≠ Raise Forbidden.
Proof.
  repeat split; try done. by apply list_elem_of_here.
Qed.

(** C3 (amended): for a trainer caller, session update and session delete
    answer [NotFound] both when no session has the given id and when the
    sessions with that id belong to another trainer; the store is left
    unchanged. *)
Theorem session_absent_or_not_owned_is_not_found
    (db : DB) (c : User.t) (session_id : Z) (session_update : SessionScheduleCreate.t) :
  User.role c = "trainer" ->
  Forall (λ s, SessionSchedule.id s = session_id ->
               SessionSchedule.trainer_id s ≠ User.id c) (sessions db) ->
  update_session session_id session_update (Some c) db = (Raise NotFound, db)
  /\ delete_session session_id (Some c) db = (Raise NotFound, db).
Proof.
  intros Hrole Hnot.
  assert (first (own_session session_id c) (sessions db) = None) as Hnone.
  { apply first_None. eapply Forall_impl; [exact Hnot |].
    intros s Hs. unfold own_session. simpl in Hs.
    destruct (bool_decide_reflect (SessionSchedule.id s = session_id)) as [Hid|]; [|done].
    simpl. apply bool_decide_eq_false_2. by apply Hs. }
  unfold update_session, delete_session.
  split; unfold_handler; rewrite (get_current_trainer_ok c db Hrole); simpl;
    by rewrite Hnone.
Qed.

(** In the example gym, trainer B on the session of trainer A and on an id
    that no session has. *)
Lemma session_absent_or_not_owned_is_not_found_witness :
  update_session 1 Example.pilates_payload (Some Example.trainer_b) Example.gym
  = (Raise NotFound, Example.gym)
  /\ delete_session 7 (Some Example.trainer_b) Example.gym
     = (Raise NotFound, Example.gym).
Proof.
  split.
  - apply (session_absent_or_not_owned_is_not_found
             Example.gym Example.trainer_b 1 Example.pilates_payload).
    + reflexivity.
    + repeat constructor. simpl. intros _. discriminate.
  - apply (session_absent_or_not_owned_is_not_found
             Example.gym Example.trainer_b 7 Example.pilates_payload).
    + reflexivity.
    + repeat constructor. simpl. intros H. discriminate H.
Defined.

(** ** C4: a session keeps its trainer and its branch *)

Lemma Forall2_diag {A} (R : A -> A -> Prop) (rows : list A) :
  (forall x, R x x) -> Forall2 R rows rows.
Proof. intros Hrefl. induction rows; by constructor. Qed.

Lemma update_first_Forall2 {A} (R : A -> A -> Prop) (p : A -> bool) (f : A -> A)
    (rows : list A) :
  (forall x, R x x) -> (forall x, R x (f x)) ->
  Forall2 R rows (update_first p f rows).
Proof.
  intros Hrefl Hf. induction rows as [|r rows IH]; simpl; [constructor |].
  destruct (p r).
  - constructor; [apply Hf | by apply Forall2_diag].
  - by constructor.
Qed.

Lemma update_first_elem {A} (p : A -> bool) (f : A -> A) (rows : list A) (x : A) :
  first p rows = Some x -> f x ∈ update_first p f rows.
Proof.
  unfold first. induction rows as [|r rows IH]; simpl; [done |].
  destruct (p r).
  - intros [= ->]. apply list_elem_of_here.
  - intros H. apply list_elem_of_further. by apply IH.
Qed.

(** Every outcome of [update_session]: an error on an untouched store, or the
    six assignments on the first session that passes the filter. *)
Lemma update_session_cases (session_id : Z) (session_update : SessionScheduleCreate.t)
    (caller : option User.t) (db : DB) :
  (exists e, update_session session_id session_update caller db = (Raise e, db))
  \/ (exists c s,
        caller = Some c /\ User.role c = "trainer"
        /\ first (own_session session_id c) (sessions db) = Some s
        /\ update_session session_id session_update caller db
           = (Ok (assign_session session_update s),
              set_sessions (update_first (own_session session_id c)
                              (assign_session session_update) (sessions db)) db)).
Proof.
  unfold update_session, get_current_trainer, get_current_active_user.
  unfold_handler. destruct caller as [c|]; simpl; [|left; by eexists].
  destruct (bool_decide_reflect (User.role c ≠ "trainer")) as [Hne|Heq]; simpl.
  { left; by eexists. }
  destruct (first (own_session session_id c) (sessions db)) as [s|] eqn:E.
  - right. exists c, s. repeat split; try done.
    destruct (decide (User.role c = "trainer")); [done | by destruct Heq].
  - left; by eexists.
Qed.

Lemma update_session_same_owner (session_id : Z)
    (session_update : SessionScheduleCreate.t) (caller : option User.t) (db : DB) :
  Forall2 same_owner (sessions db)
    (sessions (update_session session_id session_update caller db).2).
Proof.
  assert (forall s, same_owner s s) as Hrefl by (by intros s).
  destruct (update_session_cases session_id session_update caller db)
    as [[e ->]|(c & s & _ & _ & _ & ->)]; simpl.
  - by apply Forall2_diag.
  - apply update_first_Forall2; [done | by intros x].
Qed.

Lemma run_session_updates_same_owner
    (calls : list (option User.t * Z * SessionScheduleCreate.t)) (db : DB) :
  Forall2 same_owner (sessions db) (sessions (run_session_updates calls db)).
Proof.
  revert db. induction calls as [|[[caller session_id] session_update] calls IH];
    intros db; simpl.
  - by apply Forall2_diag.
  - pose proof (update_session_same_owner session_id session_update caller db) as H1.
    specialize (IH (update_session session_id session_update caller db).2).
    revert H1 IH. generalize (sessions db).
    generalize (sessions (update_session session_id session_update caller db).2).
    generalize (sessions (run_session_updates calls
                            (update_session session_id session_update caller db).2)).
    intros l3 l2 l1 H12 H23.
    apply Forall2_same_length_lookup_2.
    + rewrite (Forall2_length _ _ _ H12). by apply (Forall2_length _ _ _ H23).
    + intros i x z Hx Hz.
      destruct (Forall2_lookup_l _ _ _ _ _ H12 Hx) as (y & Hy & Hxy).
      destruct (Forall2_lookup_l _ _ _ _ _ H23 Hy) as (z' & Hz' & Hyz).
      rewrite Hz in Hz'. injection Hz' as <-.
      destruct Hxy as (? & ? & ?), Hyz as (? & ? & ?).
      repeat split; congruence.
Qed.

Lemma create_session_cases (session : SessionScheduleCreate.t) (T : User.t)
    (db db1 : DB) (S : SessionSchedule.t) :
  create_session session (Some T) db = (Ok S, db1) ->
  User.role T = "trainer" /\ truthy (User.branch T) = true
  /\ S = {| SessionSchedule.id := next_id (SessionSchedule.id <$> sessions db);
            SessionSchedule.trainer_id := User.id T;
            SessionSchedule.session_name := SessionScheduleCreate.session_name session;
            SessionSchedule.session_date := SessionScheduleCreate.session_date session;
            SessionSchedule.start_time := SessionScheduleCreate.start_time session;
            SessionSchedule.end_time := SessionScheduleCreate.end_time session;
            SessionSchedule.branch_name := User.branch T;
            SessionSchedule.max_capacity := SessionScheduleCreate.max_capacity session;
            SessionSchedule.description := SessionScheduleCreate.description session |}
  /\ db1 = set_sessions (sessions db ++ [S]) db.
Proof.
  unfold create_session, get_current_trainer, get_current_active_user.
  unfold_handler. simpl.
  destruct (bool_decide_reflect (User.role T ≠ "trainer")) as [Hne|Heq]; simpl; [done |].
  destruct (truthy (User.branch T)) eqn:Hb; simpl; [|done].
  intros [= <- <-]. repeat split.
  destruct (decide (User.role T = "trainer")); [done | by destruct Heq].
Qed.

(** C4: a session is created only for a trainer [T] whose branch is a
    non-empty string, and the created session carries [T]'s id and [T]'s branch;
    a successful session update writes the six payload fields of one session
    and nothing else; so after any sequence of session updates the created
    session still carries [T]'s id and [T]'s branch. *)
Theorem created_session_keeps_trainer_and_branch
    (db db1 : DB) (T : User.t) (session : SessionScheduleCreate.t)
    (S : SessionSchedule.t) :
  create_session session (Some T) db = (Ok S, db1) ->
  (User.role T = "trainer"
   /\ (exists b, User.branch T = Some b /\ b ≠ "")
   /\ SessionSchedule.trainer_id S = User.id T
   /\ SessionSchedule.branch_name S = User.branch T
   /\ sessions db1 = sessions db ++ [S])
  /\ (forall calls, exists S',
        sessions (run_session_updates calls db1) !! length (sessions db) = Some S'
        /\ SessionSchedule.id S' = SessionSchedule.id S
        /\ SessionSchedule.trainer_id S' = User.id T
        /\ SessionSchedule.branch_name S' = User.branch T)
  /\ (forall db2 db3 caller session_id session_update r,
        update_session session_id session_update caller db2 = (Ok r, db3) ->
        Forall2 same_owner (sessions db2) (sessions db3)
        /\ exists s, s ∈ sessions db2
           /\ SessionSchedule.id s = session_id
           /\ same_owner s r
           /\ SessionSchedule.session_name r = SessionScheduleCreate.session_name session_update
           /\ SessionSchedule.session_date r = SessionScheduleCreate.session_date session_update
           /\ SessionSchedule.start_time r = SessionScheduleCreate.start_time session_update
           /\ SessionSchedule.end_time r = SessionScheduleCreate.end_time session_update
           /\ SessionSchedule.max_capacity r = SessionScheduleCreate.max_capacity session_update
           /\ SessionSchedule.description r = SessionScheduleCreate.description session_update
           /\ r ∈ sessions db3).
Proof.
  intros Hcreate.
  destruct (create_session_cases _ _ _ _ _ Hcreate) as (Hrole & Hb & HS & Hdb1).
  assert (sessions db1 = sessions db ++ [S]) as Hs1 by (by rewrite Hdb1).
  split; [|split].
  - split; [done |]. split.
    { unfold truthy in Hb. destruct (User.branch T) as [b|]; [|done].
      exists b. split; [done |]. intros ->. done. }
    repeat split; try done; by rewrite HS.
  - intros calls.
    pose proof (run_session_updates_same_owner calls db1) as Hown.
    assert (sessions db1 !! length (sessions db) = Some S) as Hlook.
    { rewrite Hs1. by apply list_lookup_middle. }
    destruct (Forall2_lookup_l _ _ _ _ _ Hown Hlook) as (S' & HS' & Hid & Htr & Hbr).
    exists S'. repeat split; try done.
    + by rewrite Htr, HS.
    + by rewrite Hbr, HS.
  - intros db2 db3 caller session_id session_update r Hupd.
    split.
    { pose proof (update_session_same_owner session_id session_update caller db2) as H.
      by rewrite Hupd in H. }
    destruct (update_session_cases session_id session_update caller db2)
      as [[e He]|(c & s & _ & _ & Hfirst & Hok)]; [congruence |].
    rewrite Hok in Hupd. injection Hupd as <- <-.
    destruct (first_Some _ _ _ Hfirst) as [Hin Hp].
    unfold own_session in Hp. apply andb_prop in Hp as [Hid _].
    apply bool_decide_eq_true_1 in Hid.
    exists s. repeat split; try done. simpl.
    by apply update_first_elem.
Qed.

(** Trainer A creates the yoga session in the example gym. *)
Lemma created_session_keeps_trainer_and_branch_witness :
  User.role Example.trainer_a = "trainer"
  /\ (exists b, User.branch Example.trainer_a = Some b /\ b ≠ "")
  /\ SessionSchedule.trainer_id Example.yoga = User.id Example.trainer_a
  /\ SessionSchedule.branch_name Example.yoga = User.branch Example.trainer_a
  /\ sessions Example.gym = sessions (set_sessions [] Example.gym) ++ [Example.yoga].
Proof.
  apply (created_session_keeps_trainer_and_branch
           (set_sessions [] Example.gym) Example.gym Example.trainer_a
           Example.yoga_payload Example.yoga).
  reflexivity.
Defined.

(** ** Attendance creation, step by step *)

Lemma mark_session_attendance_ok (session_id : Z)
    (attendance_data : SessionAttendanceCreate.t) (c : User.t) (db db1 : DB)
    (r : SessionAttendance.t * User.t) :
  mark_session_attendance session_id attendance_data (Some c) db = (Ok r, db1)
  <-> exists s user,
        first (session_with_id session_id) (sessions db) = Some s
        /\ may_mark c s attendance_data db user
        /\ r = (marked session_id attendance_data (attendances db), user)
        /\ db1 = set_attendances (upsert session_id attendance_data (attendances db)) db.
Proof.
  unfold mark_session_attendance, get_current_active_user, may_mark, upsert, marked.
  unfold_handler. simpl.
  destruct (first (session_with_id session_id) (sessions db)) as [s|];
    [|split; [done | by intros (? & ? & ? & _)]].
  destruct (bool_decide_reflect (User.role c = "trainer")) as [Hrole|Hrole].
  - destruct (bool_decide_reflect (SessionSchedule.trainer_id s ≠ User.id c)) as [Ht|Ht];
      simpl.
    { split; [done |]. intros (? & ? & [= <-] & [(_ & ? & _)|(? & _)] & _); done. }
    destruct (bool_decide_reflect
                (SessionSchedule.branch_name s ≠ User.branch c)) as [Hb|Hb]; simpl.
    { split; [done |]. intros (? & ? & [= <-] & [(_ & _ & ? & _)|(? & _)] & _); done. }
    destruct (first (user_in_branch _ _) (users db)) as [user|] eqn:Hu; simpl.
    + destruct (first (same_booking _ _ _) (attendances db)) as [a|] eqn:Ha.
      * split.
        -- intros [= <- <-]. exists s, user. repeat split; try done.
           left. repeat split; try done.
           ++ by destruct (decide (SessionSchedule.trainer_id s = User.id c));
                [|destruct Ht].
           ++ by destruct (decide (SessionSchedule.branch_name s = User.branch c));
                [|destruct Hb].
        -- intros (? & ? & [= <-] & [(_ & _ & _ & [= <-])|(? & _)] & -> & ->); done.
      * split.
        -- intros [= <- <-]. exists s, user. repeat split; try done.
           left. repeat split; try done.
           ++ by destruct (decide (SessionSchedule.trainer_id s = User.id c));
                [|destruct Ht].
           ++ by destruct (decide (SessionSchedule.branch_name s = User.branch c));
                [|destruct Hb].
        -- intros (? & ? & [= <-] & [(_ & _ & _ & [= <-])|(? & _)] & -> & ->); done.
    + split; [done |].
      intros (? & ? & [= <-] & [(_ & _ & _ & ?)|(? & _)] & _); done.
  - destruct (bool_decide_reflect
                (SessionAttendanceCreate.user_id attendance_data ≠ User.id c)) as [Hu|Hu];
      simpl.
    { split; [done |]. intros (? & ? & _ & [(? & _)|(_ & ? & _)] & _); done. }
    destruct (first (user_with_id (User.id c)) (users db)) as [user|] eqn:Hf; simpl.
    + destruct (first (same_booking _ _ _) (attendances db)) as [a|] eqn:Ha.
      * split.
        -- intros [= <- <-]. exists s, user. repeat split; try done.
           right. repeat split; try done.
           by destruct (decide (SessionAttendanceCreate.user_id attendance_data
                                = User.id c)); [|destruct Hu].
        -- intros (? & ? & _ & [(? & _)|(_ & _ & [= <-])] & -> & ->); done.
      * split.
        -- intros [= <- <-]. exists s, user. repeat split; try done.
           right. repeat split; try done.
           by destruct (decide (SessionAttendanceCreate.user_id attendance_data
                                = User.id c)); [|destruct Hu].
        -- intros (? & ? & _ & [(? & _)|(_ & _ & [= <-])] & -> & ->); done.
    + split; [done |].
      intros (? & ? & _ & [(? & _)|(_ & _ & ?)] & _); done.
Qed.

(** ** Rows that pass a filter, before and after a write *)

Lemma first_head_filter {A} (p : A -> bool) (rows : list A) :
  first p rows = head (List.filter p rows).
Proof.
  unfold first. induction rows as [|r rows IH]; simpl; [done |].
  by destruct (p r).
Qed.

Lemma length_update_first {A} (p : A -> bool) (f : A -> A) (rows : list A) :
  length (update_first p f rows) = length rows.
Proof.
  induction rows as [|r rows IH]; simpl; [done |].
  destruct (p r); simpl; by rewrite ?IH.
Qed.

Lemma filter_update_first_same {A} (p : A -> bool) (f : A -> A) (rows : list A) :
  (forall x, p (f x) = p x) ->
  List.filter p (update_first p f rows)
  = match List.filter p rows with
    | [] => []
    | x :: xs => f x :: xs
    end.
Proof.
  intros Hf. induction rows as [|r rows IH]; simpl; [done |].
  destruct (p r) eqn:E; simpl.
  - by rewrite Hf, E.
  - by rewrite E.
Qed.

Lemma filter_update_first_length {A} (q p : A -> bool) (f : A -> A) (rows : list A) :
  (forall x, q (f x) = q x) ->
  length (List.filter q (update_first p f rows)) = length (List.filter q rows).
Proof.
  intros Hf. induction rows as [|r rows IH]; simpl; [done |].
  destruct (p r); simpl.
  - rewrite Hf. by destruct (q r).
  - destruct (q r); simpl; by rewrite ?IH.
Qed.

Lemma filter_delete_first_length {A} (q p : A -> bool) (rows : list A) :
  (length (List.filter q (delete_first p rows)) <= length (List.filter q rows))%nat.
Proof.
  induction rows as [|r rows IH]; simpl; [done |].
  destruct (p r); simpl.
  - destruct (q r); simpl; lia.
  - destruct (q r); simpl; lia.
Qed.

Lemma same_booking_set_status (session_id user_id : Z) (d : date) (v : string)
    (a : SessionAttendance.t) :
  same_booking session_id user_id d (SessionAttendance.set_status v a)
  = same_booking session_id user_id d a.
Proof. done. Qed.

Lemma same_booking_true (session_id user_id : Z) (d : date) (a : SessionAttendance.t) :
  same_booking session_id user_id d a = true
  <-> SessionAttendance.session_id a = session_id
      /\ SessionAttendance.user_id a = user_id
      /\ SessionAttendance.attendance_date a = d.
Proof.
  unfold same_booking. rewrite !andb_true_iff, !bool_decide_eq_true. tauto.
Qed.

(** After [mark_session_attendance] the table holds the returned record for
    the submitted tuple, and only that record if it held at most one
    before. *)
Lemma filter_upsert (session_id : Z) (attendance_data : SessionAttendanceCreate.t)
    (rows : list SessionAttendance.t) :
  let existing :=
    same_booking session_id (SessionAttendanceCreate.user_id attendance_data)
      (SessionAttendanceCreate.attendance_date attendance_data) in
  (length (List.filter existing rows) <= 1)%nat ->
  List.filter existing (upsert session_id attendance_data rows)
  = [marked session_id attendance_data rows].
Proof.
  intros existing Hone. unfold upsert, marked. fold existing.
  rewrite (first_head_filter existing rows).
  destruct (List.filter existing rows) as [|a [|b rest]] eqn:E; simpl in *; [| |lia].
  - rewrite List.filter_app, E. simpl.
    replace (existing _) with true; [done |].
    symmetry. by apply same_booking_true.
  - rewrite filter_update_first_same by (intros; apply same_booking_set_status).
    by rewrite E.
Qed.

(** ** C1: booking the same tuple twice *)

(** C1, as stated, fails in a store that the router itself produces: member
    M books the yoga session for 1 June and for 2 June and moves the second
    booking to 1 June with [update_session_attendance]; the store then holds
    two records for (session 1, user 5, 1 June), and after M creates
    attendance for that tuple twice more it still holds two, the second of
    them with the status it had. *)
Lemma booking_twice_on_duplicates_leaves_two :
  let m := Some Example.member_m in
  let booked_twice :=
    (mark_session_attendance 1 (SessionAttendanceCreate.mk 5 "booked" Example.june2) m
       (mark_session_attendance 1 Example.book_m m Example.gym).2).2 in
  let reached := (update_session_attendance 2 Example.book_m m booked_twice).2 in
  let attended := SessionAttendanceCreate.mk 5 "attended" Example.june1 in
  let cancelled := SessionAttendanceCreate.mk 5 "cancelled" Example.june1 in
  Example.yoga ∈ sessions reached
  /\ (mark_session_attendance 1 attended m reached).1
     = Ok (SessionAttendance.mk 1 1 5 "attended" Example.june1, Example.member_m)
  /\ (mark_session_attendance 1 cancelled m
        (mark_session_attendance 1 attended m reached).2).1
     = Ok (SessionAttendance.mk 1 1 5 "cancelled" Example.june1, Example.member_m)
  /\ List.filter (same_booking 1 5 Example.june1)
       (attendances
          (mark_session_attendance 1 cancelled m
             (mark_session_attendance 1 attended m reached).2).2)
     = [SessionAttendance.mk 1 1 5 "cancelled" Example.june1;
        SessionAttendance.mk 2 1 5 "booked" Example.june1].
Proof. repeat split. apply list_elem_of_here. Qed.

(** C1 (amended): in a store that holds at most one attendance record for
    the tuple (session_id, user_id, attendance_date), a caller who passes
    the checks of attendance creation on an existing session creates
    attendance for the tuple with success, and again with success; the first
    call appends the record when the tuple had none; after the second call
    the store holds exactly one record for the tuple: the record of the
    first call with its status overwritten by the status submitted last, in
    a table that has not grown.  The same holds whoever makes the second
    call with success. *)
Theorem booking_twice_is_one_record
    (db : DB) (c : User.t) (session_id : Z)
    (first_data second_data : SessionAttendanceCreate.t)
    (s : SessionSchedule.t) (user : User.t) :
  SessionAttendanceCreate.user_id second_data = SessionAttendanceCreate.user_id first_data ->
  SessionAttendanceCreate.attendance_date second_data
  = SessionAttendanceCreate.attendance_date first_data ->
  (length (List.filter
             (same_booking session_id (SessionAttendanceCreate.user_id first_data)
                (SessionAttendanceCreate.attendance_date first_data))
             (attendances db)) <= 1)%nat ->
  first (session_with_id session_id) (sessions db) = Some s ->
  may_mark c s first_data db user ->
  exists r1 db1 r2 db2,
    mark_session_attendance session_id first_data (Some c) db = (Ok r1, db1)
    /\ mark_session_attendance session_id second_data (Some c) db1 = (Ok r2, db2)
    /\ List.filter
         (same_booking session_id (SessionAttendanceCreate.user_id first_data)
            (SessionAttendanceCreate.attendance_date first_data))
         (attendances db1) = [r1.1]
    /\ SessionAttendance.status r1.1 = SessionAttendanceCreate.status first_data
    /\ (List.filter
          (same_booking session_id (SessionAttendanceCreate.user_id first_data)
             (SessionAttendanceCreate.attendance_date first_data))
          (attendances db) = [] ->
        attendances db1 = attendances db ++ [r1.1])
    /\ List.filter
         (same_booking session_id (SessionAttendanceCreate.user_id first_data)
            (SessionAttendanceCreate.attendance_date first_data))
         (attendances db2) = [r2.1]
    /\ SessionAttendance.status r2.1 = SessionAttendanceCreate.status second_data
    /\ r2.1 = SessionAttendance.set_status
                (SessionAttendanceCreate.status second_data) r1.1
    /\ length (attendances db2) = length (attendances db1)
    /\ (forall c2 r2' db2',
          mark_session_attendance session_id second_data (Some c2) db1 = (Ok r2', db2') ->
          List.filter
            (same_booking session_id (SessionAttendanceCreate.user_id first_data)
               (SessionAttendanceCreate.attendance_date first_data))
            (attendances db2') = [r2'.1]
          /\ SessionAttendance.status r2'.1 = SessionAttendanceCreate.status second_data
          /\ r2'.1 = SessionAttendance.set_status
                       (SessionAttendanceCreate.status second_data) r1.1
          /\ length (attendances db2') = length (attendances db1)).
Proof.
  intros Huid Hdate Hone Hs Hmay.
  set (existing := same_booking session_id (SessionAttendanceCreate.user_id first_data)
                     (SessionAttendanceCreate.attendance_date first_data)) in *.
  set (rows1 := upsert session_id first_data (attendances db)).
  pose proof (filter_upsert session_id first_data (attendances db) Hone) as Hrows1.
  fold existing rows1 in Hrows1.
  assert (first existing rows1
          = Some (marked session_id first_data (attendances db))) as Hfound.
  { by rewrite first_head_filter, Hrows1. }
  assert (List.filter existing (upsert session_id second_data rows1)
          = [marked session_id second_data rows1]) as Hrows2.
  { pose proof (filter_upsert session_id second_data rows1) as H.
    simpl in H. rewrite Huid, Hdate in H. fold existing in H.
    apply H. rewrite Hrows1. simpl. lia. }
  assert (marked session_id second_data rows1
          = SessionAttendance.set_status (SessionAttendanceCreate.status second_data)
              (marked session_id first_data (attendances db))) as Hmarked.
  { unfold marked at 1. rewrite Huid, Hdate. fold existing. by rewrite Hfound. }
  assert (length (upsert session_id second_data rows1) = length rows1) as Hlen.
  { unfold upsert at 1. rewrite Huid, Hdate. fold existing. rewrite Hfound.
    apply length_update_first. }
  exists (marked session_id first_data (attendances db), user),
    (set_attendances rows1 db),
    (marked session_id second_data rows1, user),
    (set_attendances (upsert session_id second_data rows1) (set_attendances rows1 db)).
  split; [|split; [|split; [|split; [|split; [|split; [|split; [|split; [|split]]]]]]]].
  - apply mark_session_attendance_ok. by exists s, user.
  - apply mark_session_attendance_ok. exists s, user. simpl.
    repeat split; try done.
    destruct Hmay as [(? & ? & ? & ?)|(? & ? & ?)]; [left | right]; simpl;
      rewrite ?Huid; done.
  - exact Hrows1.
  - simpl. unfold marked. fold existing. by destruct (first existing (attendances db)).
  - simpl. intros Hnone. subst rows1. unfold upsert, marked. fold existing.
    by rewrite (first_head_filter existing), Hnone.
  - exact Hrows2.
  - simpl. by rewrite Hmarked.
  - simpl. by rewrite Hmarked.
  - exact Hlen.
  - intros c2 r2' db2' Hsecond.
    apply mark_session_attendance_ok in Hsecond as (s2 & user2 & _ & _ & -> & ->).
    simpl. fold rows1. split; [exact Hrows2 |]. split; [by rewrite Hmarked |].
    split; [by rewrite Hmarked | exact Hlen].
Qed.

(** Member M books the yoga session in the gym without bookings and is
    marked as attended. *)
Lemma booking_twice_is_one_record_witness :
  exists r1 db1 r2 db2,
    mark_session_attendance 1 Example.book_m (Some Example.member_m) Example.gym
    = (Ok r1, db1)
    /\ mark_session_attendance 1 Example.attend_m (Some Example.member_m) db1
       = (Ok r2, db2)
    /\ List.filter (same_booking 1 5 Example.june1) (attendances db1) = [r1.1]
    /\ SessionAttendance.status r1.1 = "booked"
    /\ (List.filter (same_booking 1 5 Example.june1) (attendances Example.gym) = [] ->
        attendances db1 = attendances Example.gym ++ [r1.1])
    /\ List.filter (same_booking 1 5 Example.june1) (attendances db2) = [r2.1]
    /\ SessionAttendance.status r2.1 = "attended"
    /\ r2.1 = SessionAttendance.set_status "attended" r1.1
    /\ length (attendances db2) = length (attendances db1).
Proof.
  destruct (booking_twice_is_one_record Example.gym Example.member_m 1
              Example.book_m Example.attend_m Example.yoga Example.member_m)
    as (r1 & db1 & r2 & db2 & H1 & H2 & H3 & H4 & H5 & H6 & H7 & H8 & H9 & _).
  - reflexivity.
  - reflexivity.
  - simpl. lia.
  - reflexivity.
  - right. split; [discriminate |]. split; reflexivity.
  - exists r1, db1, r2, db2. repeat split; assumption.
Defined.

(** ** C2: at most one attendance record per tuple *)

Lemma upsert_unique (session_id : Z) (attendance_data : SessionAttendanceCreate.t)
    (rows : list SessionAttendance.t) :
  unique_attendance rows -> unique_attendance (upsert session_id attendance_data rows).
Proof.
  intros Huniq sid uid d. unfold upsert.
  destruct (first _ rows) as [a|] eqn:E.
  - rewrite filter_update_first_length by (intros; apply same_booking_set_status).
    apply Huniq.
  - rewrite List.filter_app. rewrite length_app. simpl.
    destruct (same_booking sid uid d (marked session_id attendance_data rows)) eqn:Hnew;
      simpl; [|specialize (Huniq sid uid d); lia].
    unfold marked in Hnew. rewrite E in Hnew.
    apply same_booking_true in Hnew as (<- & <- & <-). simpl.
    rewrite first_head_filter in E.
    destruct (List.filter _ rows); [simpl; lia | done].
Qed.

(** Attendance creation keeps the invariant, whatever its outcome. *)
Lemma mark_session_attendance_unique (session_id : Z)
    (attendance_data : SessionAttendanceCreate.t) (caller : option User.t) (db : DB) :
  unique_attendance (attendances db) ->
  unique_attendance
    (attendances (mark_session_attendance session_id attendance_data caller db).2).
Proof.
  intros Huniq.
  destruct (mark_session_attendance session_id attendance_data caller db)
    as [[r|e] db1] eqn:E; simpl.
  - destruct caller as [c|]; [|done].
    apply mark_session_attendance_ok in E as (s & user & _ & _ & _ & ->). simpl.
    by apply upsert_unique.
  - replace db1 with db; [done |].
    revert E. unfold mark_session_attendance, get_current_active_user.
    unfold_handler. intros E.
    repeat (simplify_eq/=; try done; case_match).
Qed.

(** Attendance deletion keeps the invariant, whatever its outcome. *)
Lemma delete_session_attendance_unique (attendance_id : Z) (caller : option User.t)
    (db : DB) :
  unique_attendance (attendances db) ->
  unique_attendance (attendances (delete_session_attendance attendance_id caller db).2).
Proof.
  intros Huniq.
  assert (unique_attendance
            (delete_first (attendance_with_id attendance_id) (attendances db))) as Hdel.
  { intros sid uid d. etrans; [apply filter_delete_first_length | apply Huniq]. }
  unfold delete_session_attendance, get_current_active_user.
  unfold_handler.
  repeat (simplify_eq/=; try done; case_match).
Qed.

(** C2 fails on the update path: in a store that satisfies the invariant,
    member M holds a booking for 1 June and a booking for 2 June of the same
    session; M moves the second booking to 1 June through
    [update_session_attendance]; the update succeeds and the store then holds
    two records for (session 1, user 5, 1 June). *)
Theorem update_session_attendance_duplicates_booking :
  unique_attendance (attendances Example.gym_booked_twice)
  /\ exists r db',
       update_session_attendance 2 Example.book_m (Some Example.member_m)
         Example.gym_booked_twice = (Ok r, db')
       /\ List.filter (same_booking 1 5 Example.june1) (attendances db')
          = [Example.booked_m; SessionAttendance.mk 2 1 5 "booked" Example.june1]
       /\ ~ unique_attendance (attendances db').
Proof.
  split.
  - intros sid uid d. simpl.
    destruct (same_booking sid uid d Example.booked_m) eqn:E1;
      destruct (same_booking sid uid d Example.booked_m_next_day) eqn:E2;
      simpl; try lia.
    apply same_booking_true in E1 as (_ & _ & <-).
    apply same_booking_true in E2 as (_ & _ & ?). done.
  - exists (SessionAttendance.mk 2 1 5 "booked" Example.june1, Some Example.member_m),
      (set_attendances
         [Example.booked_m; SessionAttendance.mk 2 1 5 "booked" Example.june1]
         Example.gym).
    split; [reflexivity |]. split; [reflexivity |].
    intros H. specialize (H 1 5 Example.june1). simpl in H. lia.
Qed.

(** ** C5: a member and the attendance records of other users *)

(** C5, as stated, fails on creation: member M submits an attendance record
    for user 6 on a session id that no session has, and the answer is
    [NotFound], not [Forbidden]; the session lookup comes before the check of
    the subject user. *)
Lemma member_marks_other_user_on_absent_session :
  User.role Example.member_m ≠ "trainer"
  /\ SessionAttendanceCreate.user_id (SessionAttendanceCreate.mk 6 "booked" Example.june1)
     ≠ User.id Example.member_m
  /\ mark_session_attendance 7 (SessionAttendanceCreate.mk 6 "booked" Example.june1)
       (Some Example.member_m) Example.gym
     = (Raise NotFound, Example.gym)
  /\ @Raise (SessionAttendance.t * User.t) NotFound ≠ Raise Forbidden.
Proof. repeat split; done. Qed.

(** C5 (amended): for a caller who is not a trainer, creating an attendance
    record for another user on an existing session, updating a stored
    attendance record of another user or submitting another user_id for a
    stored record, and deleting a stored attendance record of another user
    all fail with [Forbidden]; creation for another user on an absent session
    fails with [NotFound]; in every case the store is left as it was. *)
Theorem member_cannot_touch_attendance_of_others (db : DB) (c : User.t) :
  User.role c ≠ "trainer" ->
  (forall session_id attendance_data,
     SessionAttendanceCreate.user_id attendance_data ≠ User.id c ->
     ((exists s, s ∈ sessions db /\ SessionSchedule.id s = session_id) ->
      mark_session_attendance session_id attendance_data (Some c) db
      = (Raise Forbidden, db))
     /\ (Forall (λ s, SessionSchedule.id s ≠ session_id) (sessions db) ->
         mark_session_attendance session_id attendance_data (Some c) db
         = (Raise NotFound, db)))
  /\ (forall attendance_id attendance_data a,
        first (attendance_with_id attendance_id) (attendances db) = Some a ->
        SessionAttendance.user_id a ≠ User.id c
        \/ SessionAttendanceCreate.user_id attendance_data ≠ User.id c ->
        update_session_attendance attendance_id attendance_data (Some c) db
        = (Raise Forbidden, db))
  /\ (forall attendance_id a,
        first (attendance_with_id attendance_id) (attendances db) = Some a ->
        SessionAttendance.user_id a ≠ User.id c ->
        delete_session_attendance attendance_id (Some c) db = (Raise Forbidden, db)).
Proof.
  intros Hrole. split; [|split].
  - intros session_id attendance_data Hother. split.
    + intros (s & Hin & Hid).
      destruct (first_is_Some (session_with_id session_id) (sessions db) s Hin)
        as [s' Hs']; [by apply bool_decide_eq_true_2 |].
      unfold mark_session_attendance, get_current_active_user. unfold_handler.
      simpl. rewrite Hs'.
      rewrite (bool_decide_eq_false_2 _ Hrole).
      by rewrite (bool_decide_eq_true_2 _ Hother).
    + intros Habsent.
      assert (first (session_with_id session_id) (sessions db) = None) as Hnone.
      { apply first_None. eapply Forall_impl; [exact Habsent |].
        intros s Hs. by apply bool_decide_eq_false_2. }
      unfold mark_session_attendance, get_current_active_user. unfold_handler.
      simpl. by rewrite Hnone.
  - intros attendance_id attendance_data a Ha Hother.
    unfold update_session_attendance, get_current_active_user. unfold_handler.
    simpl. rewrite Ha. rewrite (bool_decide_eq_false_2 _ Hrole).
    destruct (bool_decide_reflect (SessionAttendance.user_id a ≠ User.id c));
      [done |].
    destruct Hother as [Hother|Hother]; [done |].
    by rewrite (bool_decide_eq_true_2 _ Hother).
  - intros attendance_id a Ha Hother.
    unfold delete_session_attendance, get_current_active_user. unfold_handler.
    simpl. rewrite Ha. rewrite (bool_decide_eq_false_2 _ Hrole).
    by rewrite (bool_decide_eq_true_2 _ Hother).
Qed.

(** Member N against the booking of member M. *)
Lemma member_cannot_touch_attendance_of_others_witness :
  mark_session_attendance 1 Example.book_m (Some Example.member_n) Example.gym_booked
  = (Raise Forbidden, Example.gym_booked)
  /\ update_session_attendance 1 Example.attend_m (Some Example.member_n)
       Example.gym_booked
     = (Raise Forbidden, Example.gym_booked)
  /\ delete_session_attendance 1 (Some Example.member_n) Example.gym_booked
     = (Raise Forbidden, Example.gym_booked).
Proof.
  assert (User.role Example.member_n ≠ "trainer") as Hrole by discriminate.
  destruct (member_cannot_touch_attendance_of_others
              Example.gym_booked Example.member_n Hrole) as (Hmark & Hupdate & Hdelete).
  split; [|split].
  - apply (Hmark 1 Example.book_m); [discriminate |].
    exists Example.yoga. split; [apply list_elem_of_here | reflexivity].
  - apply (Hupdate 1 Example.attend_m Example.booked_m); [reflexivity |].
    left. discriminate.
  - apply (Hdelete 1 Example.booked_m); [reflexivity | discriminate].
Defined.

(** ** C10: a member books any existing session *)

(** C10: a caller who is not a trainer, who submits their own id and who has
    a row in the user table creates attendance on every existing session:
    the call returns the record for the submitted tuple with the submitted
    status together with the caller's user row, and the record is in the
    committed table, appended when the tuple had no record and rewritten in
    place otherwise.  Nothing in the premises relates the caller's branch to
    the session's branch, and the outcome is the same whatever branch the
    caller has. *)
Theorem member_books_any_existing_session
    (db : DB) (c : User.t) (session_id : Z)
    (attendance_data : SessionAttendanceCreate.t) (s : SessionSchedule.t) (u : User.t) :
  User.role c ≠ "trainer" ->
  SessionAttendanceCreate.user_id attendance_data = User.id c ->
  s ∈ sessions db -> SessionSchedule.id s = session_id ->
  u ∈ users db -> User.id u = User.id c ->
  (exists a user db',
     mark_session_attendance session_id attendance_data (Some c) db = (Ok (a, user), db')
     /\ User.id user = User.id c
     /\ SessionAttendance.session_id a = session_id
     /\ SessionAttendance.user_id a = User.id c
     /\ SessionAttendance.attendance_date a
        = SessionAttendanceCreate.attendance_date attendance_data
     /\ SessionAttendance.status a = SessionAttendanceCreate.status attendance_data
     /\ a ∈ attendances db'
     /\ (attendances db' = attendances db ++ [a]
         \/ length (attendances db') = length (attendances db))
     /\ sessions db' = sessions db /\ users db' = users db)
  /\ (forall b,
        mark_session_attendance session_id attendance_data
          (Some (User.set_branch b c)) db
        = mark_session_attendance session_id attendance_data (Some c) db).
Proof.
  intros Hrole Hself Hs Hsid Hu Huid. split.
  - destruct (first_is_Some (session_with_id session_id) (sessions db) s Hs)
      as [s' Hs']; [by apply bool_decide_eq_true_2 |].
    destruct (first_is_Some (user_with_id (User.id c)) (users db) u Hu)
      as [user Huser]; [by apply bool_decide_eq_true_2 |].
    exists (marked session_id attendance_data (attendances db)), user,
      (set_attendances (upsert session_id attendance_data (attendances db)) db).
    split.
    { apply mark_session_attendance_ok. exists s', user. repeat split; try done.
      right. by repeat split. }
    apply first_Some in Huser as [_ Huser]. apply bool_decide_eq_true_1 in Huser.
    unfold marked, upsert. simpl.
    destruct (first _ (attendances db)) as [existing|] eqn:E; simpl.
    + destruct (first_Some _ _ _ E) as [_ Hsame].
      apply same_booking_true in Hsame as (? & ? & ?).
      repeat split; try done; try congruence.
      * by apply update_first_elem.
      * right. apply length_update_first.
    + unfold marked. rewrite E. repeat split; try done.
      * apply elem_of_app. right. apply list_elem_of_here.
      * by left.
  - intros b. unfold mark_session_attendance, get_current_active_user.
    unfold_handler. simpl.
    destruct (first (session_with_id session_id) (sessions db)); [|done].
    by rewrite !(bool_decide_eq_false_2 _ Hrole).
Qed.

(** Member N of branch Y books the yoga session of branch X. *)
Lemma member_books_any_existing_session_witness :
  exists a user db',
    mark_session_attendance 1 (SessionAttendanceCreate.mk 6 "booked" Example.june1)
      (Some Example.member_n) Example.gym = (Ok (a, user), db')
    /\ User.id user = 6
    /\ SessionAttendance.session_id a = 1
    /\ SessionAttendance.user_id a = 6
    /\ SessionAttendance.attendance_date a = Example.june1
    /\ SessionAttendance.status a = "booked"
    /\ a ∈ attendances db'
    /\ (attendances db' = attendances Example.gym ++ [a]
        \/ length (attendances db') = length (attendances Example.gym))
    /\ sessions db' = sessions Example.gym /\ users db' = users Example.gym.
Proof.
  apply (member_books_any_existing_session Example.gym Example.member_n 1
           (SessionAttendanceCreate.mk 6 "booked" Example.june1)
           Example.yoga Example.member_n).
  - discriminate.
  - reflexivity.
  - apply list_elem_of_here.
  - reflexivity.
  - do 3 apply list_elem_of_further. apply list_elem_of_here.
  - reflexivity.
Defined.

(** ** C6: the subject user of a plan cannot be changed *)

(** If the first row that passes [q] also passes [p], and [p] implies [q],
    it is the first row that passes [p]. *)
Lemma first_stronger {A} (p q : A -> bool) (rows : list A) (x : A) :
  (forall y, p y = true -> q y = true) ->
  first q rows = Some x -> p x = true -> first p rows = Some x.
Proof.
  intros Hpq. unfold first. induction rows as [|r rows IH]; simpl; [done |].
  destruct (q r) eqn:Eq.
  - intros [= ->] Hp. by rewrite Hp.
  - intros Hq Hp. destruct (p r) eqn:Ep; [|by apply IH].
    apply Hpq in Ep. congruence.
Qed.

(** C6, as stated, fails for a plan whose branch is not the caller's: trainer
    A assigned the plans in branch X and is now in branch Y; an update that
    names another subject user is answered [NotFound], not [InvalidState]. *)
Lemma plan_of_moved_trainer_is_not_found :
  User.role Example.trainer_a_moved = "trainer"
  /\ Example.cut ∈ diet_plans Example.gym_plans
  /\ DietPlan.assigned_by_trainer_id Example.cut = User.id Example.trainer_a_moved
  /\ DietPlanCreate.user_id Example.cut_for_n ≠ DietPlan.user_id Example.cut
  /\ update_diet_plan 1 Example.cut_for_n (Some Example.trainer_a_moved) Example.gym_plans
     = (Raise NotFound, Example.gym_plans)
  /\ Example.strength ∈ exercise_plans Example.gym_plans
  /\ ExercisePlan.assigned_by_trainer_id Example.strength
     = User.id Example.trainer_a_moved
  /\ ExercisePlanCreate.user_id Example.strength_for_n
     ≠ ExercisePlan.user_id Example.strength
  /\ update_exercise_plan 1 Example.strength_for_n (Some Example.trainer_a_moved)
       Example.gym_plans
     = (Raise NotFound, Example.gym_plans)
  /\ @Raise DietPlanResponse.t NotFound ≠ Raise InvalidState.
Proof. repeat split; try done; apply list_elem_of_here. Qed.

(** C6 (amended): for a trainer caller and the stored diet plan or exercise
    plan with the given id, assigned by that trainer and carrying the
    trainer's branch: an update whose payload names another user_id is
    rejected with [InvalidState] and the store is left as it was.  When no
    plan with that id assigned by the trainer carries the trainer's branch,
    the answer is [NotFound], again on an untouched store. *)
Theorem plan_subject_change_is_invalid_state (db : DB) (c : User.t) (plan_id : Z) :
  User.role c = "trainer" ->
  (forall diet_plan_update p,
     first (diet_plan_with_id plan_id) (diet_plans db) = Some p ->
     DietPlan.assigned_by_trainer_id p = User.id c ->
     DietPlan.branch_name p = User.branch c ->
     DietPlanCreate.user_id diet_plan_update ≠ DietPlan.user_id p ->
     update_diet_plan plan_id diet_plan_update (Some c) db = (Raise InvalidState, db))
  /\ (forall exercise_plan_update p,
        first (exercise_plan_with_id plan_id) (exercise_plans db) = Some p ->
        ExercisePlan.assigned_by_trainer_id p = User.id c ->
        ExercisePlan.branch_name p = User.branch c ->
        ExercisePlanCreate.user_id exercise_plan_update ≠ ExercisePlan.user_id p ->
        update_exercise_plan plan_id exercise_plan_update (Some c) db
        = (Raise InvalidState, db))
  /\ (forall diet_plan_update,
        Forall (λ p, DietPlan.id p = plan_id ->
                     DietPlan.assigned_by_trainer_id p = User.id c ->
                     DietPlan.branch_name p ≠ User.branch c) (diet_plans db) ->
        update_diet_plan plan_id diet_plan_update (Some c) db = (Raise NotFound, db))
  /\ (forall exercise_plan_update,
        Forall (λ p, ExercisePlan.id p = plan_id ->
                     ExercisePlan.assigned_by_trainer_id p = User.id c ->
                     ExercisePlan.branch_name p ≠ User.branch c) (exercise_plans db) ->
        update_exercise_plan plan_id exercise_plan_update (Some c) db
        = (Raise NotFound, db)).
Proof.
  intros Hrole. split; [|split; [|split]].
  - intros diet_plan_update p Hp Hby Hbranch Huser.
    assert (first (own_diet_plan plan_id c) (diet_plans db) = Some p) as Hown.
    { apply (first_stronger _ (diet_plan_with_id plan_id)); [|done|].
      - intros y Hy. unfold own_diet_plan in Hy.
        by apply andb_prop in Hy as [[Hy _]%andb_prop _].
      - apply first_Some in Hp as [_ Hp]. unfold own_diet_plan.
        unfold diet_plan_with_id in Hp. rewrite Hp. simpl.
        by rewrite !bool_decide_eq_true_2. }
    unfold update_diet_plan. unfold_handler.
    rewrite (get_current_trainer_ok c db Hrole). simpl. rewrite Hown.
    by rewrite (bool_decide_eq_true_2 _ Huser).
  - intros exercise_plan_update p Hp Hby Hbranch Huser.
    assert (first (own_exercise_plan plan_id c) (exercise_plans db) = Some p) as Hown.
    { apply (first_stronger _ (exercise_plan_with_id plan_id)); [|done|].
      - intros y Hy. unfold own_exercise_plan in Hy.
        by apply andb_prop in Hy as [[Hy _]%andb_prop _].
      - apply first_Some in Hp as [_ Hp]. unfold own_exercise_plan.
        unfold exercise_plan_with_id in Hp. rewrite Hp. simpl.
        by rewrite !bool_decide_eq_true_2. }
    unfold update_exercise_plan. unfold_handler.
    rewrite (get_current_trainer_ok c db Hrole). simpl. rewrite Hown.
    by rewrite (bool_decide_eq_true_2 _ Huser).
  - intros diet_plan_update Hnone.
    assert (first (own_diet_plan plan_id c) (diet_plans db) = None) as Hown.
    { apply first_None. eapply Forall_impl; [exact Hnone |].
      intros p Hp. unfold own_diet_plan. simpl in Hp.
      destruct (bool_decide_reflect (DietPlan.id p = plan_id)); [|done].
      destruct (bool_decide_reflect (DietPlan.assigned_by_trainer_id p = User.id c));
        [|done].
      simpl. apply bool_decide_eq_false_2. by apply Hp. }
    unfold update_diet_plan. unfold_handler.
    rewrite (get_current_trainer_ok c db Hrole). simpl. by rewrite Hown.
  - intros exercise_plan_update Hnone.
    assert (first (own_exercise_plan plan_id c) (exercise_plans db) = None) as Hown.
    { apply first_None. eapply Forall_impl; [exact Hnone |].
      intros p Hp. unfold own_exercise_plan. simpl in Hp.
      destruct (bool_decide_reflect (ExercisePlan.id p = plan_id)); [|done].
      destruct (bool_decide_reflect
                  (ExercisePlan.assigned_by_trainer_id p = User.id c)); [|done].
      simpl. apply bool_decide_eq_false_2. by apply Hp. }
    unfold update_exercise_plan. unfold_handler.
    rewrite (get_current_trainer_ok c db Hrole). simpl. by rewrite Hown.
Qed.

(** Trainer A, still in branch X, names member N in the plans of member M. *)
Lemma plan_subject_change_is_invalid_state_witness :
  update_diet_plan 1 Example.cut_for_n (Some Example.trainer_a) Example.gym_plans
  = (Raise InvalidState, Example.gym_plans)
  /\ update_exercise_plan 1 Example.strength_for_n (Some Example.trainer_a)
       Example.gym_plans
     = (Raise InvalidState, Example.gym_plans).
Proof.
  assert (User.role Example.trainer_a = "trainer") as Hrole by reflexivity.
  destruct (plan_subject_change_is_invalid_state
              Example.gym_plans Example.trainer_a 1 Hrole) as (Hdiet & Hexercise & _).
  split.
  - apply (Hdiet Example.cut_for_n Example.cut);
      [reflexivity | reflexivity | reflexivity | discriminate].
  - apply (Hexercise Example.strength_for_n Example.strength);
      [reflexivity | reflexivity | reflexivity | discriminate].
Defined.

(** ** C7: who sees which trainers *)

(** C7, as stated, fails for a branch that is the empty string: a member
    whose branch is [""], which is not null, receives the trainers of every
    branch, and an admin whose branch is [""] receives an error. *)
Lemma empty_branch_is_no_branch :
  User.branch Example.member_e = Some ""
  /\ User.role Example.member_e ≠ "admin"
  /\ User.role Example.member_e ≠ "superadmin"
  /\ get_trainers (Some Example.member_e) Example.gym_coaches
     = (Ok (listed [Example.coach_x; Example.coach_y]), Example.gym_coaches)
  /\ of_branch (User.branch Example.member_e) (trainers Example.gym_coaches) = []
  /\ User.branch Example.admin_e = Some ""
  /\ User.role Example.admin_e = "admin"
  /\ get_trainers (Some Example.admin_e) Example.gym_coaches
     = (Raise InvalidState, Example.gym_coaches).
Proof. repeat split; done. Qed.

(** C7 (amended): an admin whose branch is a non-empty string receives
    exactly the trainers of that branch; a superadmin receives all trainers;
    any other caller whose branch is a non-empty string receives exactly the
    trainers of that branch; any other caller whose branch is null or empty
    receives all trainers; an admin whose branch is null or empty fails with
    [InvalidState] and receives no trainer data.  The store is unchanged. *)
Theorem trainer_list_by_role_and_branch (db : DB) (c : User.t) :
  (forall b, User.role c = "admin" -> User.branch c = Some b -> b ≠ "" ->
     get_trainers (Some c) db = (Ok (listed (of_branch (Some b) (trainers db))), db))
  /\ (User.role c = "superadmin" ->
      get_trainers (Some c) db = (Ok (listed (trainers db)), db))
  /\ (forall b, User.role c ≠ "admin" -> User.role c ≠ "superadmin" ->
        User.branch c = Some b -> b ≠ "" ->
        get_trainers (Some c) db = (Ok (listed (of_branch (Some b) (trainers db))), db))
  /\ (User.role c ≠ "admin" -> User.role c ≠ "superadmin" ->
      User.branch c = None \/ User.branch c = Some "" ->
      get_trainers (Some c) db = (Ok (listed (trainers db)), db))
  /\ (User.role c = "admin" ->
      User.branch c = None \/ User.branch c = Some "" ->
      get_trainers (Some c) db = (Raise InvalidState, db)).
Proof.
  unfold get_trainers, get_current_active_user, listed, of_branch. unfold_handler.
  simpl. repeat split.
  - intros b Hrole Hb Hne. rewrite Hrole, Hb. simpl.
    by rewrite (bool_decide_eq_false_2 _ Hne).
  - intros Hrole. by rewrite Hrole.
  - intros b Hadmin Hsuper Hb Hne.
    rewrite (bool_decide_eq_false_2 _ Hadmin), (bool_decide_eq_false_2 _ Hsuper), Hb.
    simpl. by rewrite (bool_decide_eq_false_2 _ Hne).
  - intros Hadmin Hsuper Hb.
    rewrite (bool_decide_eq_false_2 _ Hadmin), (bool_decide_eq_false_2 _ Hsuper).
    by destruct Hb as [-> | ->].
  - intros Hrole Hb. rewrite Hrole. by destruct Hb as [-> | ->].
Qed.

(** The trainer list for an admin of branch X, a superadmin, a member of
    branch Y and an admin with an empty branch. *)
Lemma trainer_list_by_role_and_branch_witness :
  get_trainers (Some Example.admin_x) Example.gym_coaches
  = (Ok (listed [Example.coach_x]), Example.gym_coaches)
  /\ get_trainers (Some Example.root) Example.gym_coaches
     = (Ok (listed [Example.coach_x; Example.coach_y]), Example.gym_coaches)
  /\ get_trainers (Some Example.member_n) Example.gym_coaches
     = (Ok (listed [Example.coach_y]), Example.gym_coaches)
  /\ get_trainers (Some Example.admin_e) Example.gym_coaches
     = (Raise InvalidState, Example.gym_coaches).
Proof.
  split; [|split; [|split]].
  - destruct (trainer_list_by_role_and_branch Example.gym_coaches Example.admin_x)
      as (Hadmin & _).
    apply (Hadmin "X"); [reflexivity | reflexivity | discriminate].
  - destruct (trainer_list_by_role_and_branch Example.gym_coaches Example.root)
      as (_ & Hsuper & _).
    apply Hsuper. reflexivity.
  - destruct (trainer_list_by_role_and_branch Example.gym_coaches Example.member_n)
      as (_ & _ & Hother & _).
    apply (Hother "Y"); [discriminate | discriminate | reflexivity | discriminate].
  - destruct (trainer_list_by_role_and_branch Example.gym_coaches Example.admin_e)
      as (_ & _ & _ & _ & Hadmin).
    apply Hadmin; [reflexivity | by right].
Defined.

(** ** C8: the specialization list, stored and read back *)

Example split_examples :
  split "," "yoga,pilates" = ["yoga"; "pilates"]
  /\ split "," "yoga" = ["yoga"]
  /\ split "," "a,,b" = ["a"; ""; "b"]
  /\ split "," "," = [""; ""]
  /\ split "," "" = [""]
  /\ join ["yoga"; "pilates"] = "yoga,pilates"
  /\ join [] = ""
  /\ specialization_list (Some "") = []
  /\ specialization_list None = [].
Proof. repeat split. Qed.






Lemma next_id_fresh (ids : list Z) : Forall (λ i, i < next_id ids) ids.
Proof.
  unfold next_id. induction ids as [|i ids IH]; simpl; constructor.
  - lia.
  - eapply Forall_impl; [exact IH |]. simpl. intros j Hj. lia.
Qed.

Lemma first_snoc {A} (p : A -> bool) (rows : list A) (x : A) :
  Forall (λ r, p r = false) rows -> p x = true -> first p (rows ++ [x]) = Some x.
Proof.
  unfold first. intros Hrows Hx.
  induction Hrows as [|r rows Hr _ IH]; simpl; [by rewrite Hx | by rewrite Hr].
Qed.



Lemma add_trainer_cases (get_password_hash : string -> string)
    (trainer : TrainerCreate.t) (c : User.t) (db : DB) :
  User.role c = "admin" \/ User.role c = "superadmin" ->
  add_trainer get_password_hash trainer (Some c) db
  = match first (λ t, bool_decide (Trainer.email t = TrainerCreate.email trainer))
            (trainers db) with
    | Some _ => (Raise InvalidState, db)
    | None =>
        let t :=
          {| Trainer.id := next_id (Trainer.id <$> trainers db);
             Trainer.name := TrainerCreate.name trainer;
             Trainer.specialization :=
               Some (join (TrainerCreate.specialization trainer));
             Trainer.rating := TrainerCreate.rating trainer;
             Trainer.experience := TrainerCreate.experience trainer;
             Trainer.phone := TrainerCreate.phone trainer;
             Trainer.email := TrainerCreate.email trainer;
             Trainer.password := get_password_hash (TrainerCreate.password trainer);
             Trainer.availability := TrainerCreate.availability trainer;
             Trainer.branch_name :=
               if bool_decide (User.role c = "admin")
               then User.branch c
               else TrainerCreate.branch_name trainer |} in
        (Ok (trainer_response (TrainerCreate.specialization trainer) t),
         set_trainers (trainers db ++ [t]) db)
    end.
Proof.
  intros Hrole.
  unfold add_trainer, get_current_admin_or_superadmin, get_current_active_user.
  unfold_handler. simpl.
  rewrite bool_decide_eq_true_2.
  - simpl. by destruct (first _ (trainers db)).
  - destruct Hrole as [-> | ->]; [apply list_elem_of_here |].
    apply list_elem_of_further, list_elem_of_here.
Qed.

Lemma first_update_first {A} (p : A -> bool) (f : A -> A) (rows : list A) (x : A) :
  first p rows = Some x -> p (f x) = true ->
  first p (update_first p f rows) = Some (f x).
Proof.
  unfold first. induction rows as [|r rows IH]; simpl; [done |].
  destruct (p r) eqn:E; simpl.
  - intros [= ->] Hf. by rewrite Hf.
  - intros Hx Hf. rewrite E. by apply IH.
Qed.




(** ** C9: the trainer record endpoints and the caller *)

Lemma delete_first_split {A} (p : A -> bool) (rows : list A) (x : A) :
  first p rows = Some x ->
  exists before after,
    rows = before ++ x :: after
    /\ delete_first p rows = before ++ after
    /\ Forall (λ r, p r = false) before.
Proof.
  unfold first. induction rows as [|r rows IH]; simpl; [done |].
  destruct (p r) eqn:E.
  - intros [= ->]. exists [], rows. by repeat split.
  - intros Hx. destruct (IH Hx) as (before & after & -> & -> & Hbefore).
    exists (r :: before), after. repeat split. by constructor.
Qed.

(** C9: reading a trainer by id, updating a trainer and deleting a trainer
    give the same outcome for any two callers, authenticated or not, and
    never answer [Unauthenticated] or [Forbidden]; for the id of a stored
    trainer the read returns that trainer, the update rewrites that row with
    every field of the payload (the branch among them, and the hash of the
    payload's password) under the same id, and the delete removes that
    row. *)
Theorem trainer_record_endpoints_ignore_caller (get_password_hash : string -> string) :
  (forall req c1 c2 db,
     trainer_record_request req ->
     route get_password_hash c1 req db = route get_password_hash c2 req db)
  /\ (forall req c db,
        trainer_record_request req ->
        (route get_password_hash c req db).1 ≠ Raise Unauthenticated
        /\ (route get_password_hash c req db).1 ≠ Raise Forbidden)
  /\ (forall c db trainer_id t,
        first (trainer_with_id trainer_id) (trainers db) = Some t ->
        route get_password_hash c (GET_trainer trainer_id) db
        = (Ok (TrainerBody
                 (trainer_response (specialization_list (Trainer.specialization t)) t)),
           db)
        /\ (forall trainer, exists t' db',
              route get_password_hash c (PUT_trainer trainer_id trainer) db
              = (Ok (TrainerBody
                       (trainer_response (TrainerCreate.specialization trainer) t')),
                 db')
              /\ first (trainer_with_id trainer_id) (trainers db') = Some t'
              /\ length (trainers db') = length (trainers db)
              /\ Trainer.id t' = Trainer.id t
              /\ Trainer.name t' = TrainerCreate.name trainer
              /\ Trainer.specialization t'
                 = Some (join (TrainerCreate.specialization trainer))
              /\ Trainer.rating t' = TrainerCreate.rating trainer
              /\ Trainer.experience t' = TrainerCreate.experience trainer
              /\ Trainer.phone t' = TrainerCreate.phone trainer
              /\ Trainer.email t' = TrainerCreate.email trainer
              /\ Trainer.password t' = get_password_hash (TrainerCreate.password trainer)
              /\ Trainer.availability t' = TrainerCreate.availability trainer
              /\ Trainer.branch_name t' = TrainerCreate.branch_name trainer)
        /\ (exists db' before after,
              route get_password_hash c (DELETE_trainer trainer_id) db
              = (Ok (Message "Trainer deleted successfully"), db')
              /\ trainers db = before ++ t :: after
              /\ trainers db' = before ++ after
              /\ Forall (λ x, Trainer.id x ≠ trainer_id) before)).
Proof.
  split; [|split].
  - intros [] c1 c2 db; simpl; done.
  - intros [] c db; simpl; try done; intros _;
      unfold get_trainer_by_id, update_trainer, delete_trainer; unfold_handler; simpl;
      destruct (first _ (trainers db)); simpl; done.
  - intros c db trainer_id t Ht. split; [|split].
    + simpl. unfold get_trainer_by_id. unfold_handler. simpl. by rewrite Ht.
    + intros trainer.
      exists (assign_trainer get_password_hash trainer t),
        (set_trainers (update_first (trainer_with_id trainer_id)
                         (assign_trainer get_password_hash trainer) (trainers db)) db).
      split.
      { simpl. unfold update_trainer. unfold_handler. simpl. by rewrite Ht. }
      repeat split.
      * simpl. apply first_update_first; [done |].
        by apply first_Some in Ht as [_ Ht].
      * simpl. apply length_update_first.
    + destruct (delete_first_split _ _ _ Ht) as (before & after & Hrows & Hdel & Hbefore).
      exists (set_trainers (delete_first (trainer_with_id trainer_id) (trainers db)) db),
        before, after.
      repeat split; try done.
      * simpl. unfold delete_trainer. unfold_handler. simpl. by rewrite Ht.
      * eapply Forall_impl; [exact Hbefore |]. simpl. intros x Hx.
        by apply bool_decide_eq_false_1 in Hx.
Qed.

(** Deleting coach CX without credentials and as member N. *)
Lemma trainer_record_endpoints_ignore_caller_witness :
  route (λ p, String.append "hash:" p) None (DELETE_trainer 1) Example.gym_coaches
  = route (λ p, String.append "hash:" p) (Some Example.member_n) (DELETE_trainer 1)
      Example.gym_coaches
  /\ route (λ p, String.append "hash:" p) None (DELETE_trainer 1) Example.gym_coaches
     = (Ok (Message "Trainer deleted successfully"),
        set_trainers [Example.coach_y] Example.gym_coaches).
Proof.
  split.
  - apply (trainer_record_endpoints_ignore_caller (λ p, String.append "hash:" p)).
    exact I.
  - reflexivity.
Defined.

(** * Further properties of the router *)

(** ** The caller dependencies *)

Lemma get_current_trainer_rejects (caller : option User.t) (e : HTTPError) (db : DB) :
  match caller with
  | None => e = Unauthenticated
  | Some c => User.role c ≠ "trainer" /\ e = Forbidden
  end ->
  get_current_trainer caller db = (Raise e, db).
Proof.
  unfold get_current_trainer, get_current_active_user. unfold_handler.
  destruct caller as [c|]; simpl.
  - intros [Hrole ->]. by rewrite (bool_decide_eq_true_2 _ Hrole).
  - by intros ->.
Qed.

(** X1: the endpoints that depend on [get_current_trainer] answer
    [Unauthenticated] to a request without caller and [Forbidden] to a caller
    whose role is not trainer, whatever the request carries, and leave the
    store as it was. *)
Theorem trainer_endpoints_reject_other_callers
    (caller : option User.t) (e : HTTPError) (db : DB) :
  match caller with
  | None => e = Unauthenticated
  | Some c => User.role c ≠ "trainer" /\ e = Forbidden
  end ->
  (forall session, create_session session caller db = (Raise e, db))
  /\ get_trainer_sessions caller db = (Raise e, db)
  /\ (forall session_id session_update,
        update_session session_id session_update caller db = (Raise e, db))
  /\ (forall session_id, delete_session session_id caller db = (Raise e, db))
  /\ (forall assigned diet_plan,
        create_diet_plan assigned diet_plan caller db = (Raise e, db))
  /\ (forall plan_id diet_plan_update,
        update_diet_plan plan_id diet_plan_update caller db = (Raise e, db))
  /\ (forall plan_id, delete_diet_plan plan_id caller db = (Raise e, db))
  /\ (forall user_id, get_trainer_diet_plans user_id caller db = (Raise e, db))
  /\ (forall assigned exercise_plan,
        create_exercise_plan assigned exercise_plan caller db = (Raise e, db))
  /\ (forall plan_id exercise_plan_update,
        update_exercise_plan plan_id exercise_plan_update caller db = (Raise e, db))
  /\ (forall plan_id, delete_exercise_plan plan_id caller db = (Raise e, db))
  /\ (forall user_id, get_trainer_exercise_plans user_id caller db = (Raise e, db)).
Proof.
  intros Hcaller.
  pose proof (get_current_trainer_rejects caller e db Hcaller) as Hgate.
  unfold create_session, get_trainer_sessions, update_session, delete_session,
    create_diet_plan, update_diet_plan, delete_diet_plan, get_trainer_diet_plans,
    create_exercise_plan, update_exercise_plan, delete_exercise_plan,
    get_trainer_exercise_plans.
  unfold_handler. repeat split; intros; by rewrite Hgate.
Qed.

(** Member M asks for the sessions of a trainer. *)
Lemma trainer_endpoints_reject_other_callers_witness :
  get_trainer_sessions (Some Example.member_m) Example.gym
  = (Raise Forbidden, Example.gym).
Proof.
  apply (trainer_endpoints_reject_other_callers
           (Some Example.member_m) Forbidden Example.gym).
  split; [discriminate | reflexivity].
Defined.

(** X2: trainer creation answers [Unauthenticated] without caller and
    [Forbidden] to a caller who is neither admin nor superadmin, on an
    untouched store; a call that creates a trainer comes from an admin or a
    superadmin. *)
Theorem add_trainer_needs_admin (get_password_hash : string -> string)
    (trainer : TrainerCreate.t) (db : DB) :
  add_trainer get_password_hash trainer None db = (Raise Unauthenticated, db)
  /\ (forall c, User.role c ≠ "admin" -> User.role c ≠ "superadmin" ->
        add_trainer get_password_hash trainer (Some c) db = (Raise Forbidden, db))
  /\ (forall caller r db',
        add_trainer get_password_hash trainer caller db = (Ok r, db') ->
        exists c, caller = Some c
                  /\ (User.role c = "admin" \/ User.role c = "superadmin")).
Proof.
  unfold add_trainer, get_current_admin_or_superadmin, get_current_active_user.
  unfold_handler. split; [done |]. split.
  - intros c Hadmin Hsuper. simpl.
    rewrite bool_decide_eq_false_2; [done |].
    intros [?|[?|?]%elem_of_cons]%elem_of_cons; try done. by inversion H.
  - intros [c|] r db'; simpl; [|done].
    destruct (bool_decide_reflect (User.role c ∈ ["admin"; "superadmin"])) as [Hin|];
      simpl; [|done].
    intros _. exists c. split; [done |].
    apply elem_of_cons in Hin as [?|Hin]; [by left |].
    apply elem_of_cons in Hin as [?|Hin]; [by right | by inversion Hin].
Qed.

(** ** Rows appended at the end of a table *)

Lemma first_snoc_None {A} (p : A -> bool) (rows : list A) (x : A) :
  Forall (λ r, p r = false) rows -> p x = false -> first p (rows ++ [x]) = None.
Proof.
  intros Hrows Hx. apply first_None. apply Forall_app. split; [done |].
  by constructor.
Qed.

Lemma delete_first_snoc {A} (p : A -> bool) (rows : list A) (x : A) :
  Forall (λ r, p r = false) rows -> p x = true -> delete_first p (rows ++ [x]) = rows.
Proof.
  intros Hrows Hx. induction Hrows as [|r rows Hr _ IH]; simpl.
  - by rewrite Hx.
  - by rewrite Hr, IH.
Qed.

Lemma update_first_snoc {A} (p : A -> bool) (f : A -> A) (rows : list A) (x : A) :
  Forall (λ r, p r = false) rows -> p x = true ->
  update_first p f (rows ++ [x]) = rows ++ [f x].
Proof.
  intros Hrows Hx. induction Hrows as [|r rows Hr _ IH]; simpl.
  - by rewrite Hx.
  - by rewrite Hr, IH.
Qed.

Lemma update_first_twice {A} (p : A -> bool) (f g : A -> A) (rows : list A) :
  (forall x, p (f x) = p x) -> (forall x, g (f x) = g x) ->
  update_first p g (update_first p f rows) = update_first p g rows.
Proof.
  intros Hp Hg. induction rows as [|r rows IH]; simpl; [done |].
  destruct (p r) eqn:E; simpl.
  - by rewrite Hp, E, Hg.
  - by rewrite E, IH.
Qed.

(** No stored row carries the key that the next insert gets. *)
Lemma next_id_not_stored {A} (key : A -> Z) (rows : list A) :
  Forall (λ r, key r < next_id (key <$> rows)) rows.
Proof.
  pose proof (next_id_fresh (key <$> rows)) as H. by rewrite Forall_fmap in H.
Qed.

Lemma set_sessions_back (db : DB) (rows : list SessionSchedule.t) :
  set_sessions (sessions db) (set_sessions rows db) = db.
Proof. by destruct db. Qed.

(** ** Sessions: creation, listing, ownership *)

(** X3: for a trainer with a null or empty branch session creation answers
    [InvalidState] on an untouched store, whatever the payload; for a
    trainer with a non-empty branch and a payload whose max_capacity an
    integer column stores it succeeds, appends one session that carries the
    six payload fields, and gives it a key larger than every stored key. *)
Theorem create_session_needs_branch (db : DB) (T : User.t)
    (session : SessionScheduleCreate.t) :
  User.role T = "trainer" ->
  (User.branch T = None \/ User.branch T = Some "" ->
   create_session session (Some T) db = (Raise InvalidState, db))
  /\ (forall b, User.branch T = Some b -> b ≠ "" ->
        fits_integer_column (SessionScheduleCreate.max_capacity session) ->
        exists S,
          create_session session (Some T) db
          = (Ok S, set_sessions (sessions db ++ [S]) db)
          /\ Forall (λ s, SessionSchedule.id s < SessionSchedule.id S) (sessions db)
          /\ SessionSchedule.session_name S = SessionScheduleCreate.session_name session
          /\ SessionSchedule.session_date S = SessionScheduleCreate.session_date session
          /\ SessionSchedule.start_time S = SessionScheduleCreate.start_time session
          /\ SessionSchedule.end_time S = SessionScheduleCreate.end_time session
          /\ SessionSchedule.max_capacity S = SessionScheduleCreate.max_capacity session
          /\ SessionSchedule.description S = SessionScheduleCreate.description session).
Proof.
  intros Hrole. unfold create_session. unfold_handler.
  rewrite (get_current_trainer_ok T db Hrole). simpl. split.
  - by intros [-> | ->].
  - intros b -> Hb _. simpl. rewrite (bool_decide_eq_false_2 _ Hb). simpl.
    eexists. split; [reflexivity |]. split; [|done].
    apply (next_id_not_stored SessionSchedule.id).
Qed.

(** Trainer A creates the yoga session in a gym without sessions. *)
Lemma create_session_needs_branch_witness :
  exists S,
    create_session Example.yoga_payload (Some Example.trainer_a)
      (set_sessions [] Example.gym)
    = (Ok S, set_sessions (sessions (set_sessions [] Example.gym) ++ [S])
               (set_sessions [] Example.gym))
    /\ Forall (λ s, SessionSchedule.id s < SessionSchedule.id S)
         (sessions (set_sessions [] Example.gym))
    /\ SessionSchedule.session_name S = "Yoga"
    /\ SessionSchedule.session_date S = Example.june1
    /\ SessionSchedule.start_time S = Example.nine
    /\ SessionSchedule.end_time S = Example.ten
    /\ SessionSchedule.max_capacity S = 20
    /\ SessionSchedule.description S = None.
Proof.
  assert (User.role Example.trainer_a = "trainer") as Hrole by reflexivity.
  destruct (create_session_needs_branch (set_sessions [] Example.gym)
              Example.trainer_a Example.yoga_payload Hrole) as [_ Hok].
  apply (Hok "X"); [reflexivity | discriminate |].
  unfold fits_integer_column. simpl. lia.
Defined.

(** X4: a session that a trainer has just created is the last entry of that
    trainer's own session list and of the public list that any authenticated
    caller receives; the own list of a trainer with another id is what it
    was. *)
Theorem created_session_is_listed (db db1 : DB) (T : User.t)
    (session : SessionScheduleCreate.t) (S : SessionSchedule.t) :
  create_session session (Some T) db = (Ok S, db1) ->
  (exists own,
     get_trainer_sessions (Some T) db = (Ok own, db)
     /\ get_trainer_sessions (Some T) db1 = (Ok (own ++ [S]), db1))
  /\ (forall c, get_public_sessions (Some c) db1 = (Ok (sessions db ++ [S]), db1))
  /\ (forall c, User.role c = "trainer" -> User.id c ≠ User.id T ->
        exists others,
          get_trainer_sessions (Some c) db = (Ok others, db)
          /\ get_trainer_sessions (Some c) db1 = (Ok others, db1)).
Proof.
  intros Hcreate.
  destruct (create_session_cases _ _ _ _ _ Hcreate) as (Hrole & _ & HS & ->).
  assert (SessionSchedule.trainer_id S = User.id T) as Hown by (by rewrite HS).
  unfold get_trainer_sessions, get_public_sessions, get_current_active_user.
  unfold_handler. split; [|split].
  - rewrite !(get_current_trainer_ok T _ Hrole). simpl.
    eexists. split; [reflexivity |].
    rewrite List.filter_app. simpl. by rewrite (bool_decide_eq_true_2 _ Hown).
  - done.
  - intros c Hc Hne. rewrite !(get_current_trainer_ok c _ Hc). simpl.
    eexists. split; [reflexivity |].
    rewrite List.filter_app. simpl.
    rewrite bool_decide_eq_false_2 by congruence. by rewrite app_nil_r.
Qed.

(** Trainer A lists the yoga session after creating it. *)
Lemma created_session_is_listed_witness :
  exists own,
    get_trainer_sessions (Some Example.trainer_a) (set_sessions [] Example.gym)
    = (Ok own, set_sessions [] Example.gym)
    /\ get_trainer_sessions (Some Example.trainer_a) Example.gym
       = (Ok (own ++ [Example.yoga]), Example.gym).
Proof.
  apply (created_session_is_listed (set_sessions [] Example.gym) Example.gym
           Example.trainer_a Example.yoga_payload Example.yoga).
  reflexivity.
Defined.

(** X5: a session that trainer [T] has just created cannot be updated or
    deleted by a trainer with another id, who gets [NotFound] on an untouched
    store; [T] deleting it gives back the store from before the creation. *)
Theorem created_session_belongs_to_creator (db db1 : DB) (T : User.t)
    (session : SessionScheduleCreate.t) (S : SessionSchedule.t) :
  create_session session (Some T) db = (Ok S, db1) ->
  (forall c session_update, User.role c = "trainer" -> User.id c ≠ User.id T ->
     update_session (SessionSchedule.id S) session_update (Some c) db1
     = (Raise NotFound, db1)
     /\ delete_session (SessionSchedule.id S) (Some c) db1 = (Raise NotFound, db1))
  /\ delete_session (SessionSchedule.id S) (Some T) db1
     = (Ok "Session deleted successfully", db).
Proof.
  intros Hcreate.
  destruct (create_session_cases _ _ _ _ _ Hcreate) as (Hrole & _ & HS & ->).
  assert (SessionSchedule.trainer_id S = User.id T) as Hown by (by rewrite HS).
  assert (SessionSchedule.id S = next_id (SessionSchedule.id <$> sessions db)) as Hid
    by (by rewrite HS).
  assert (forall c, Forall (λ s, own_session (SessionSchedule.id S) c s = false)
                      (sessions db)) as Hold.
  { intros c. pose proof (next_id_not_stored SessionSchedule.id (sessions db)) as H.
    eapply Forall_impl; [exact H |]. simpl. intros s Hs. unfold own_session.
    rewrite bool_decide_eq_false_2; [done | lia]. }
  split.
  - intros c session_update Hc Hne.
    assert (first (own_session (SessionSchedule.id S) c) (sessions db ++ [S]) = None)
      as Hnone.
    { apply first_snoc_None; [apply Hold |]. unfold own_session.
      rewrite (bool_decide_eq_false_2 (SessionSchedule.trainer_id S = User.id c))
        by congruence.
      apply andb_false_r. }
    unfold update_session, delete_session. unfold_handler.
    rewrite !(get_current_trainer_ok c _ Hc). simpl. by rewrite Hnone.
  - assert (own_session (SessionSchedule.id S) T S = true) as HS'.
    { unfold own_session. by rewrite !bool_decide_eq_true_2. }
    unfold delete_session. unfold_handler.
    rewrite (get_current_trainer_ok T _ Hrole). simpl.
    rewrite (first_snoc _ _ _ (Hold T) HS'). simpl.
    rewrite (delete_first_snoc _ _ _ (Hold T) HS').
    by rewrite set_sessions_back.
Qed.

(** Trainer A deletes the yoga session again. *)
Lemma created_session_belongs_to_creator_witness :
  delete_session (SessionSchedule.id Example.yoga) (Some Example.trainer_a) Example.gym
  = (Ok "Session deleted successfully", set_sessions [] Example.gym).
Proof.
  apply (created_session_belongs_to_creator (set_sessions [] Example.gym) Example.gym
           Example.trainer_a Example.yoga_payload Example.yoga).
  reflexivity.
Defined.

(** X6: the last update of a session wins: after a successful update, a
    second update of the same session by the same trainer gives the response
    and the store that it would have given without the first; repeating an
    update changes nothing. *)
Theorem update_session_last_write_wins (db db1 : DB) (c : User.t) (session_id : Z)
    (first_update second_update : SessionScheduleCreate.t) (r1 : SessionSchedule.t) :
  update_session session_id first_update (Some c) db = (Ok r1, db1) ->
  update_session session_id second_update (Some c) db1
  = update_session session_id second_update (Some c) db
  /\ update_session session_id first_update (Some c) db1 = (Ok r1, db1).
Proof.
  intros Hfirst.
  destruct (update_session_cases session_id first_update (Some c) db)
    as [[e He]|(c' & s & [= <-] & Hrole & Hs & Hok)]; [congruence |].
  rewrite Hok in Hfirst. injection Hfirst as <- <-.
  assert (forall p, first (own_session session_id c)
                      (update_first (own_session session_id c) (assign_session p)
                         (sessions db))
                    = Some (assign_session p s)) as Hfound.
  { intros p. apply first_update_first; [done |].
    by apply first_Some in Hs as [_ Hs]. }
  assert (forall p, update_session session_id p (Some c)
                      (set_sessions (update_first (own_session session_id c)
                                       (assign_session first_update) (sessions db)) db)
                    = (Ok (assign_session p s),
                       set_sessions (update_first (own_session session_id c)
                                       (assign_session p) (sessions db)) db)) as Hagain.
  { intros p. unfold update_session. unfold_handler.
    rewrite (get_current_trainer_ok c _ Hrole). simpl. rewrite Hfound. simpl.
    by rewrite update_first_twice. }
  split; [|apply Hagain].
  rewrite Hagain. unfold update_session. unfold_handler.
  rewrite (get_current_trainer_ok c _ Hrole). simpl. by rewrite Hs.
Qed.

(** Trainer A renames the yoga session and names it back. *)
Lemma update_session_last_write_wins_witness :
  update_session 1 Example.yoga_payload (Some Example.trainer_a)
    (set_sessions [assign_session Example.pilates_payload Example.yoga] Example.gym)
  = update_session 1 Example.yoga_payload (Some Example.trainer_a) Example.gym
  /\ update_session 1 Example.pilates_payload (Some Example.trainer_a)
       (set_sessions [assign_session Example.pilates_payload Example.yoga] Example.gym)
     = (Ok (assign_session Example.pilates_payload Example.yoga),
        set_sessions [assign_session Example.pilates_payload Example.yoga] Example.gym).
Proof.
  apply (update_session_last_write_wins Example.gym _ Example.trainer_a 1
           Example.pilates_payload Example.yoga_payload).
  reflexivity.
Defined.

(** ** Attendance: marking, updating, cancelling, listing *)

Lemma mark_session_attendance_raise (session_id : Z)
    (attendance_data : SessionAttendanceCreate.t) (caller : option User.t)
    (db db1 : DB) (e : HTTPError) :
  mark_session_attendance session_id attendance_data caller db = (Raise e, db1) ->
  db1 = db.
Proof.
  unfold mark_session_attendance, get_current_active_user. unfold_handler.
  intros E. repeat (simplify_eq/=; try done; case_match).
Qed.

(** Marking for the same payload again finds the record of the first call
    and rewrites it with what it holds. *)
Lemma upsert_again (session_id : Z) (attendance_data : SessionAttendanceCreate.t)
    (rows : list SessionAttendance.t) :
  marked session_id attendance_data (upsert session_id attendance_data rows)
  = marked session_id attendance_data rows
  /\ upsert session_id attendance_data (upsert session_id attendance_data rows)
     = upsert session_id attendance_data rows.
Proof.
  unfold upsert, marked.
  set (existing := same_booking session_id
                     (SessionAttendanceCreate.user_id attendance_data)
                     (SessionAttendanceCreate.attendance_date attendance_data)).
  set (assign := SessionAttendance.set_status
                   (SessionAttendanceCreate.status attendance_data)).
  destruct (first existing rows) as [a|] eqn:E.
  - assert (first existing (update_first existing assign rows) = Some (assign a))
      as Hfound.
    { apply first_update_first; [done |]. by apply first_Some in E as [_ E]. }
    rewrite Hfound. split; [done |].
    by apply update_first_twice.
  - set (new_attendance := SessionAttendance.mk _ _ _ _ _).
    assert (existing new_attendance = true) as Hnew by (by apply same_booking_true).
    apply first_None in E.
    rewrite (first_snoc _ _ _ E Hnew). split; [done |].
    by rewrite (update_first_snoc _ _ _ _ E Hnew).
Qed.

(** X7: attendance creation is idempotent: for every caller, payload and
    store, sending the same request again returns the same outcome and leaves
    the store as the first request left it. *)
Theorem mark_session_attendance_idempotent (session_id : Z)
    (attendance_data : SessionAttendanceCreate.t) (caller : option User.t) (db : DB) :
  mark_session_attendance session_id attendance_data caller
    (mark_session_attendance session_id attendance_data caller db).2
  = mark_session_attendance session_id attendance_data caller db.
Proof.
  destruct (mark_session_attendance session_id attendance_data caller db)
    as [[r|e] db1] eqn:E; simpl.
  - destruct caller as [c|]; [|done].
    pose proof E as E'.
    apply mark_session_attendance_ok in E' as (s & user & Hs & Hmay & -> & ->).
    apply mark_session_attendance_ok. exists s, user. simpl.
    destruct (upsert_again session_id attendance_data (attendances db)) as [-> ->].
    repeat split; done.
  - apply mark_session_attendance_raise in E as E'. by subst db1.
Qed.

(** X8: a trainer marks attendance only on a session of their own that
    carries their branch, and only for a user of their branch: a successful
    call implies all three; a session of another trainer or of another
    branch answers [Forbidden]; a subject user without a row in the
    trainer's branch answers [NotFound]; both leave the store untouched. *)
Theorem trainer_marks_own_session_and_branch (db : DB) (c : User.t) (session_id : Z)
    (attendance_data : SessionAttendanceCreate.t) :
  User.role c = "trainer" ->
  (forall r db',
     mark_session_attendance session_id attendance_data (Some c) db = (Ok r, db') ->
     (exists s, s ∈ sessions db
                /\ SessionSchedule.id s = session_id
                /\ SessionSchedule.trainer_id s = User.id c
                /\ SessionSchedule.branch_name s = User.branch c)
     /\ r.2 ∈ users db
     /\ User.id r.2 = SessionAttendanceCreate.user_id attendance_data
     /\ User.branch r.2 = User.branch c)
  /\ (forall s,
        first (session_with_id session_id) (sessions db) = Some s ->
        SessionSchedule.trainer_id s ≠ User.id c
        \/ SessionSchedule.branch_name s ≠ User.branch c ->
        mark_session_attendance session_id attendance_data (Some c) db
        = (Raise Forbidden, db))
  /\ (forall s,
        first (session_with_id session_id) (sessions db) = Some s ->
        SessionSchedule.trainer_id s = User.id c ->
        SessionSchedule.branch_name s = User.branch c ->
        Forall (λ u, User.id u = SessionAttendanceCreate.user_id attendance_data ->
                     User.branch u ≠ User.branch c) (users db) ->
        mark_session_attendance session_id attendance_data (Some c) db
        = (Raise NotFound, db)).
Proof.
  intros Hrole. split; [|split].
  - intros r db' Hok.
    apply mark_session_attendance_ok in Hok as (s & user & Hs & Hmay & -> & _).
    destruct Hmay as [(_ & Ht & Hb & Hu)|(Hne & _)]; [|done].
    apply first_Some in Hs as [Hin Hid]. apply bool_decide_eq_true_1 in Hid.
    apply first_Some in Hu as [Huin Hu]. unfold user_in_branch in Hu.
    apply andb_prop in Hu as [Hu1 Hu2].
    apply bool_decide_eq_true_1 in Hu1. apply bool_decide_eq_true_1 in Hu2.
    split; [by exists s |]. done.
  - intros s Hs Hnot.
    unfold mark_session_attendance, get_current_active_user. unfold_handler.
    simpl. rewrite Hs, (bool_decide_eq_true_2 _ Hrole).
    destruct Hnot as [Hnot|Hnot]; rewrite (bool_decide_eq_true_2 _ Hnot);
      by rewrite ?orb_true_r.
  - intros s Hs Ht Hb Husers.
    assert (first (user_in_branch (SessionAttendanceCreate.user_id attendance_data)
                     (User.branch c)) (users db) = None) as Hnone.
    { apply first_None. eapply Forall_impl; [exact Husers |].
      intros u Hu. unfold user_in_branch. simpl in Hu.
      destruct (bool_decide_reflect
                  (User.id u = SessionAttendanceCreate.user_id attendance_data));
        [|done].
      simpl. apply bool_decide_eq_false_2. by apply Hu. }
    unfold mark_session_attendance, get_current_active_user. unfold_handler.
    simpl. rewrite Hs, (bool_decide_eq_true_2 _ Hrole).
    rewrite (bool_decide_eq_false_2 (SessionSchedule.trainer_id s ≠ User.id c))
      by (by intros []).
    rewrite (bool_decide_eq_false_2 (SessionSchedule.branch_name s ≠ User.branch c))
      by (by intros []).
    simpl. by rewrite Hnone.
Qed.

(** Trainer A marks member N of branch Y, trainer B marks on A's session. *)
Lemma trainer_marks_own_session_and_branch_witness :
  mark_session_attendance 1 (SessionAttendanceCreate.mk 6 "attended" Example.june1)
    (Some Example.trainer_a) Example.gym
  = (Raise NotFound, Example.gym)
  /\ mark_session_attendance 1 Example.book_m (Some Example.trainer_b) Example.gym
     = (Raise Forbidden, Example.gym).
Proof.
  split.
  - assert (User.role Example.trainer_a = "trainer") as Hrole by reflexivity.
    destruct (trainer_marks_own_session_and_branch Example.gym Example.trainer_a 1
                (SessionAttendanceCreate.mk 6 "attended" Example.june1) Hrole)
      as (_ & _ & Hnf).
    apply (Hnf Example.yoga); [reflexivity | reflexivity | reflexivity |].
    repeat constructor; simpl; intros H; discriminate.
  - assert (User.role Example.trainer_b = "trainer") as Hrole by reflexivity.
    destruct (trainer_marks_own_session_and_branch Example.gym Example.trainer_b 1
                Example.book_m Hrole) as (_ & Hfb & _).
    apply (Hfb Example.yoga); [reflexivity |]. left. discriminate.
Defined.

Lemma update_first_split {A} (p : A -> bool) (f : A -> A) (rows : list A) (x : A) :
  first p rows = Some x ->
  exists before after,
    rows = before ++ x :: after
    /\ update_first p f rows = before ++ f x :: after
    /\ Forall (λ r, p r = false) before.
Proof.
  unfold first. induction rows as [|r rows IH]; simpl; [done |].
  destruct (p r) eqn:E.
  - intros [= ->]. exists [], rows. by repeat split.
  - intros Hx. destruct (IH Hx) as (before & after & -> & -> & Hbefore).
    exists (r :: before), after. repeat split. by constructor.
Qed.

(** X9: a successful attendance update rewrites the record with the given
    id and nothing else: the record keeps its id and its session, carries
    the payload's user_id, status and date, and is what a lookup by that id
    finds afterwards; every other row of the attendance table stays where it
    was and as it was, and the other tables are untouched.  A caller who is not a trainer owns the record before and
    after; a trainer who changes the subject names a user of the trainer's
    branch. *)
Theorem updated_attendance_carries_payload (db db' : DB) (caller : option User.t)
    (attendance_id : Z) (attendance_data : SessionAttendanceCreate.t)
    (r : SessionAttendance.t * option User.t) :
  update_session_attendance attendance_id attendance_data caller db = (Ok r, db') ->
  exists a c,
    caller = Some c
    /\ first (attendance_with_id attendance_id) (attendances db) = Some a
    /\ r.1 = {| SessionAttendance.id := SessionAttendance.id a;
                SessionAttendance.session_id := SessionAttendance.session_id a;
                SessionAttendance.user_id :=
                  SessionAttendanceCreate.user_id attendance_data;
                SessionAttendance.status :=
                  SessionAttendanceCreate.status attendance_data;
                SessionAttendance.attendance_date :=
                  SessionAttendanceCreate.attendance_date attendance_data |}
    /\ first (attendance_with_id attendance_id) (attendances db') = Some r.1
    /\ length (attendances db') = length (attendances db)
    /\ db' = set_attendances (attendances db') db
    /\ (exists before after,
          attendances db = before ++ a :: after
          /\ attendances db' = before ++ r.1 :: after
          /\ Forall (λ b, SessionAttendance.id b ≠ attendance_id) before)
    /\ (User.role c ≠ "trainer" ->
        SessionAttendance.user_id a = User.id c
        /\ SessionAttendanceCreate.user_id attendance_data = User.id c)
    /\ (User.role c = "trainer" ->
        SessionAttendanceCreate.user_id attendance_data ≠ SessionAttendance.user_id a ->
        exists u, u ∈ users db
                  /\ User.id u = SessionAttendanceCreate.user_id attendance_data
                  /\ User.branch u = User.branch c).
Proof.
  unfold update_session_attendance, get_current_active_user. unfold_handler.
  destruct caller as [c|]; simpl; [|done].
  destruct (first (attendance_with_id attendance_id) (attendances db)) as [a|] eqn:Ha;
    [|done].
  assert (forall b : SessionAttendance.t,
            SessionAttendance.id b = SessionAttendance.id a ->
            first (attendance_with_id attendance_id)
              (update_first (attendance_with_id attendance_id) (λ _, b) (attendances db))
            = Some b) as Hfound.
  { intros b Hb.
    apply (first_update_first _ (λ _, b) _ a Ha).
    apply first_Some in Ha as [_ Ha]. unfold attendance_with_id in *.
    by rewrite Hb. }
  assert (forall b : SessionAttendance.t,
            exists before after,
              attendances db = before ++ a :: after
              /\ update_first (attendance_with_id attendance_id) (λ _, b)
                   (attendances db) = before ++ b :: after
              /\ Forall (λ x, SessionAttendance.id x ≠ attendance_id) before) as Hsplit.
  { intros b.
    destruct (update_first_split _ (λ _, b) _ _ Ha)
      as (before & after & H1 & H2 & H3).
    exists before, after. split; [done |]. split; [done |].
    eapply Forall_impl; [exact H3 |]. simpl. intros x Hx.
    by apply bool_decide_eq_false_1 in Hx. }
  destruct (bool_decide_reflect (User.role c = "trainer")) as [Hrole|Hrole].
  - destruct (first (own_session_in_branch _ c) (sessions db)); simpl; [|done].
    destruct (bool_decide_reflect
                (SessionAttendanceCreate.user_id attendance_data
                 ≠ SessionAttendance.user_id a)) as [Hchg|Hsame]; simpl.
    + destruct (first (user_in_branch _ _) (users db)) as [u|] eqn:Hu; simpl; [|done].
      intros [= <- <-]. exists a, c. simpl.
      rewrite Hfound by done. rewrite length_update_first.
      repeat split; try done; try apply Hsplit.
      intros _ _. apply first_Some in Hu as [Hin Hu]. unfold user_in_branch in Hu.
      apply andb_prop in Hu as [Hu1 Hu2].
      apply bool_decide_eq_true_1 in Hu1. apply bool_decide_eq_true_1 in Hu2.
      by exists u.
    + intros [= <- <-]. exists a, c. simpl.
      rewrite Hfound by done. rewrite length_update_first.
      assert (SessionAttendanceCreate.user_id attendance_data
              = SessionAttendance.user_id a) as Heq.
      { destruct (decide (SessionAttendanceCreate.user_id attendance_data
                          = SessionAttendance.user_id a)); [done | by destruct Hsame]. }
      repeat split; try done; try (by rewrite Heq); try apply Hsplit.
  - destruct (bool_decide_reflect (SessionAttendance.user_id a ≠ User.id c))
      as [|Hown]; simpl; [done |].
    destruct (bool_decide_reflect
                (SessionAttendanceCreate.user_id attendance_data ≠ User.id c))
      as [|Hself]; simpl; [done |].
    intros [= <- <-]. exists a, c. simpl.
    rewrite Hfound by done. rewrite length_update_first.
    assert (SessionAttendance.user_id a = User.id c) as Hown'.
    { destruct (decide (SessionAttendance.user_id a = User.id c));
        [done | by destruct Hown]. }
    assert (SessionAttendanceCreate.user_id attendance_data = User.id c) as Hself'.
    { destruct (decide (SessionAttendanceCreate.user_id attendance_data = User.id c));
        [done | by destruct Hself]. }
    repeat split; try done; try apply Hsplit. by rewrite Hself', <- Hown'.
Qed.

(** Member M moves the booking of 1 June to 2 June. *)
Lemma updated_attendance_carries_payload_witness :
  exists a c,
    Some Example.member_m = Some c
    /\ first (attendance_with_id 1) (attendances Example.gym_booked) = Some a
    /\ SessionAttendance.mk 1 1 5 "booked" Example.june2
       = {| SessionAttendance.id := SessionAttendance.id a;
            SessionAttendance.session_id := SessionAttendance.session_id a;
            SessionAttendance.user_id := 5;
            SessionAttendance.status := "booked";
            SessionAttendance.attendance_date := Example.june2 |}.
Proof.
  destruct (updated_attendance_carries_payload Example.gym_booked
              (set_attendances [SessionAttendance.mk 1 1 5 "booked" Example.june2]
                 Example.gym)
              (Some Example.member_m) 1
              (SessionAttendanceCreate.mk 5 "booked" Example.june2)
              (SessionAttendance.mk 1 1 5 "booked" Example.june2, Some Example.member_m)
              eq_refl) as (a & c & Hc & Ha & Hr & _).
  exists a, c. repeat split; assumption.
Defined.

Lemma set_attendances_back (db : DB) (rows : list SessionAttendance.t) :
  set_attendances (attendances db) (set_attendances rows db) = db.
Proof. by destruct db. Qed.

(** X10: booking and cancelling is a round trip: when the store holds no
    record for the submitted tuple, a caller who creates the attendance
    record and then deletes the record with the returned id gets back the
    store from before the booking. *)
Theorem booking_then_cancelling_restores_store (db db1 : DB) (c : User.t)
    (session_id : Z) (attendance_data : SessionAttendanceCreate.t)
    (r : SessionAttendance.t * User.t) :
  Forall (λ a, ~ (SessionAttendance.session_id a = session_id
                  /\ SessionAttendance.user_id a
                     = SessionAttendanceCreate.user_id attendance_data
                  /\ SessionAttendance.attendance_date a
                     = SessionAttendanceCreate.attendance_date attendance_data))
    (attendances db) ->
  mark_session_attendance session_id attendance_data (Some c) db = (Ok r, db1) ->
  delete_session_attendance (SessionAttendance.id r.1) (Some c) db1
  = (Ok "Session deleted successfully", db).
Proof.
  intros Hfree Hmark.
  assert (first (same_booking session_id
                   (SessionAttendanceCreate.user_id attendance_data)
                   (SessionAttendanceCreate.attendance_date attendance_data))
            (attendances db) = None) as Hnone.
  { apply first_None. eapply Forall_impl; [exact Hfree |]. simpl. intros a Ha.
    destruct (same_booking _ _ _ a) eqn:E; [|done].
    apply same_booking_true in E. by destruct Ha. }
  apply mark_session_attendance_ok in Hmark as (s & user & Hs & Hmay & -> & ->).
  unfold marked, upsert. rewrite Hnone. unfold marked. rewrite Hnone. simpl.
  assert (Forall (λ a, attendance_with_id
                         (next_id (SessionAttendance.id <$> attendances db)) a = false)
            (attendances db)) as Hold.
  { pose proof (next_id_not_stored SessionAttendance.id (attendances db)) as H.
    eapply Forall_impl; [exact H |]. simpl. intros a Ha.
    apply bool_decide_eq_false_2. lia. }
  remember (next_id (SessionAttendance.id <$> attendances db)) as new_id eqn:Hid.
  clear Hid.
  set (new_attendance := SessionAttendance.mk _ _ _ _ _).
  assert (attendance_with_id new_id new_attendance = true)
    as Hnew by (by apply bool_decide_eq_true_2).
  unfold delete_session_attendance, get_current_active_user. unfold_handler. simpl.
  fold new_attendance.
  rewrite (first_snoc _ _ _ Hold Hnew). simpl.
  rewrite (delete_first_snoc _ _ _ Hold Hnew).
  destruct Hmay as [(Hrole & Ht & Hb & _)|(Hrole & Hself & _)].
  - rewrite (bool_decide_eq_true_2 _ Hrole).
    assert (first (own_session_in_branch session_id c) (sessions db) = Some s) as Hown.
    { apply (first_stronger _ (session_with_id session_id)); [|done|].
      - intros y Hy. unfold own_session_in_branch in Hy.
        by apply andb_prop in Hy as [[Hy _]%andb_prop _].
      - apply first_Some in Hs as [_ Hs]. unfold own_session_in_branch.
        unfold session_with_id in Hs. rewrite Hs. simpl.
        by rewrite !bool_decide_eq_true_2. }
    rewrite Hown. simpl. by rewrite set_attendances_back.
  - rewrite (bool_decide_eq_false_2 _ Hrole).
    rewrite bool_decide_eq_false_2 by (by intros []).
    simpl. by rewrite set_attendances_back.
Qed.

(** Member N books the yoga session and cancels the booking. *)
Lemma booking_then_cancelling_restores_store_witness :
  delete_session_attendance 1 (Some Example.member_n)
    (set_attendances [SessionAttendance.mk 1 1 6 "booked" Example.june1] Example.gym)
  = (Ok "Session deleted successfully", Example.gym).
Proof.
  apply (booking_then_cancelling_restores_store Example.gym
           (set_attendances [SessionAttendance.mk 1 1 6 "booked" Example.june1]
              Example.gym)
           Example.member_n 1 (SessionAttendanceCreate.mk 6 "booked" Example.june1)
           (SessionAttendance.mk 1 1 6 "booked" Example.june1, Example.member_n)).
  - constructor.
  - reflexivity.
Defined.

(** X11: attendance listing shows a caller who is not a trainer only that
    caller's own records of the requested session, each with the caller's
    user row, whatever [user_id] the request names; a trainer receives
    records of the requested session only, and only when the session is
    theirs and carries their branch.  The store is left as it was. *)
Theorem attendance_listing_is_scoped (db db' : DB) (c : User.t) (session_id : Z)
    (user_id : option Z) (attendance_date : option date)
    (rs : list (SessionAttendance.t * option User.t)) :
  get_session_attendance session_id user_id attendance_date (Some c) db = (Ok rs, db') ->
  db' = db
  /\ Forall (λ r, r.1 ∈ attendances db
                  /\ SessionAttendance.session_id r.1 = session_id
                  /\ (forall d, attendance_date = Some d ->
                        SessionAttendance.attendance_date r.1 = d)
                  /\ exists u, r.2 = Some u
                               /\ User.id u = SessionAttendance.user_id r.1) rs
  /\ (User.role c ≠ "trainer" ->
      Forall (λ r, SessionAttendance.user_id r.1 = User.id c) rs)
  /\ (User.role c = "trainer" ->
      exists s, s ∈ sessions db
                /\ SessionSchedule.id s = session_id
                /\ SessionSchedule.trainer_id s = User.id c
                /\ SessionSchedule.branch_name s = User.branch c).
Proof.
  unfold get_session_attendance, get_current_active_user. unfold_handler. simpl.
  destruct (first (session_with_id session_id) (sessions db)) as [s|] eqn:Hs; [|done].
  assert (forall (p : SessionAttendance.t -> bool) (q : SessionAttendance.t -> Prop),
            (forall a, a ∈ attendances db -> p a = true -> q a) ->
            forall rows,
              rows = (match attendance_date with
                      | Some d =>
                          List.filter
                            (λ a, bool_decide (SessionAttendance.attendance_date a = d))
                            (List.filter p (attendances db))
                      | None => List.filter p (attendances db)
                      end)
              \/ (exists uid, rows = match attendance_date with
                      | Some d =>
                          List.filter
                            (λ a, bool_decide (SessionAttendance.attendance_date a = d))
                            (List.filter
                               (λ a, bool_decide (Some (SessionAttendance.user_id a) = uid))
                               (List.filter p (attendances db)))
                      | None =>
                          List.filter
                            (λ a, bool_decide (Some (SessionAttendance.user_id a) = uid))
                            (List.filter p (attendances db))
                      end) ->
              Forall (λ a, a ∈ attendances db /\ q a
                           /\ forall d, attendance_date = Some d ->
                                SessionAttendance.attendance_date a = d) rows)
    as Hrows.
  { intros p q Hpq rows Hrows. apply Forall_forall. intros a Ha.
    apply list_elem_of_In in Ha.
    assert (In a (List.filter p (attendances db))
            /\ forall d, attendance_date = Some d ->
                 SessionAttendance.attendance_date a = d) as [Hin Hd].
    { destruct Hrows as [-> | [uid ->]]; destruct attendance_date as [d|].
      - apply filter_In in Ha as [Ha Hd]. split; [done |].
        intros d' [= <-]. by apply bool_decide_eq_true_1 in Hd.
      - by split.
      - apply filter_In in Ha as [Ha Hd]. apply filter_In in Ha as [Ha _].
        split; [done |]. intros d' [= <-]. by apply bool_decide_eq_true_1 in Hd.
      - apply filter_In in Ha as [Ha _]. by split. }
    apply filter_In in Hin as [Hin Hp]. apply list_elem_of_In in Hin.
    split; [done |]. split; [by apply Hpq | done]. }
  assert (forall a, joined_with_user (users db) (SessionAttendance.user_id a) = true ->
            exists u, first (user_with_id (SessionAttendance.user_id a)) (users db)
                      = Some u
                      /\ User.id u = SessionAttendance.user_id a) as Hjoin.
  { intros a Ha. unfold joined_with_user in Ha. apply existsb_exists in Ha as (u & Hu & Hp).
    apply list_elem_of_In in Hu.
    destruct (first_is_Some _ _ _ Hu Hp) as [u' Hu'].
    exists u'. split; [done |].
    apply first_Some in Hu' as [_ Hu']. by apply bool_decide_eq_true_1 in Hu'. }
  destruct (bool_decide_reflect (User.role c = "trainer")) as [Hrole|Hrole].
  - destruct (bool_decide_reflect (SessionSchedule.trainer_id s ≠ User.id c))
      as [|Ht]; simpl; [done |].
    destruct (bool_decide_reflect (SessionSchedule.branch_name s ≠ User.branch c))
      as [|Hb]; simpl; [done |].
    intros [= <- <-]. split; [done |]. split; [|split; [done |]].
    + pose proof (Hrows
                    (λ a, bool_decide (SessionAttendance.session_id a = session_id)
                          && joined_with_user (users db) (SessionAttendance.user_id a))
                    (λ a, SessionAttendance.session_id a = session_id
                          /\ joined_with_user (users db)
                               (SessionAttendance.user_id a) = true)) as H.
      match type of H with
      | ?P -> _ => assert P as HP
      end.
      { intros a _ Hp. apply andb_prop in Hp as [Hp1 Hp2].
        by apply bool_decide_eq_true_1 in Hp1. }
      specialize (H HP). apply Forall_fmap.
      eapply Forall_impl.
      * apply H. destruct (truthy_int user_id); [right; by exists user_id | by left].
      * simpl. intros a (Hin & [Hsid Hj] & Hd).
        destruct (Hjoin a Hj) as (u & Hu & Huid).
        repeat split; try done. exists u. by rewrite Hu.
    + intros _. apply first_Some in Hs as [Hin Hid].
      apply bool_decide_eq_true_1 in Hid. exists s. repeat split; try done.
      * by destruct (decide (SessionSchedule.trainer_id s = User.id c));
          [|destruct Ht].
      * by destruct (decide (SessionSchedule.branch_name s = User.branch c));
          [|destruct Hb].
  - simpl. intros [= <- <-]. split; [done |].
    pose proof (Hrows
                  (λ a, bool_decide (SessionAttendance.session_id a = session_id)
                        && bool_decide (SessionAttendance.user_id a = User.id c)
                        && joined_with_user (users db) (SessionAttendance.user_id a))
                  (λ a, SessionAttendance.session_id a = session_id
                        /\ SessionAttendance.user_id a = User.id c
                        /\ joined_with_user (users db)
                             (SessionAttendance.user_id a) = true)) as H.
    match type of H with
    | ?P -> _ => assert P as HP
    end.
    { intros a _ Hp. apply andb_prop in Hp as [[Hp1 Hp2]%andb_prop Hp3].
      apply bool_decide_eq_true_1 in Hp1. by apply bool_decide_eq_true_1 in Hp2. }
    specialize (H HP _ (or_introl eq_refl)).
    split; [|split; [|done]].
    + apply Forall_fmap. eapply Forall_impl; [exact H |]. simpl.
      intros a (Hin & (Hsid & Huid & Hj) & Hd).
      destruct (Hjoin a Hj) as (u & Hu & Hu').
      repeat split; try done. exists u. by rewrite Hu.
    + intros _. apply Forall_fmap. eapply Forall_impl; [exact H |]. simpl.
      by intros a (_ & (_ & Huid & _) & _).
Qed.

(** Member M lists the bookings of the yoga session and names member N. *)
Lemma attendance_listing_is_scoped_witness :
  Example.gym_booked = Example.gym_booked
  /\ Forall (λ r, r.1 ∈ attendances Example.gym_booked
                  /\ SessionAttendance.session_id r.1 = 1
                  /\ (forall d, @None date = Some d ->
                        SessionAttendance.attendance_date r.1 = d)
                  /\ exists u, r.2 = Some u
                               /\ User.id u = SessionAttendance.user_id r.1)
       [(Example.booked_m, Some Example.member_m)].
Proof.
  destruct (attendance_listing_is_scoped Example.gym_booked Example.gym_booked
              Example.member_m 1 (Some 6) None
              [(Example.booked_m, Some Example.member_m)] eq_refl)
    as (Hdb & Hrs & _).
  split; assumption.
Defined.

(** X12: the [user_id] filter of the three list endpoints cannot select the
    user id 0: a request with [user_id = 0] is answered like a request
    without [user_id]. *)
Theorem user_id_zero_is_no_filter (caller : option User.t) (db : DB) :
  (forall session_id attendance_date,
     get_session_attendance session_id (Some 0) attendance_date caller db
     = get_session_attendance session_id None attendance_date caller db)
  /\ get_trainer_diet_plans (Some 0) caller db = get_trainer_diet_plans None caller db
  /\ get_trainer_exercise_plans (Some 0) caller db
     = get_trainer_exercise_plans None caller db.
Proof. repeat split. Qed.

(** X13: a booking is visible to the one who made it: after a caller who
    is not a trainer has created attendance, listing the attendance of that
    session, without date filter or filtered by the submitted date, returns
    the created record together with the caller's user row. *)
Theorem booked_record_is_listed (db db1 : DB) (c : User.t) (session_id : Z)
    (attendance_data : SessionAttendanceCreate.t) (r : SessionAttendance.t * User.t)
    (user_id : option Z) (attendance_date : option date) :
  User.role c ≠ "trainer" ->
  attendance_date = None
  \/ attendance_date = Some (SessionAttendanceCreate.attendance_date attendance_data) ->
  mark_session_attendance session_id attendance_data (Some c) db = (Ok r, db1) ->
  exists rs,
    get_session_attendance session_id user_id attendance_date (Some c) db1
    = (Ok rs, db1)
    /\ (r.1, Some r.2) ∈ rs.
Proof.
  intros Hrole Hdate Hmark.
  apply mark_session_attendance_ok in Hmark as (s & user & Hs & Hmay & -> & ->).
  destruct Hmay as [(? & _)|(_ & Hself & Huser)]; [done |].
  set (a := marked session_id attendance_data (attendances db)).
  assert (a ∈ upsert session_id attendance_data (attendances db)
          /\ SessionAttendance.session_id a = session_id
          /\ SessionAttendance.user_id a = User.id c
          /\ SessionAttendance.attendance_date a
             = SessionAttendanceCreate.attendance_date attendance_data)
    as (Hin & Hsid & Huid & Hd).
  { subst a. unfold marked, upsert.
    destruct (first _ (attendances db)) as [existing|] eqn:E.
    - split; [by apply update_first_elem |].
      apply first_Some in E as [_ E]. apply same_booking_true in E as (? & ? & ?).
      simpl. repeat split; congruence.
    - unfold marked. rewrite E. simpl. split; [|done].
      apply elem_of_app. right. apply list_elem_of_here. }
  assert (joined_with_user (users db) (User.id c) = true) as Hjoin.
  { apply first_Some in Huser as [Hu Hp]. apply existsb_exists.
    exists user. split; [by apply list_elem_of_In | done]. }
  unfold get_session_attendance, get_current_active_user. unfold_handler. simpl.
  rewrite Hs, (bool_decide_eq_false_2 _ Hrole). simpl.
  eexists. split; [reflexivity |].
  apply list_elem_of_fmap. exists a. split.
  { simpl. fold a. by rewrite Huid, Huser. }
  assert (In a (List.filter
                  (λ a, bool_decide (SessionAttendance.session_id a = session_id)
                        && bool_decide (SessionAttendance.user_id a = User.id c)
                        && joined_with_user (users db) (SessionAttendance.user_id a))
                  (upsert session_id attendance_data (attendances db)))) as Hfiltered.
  { apply filter_In. split; [by apply list_elem_of_In |].
    by rewrite !bool_decide_eq_true_2, Huid, Hjoin. }
  apply list_elem_of_In.
  destruct Hdate as [-> | ->]; [done |].
  apply filter_In. split; [done |]. by apply bool_decide_eq_true_2.
Qed.

(** Member N books the yoga session and finds the booking in the list. *)
Lemma booked_record_is_listed_witness :
  exists rs,
    get_session_attendance 1 None None (Some Example.member_n)
      (set_attendances [SessionAttendance.mk 1 1 6 "booked" Example.june1] Example.gym)
    = (Ok rs,
       set_attendances [SessionAttendance.mk 1 1 6 "booked" Example.june1] Example.gym)
    /\ (SessionAttendance.mk 1 1 6 "booked" Example.june1, Some Example.member_n) ∈ rs.
Proof.
  apply (booked_record_is_listed Example.gym
           (set_attendances [SessionAttendance.mk 1 1 6 "booked" Example.june1]
              Example.gym)
           Example.member_n 1 (SessionAttendanceCreate.mk 6 "booked" Example.june1)
           (SessionAttendance.mk 1 1 6 "booked" Example.june1, Example.member_n)
           None None).
  - discriminate.
  - by left.
  - reflexivity.
Defined.

(** ** Plans: assignment, ownership, listing *)

Lemma set_diet_plans_back (db : DB) (rows : list DietPlan.t) :
  set_diet_plans (diet_plans db) (set_diet_plans rows db) = db.
Proof. by destruct db. Qed.

Lemma set_exercise_plans_back (db : DB) (rows : list ExercisePlan.t) :
  set_exercise_plans (exercise_plans db) (set_exercise_plans rows db) = db.
Proof. by destruct db. Qed.

Lemma user_in_branch_true (user_id : Z) (branch : option string) (u : User.t) :
  user_in_branch user_id branch u = true
  <-> User.id u = user_id /\ User.branch u = branch.
Proof.
  unfold user_in_branch. by rewrite andb_true_iff, !bool_decide_eq_true.
Qed.

Lemma no_user_in_branch (user_id : Z) (branch : option string) (users : list User.t) :
  Forall (λ u, User.id u = user_id -> User.branch u ≠ branch) users ->
  first (user_in_branch user_id branch) users = None.
Proof.
  intros H. apply first_None. eapply Forall_impl; [exact H |]. simpl. intros u Hu.
  destruct (user_in_branch user_id branch u) eqn:E; [|done].
  apply user_in_branch_true in E as [? ?]. by destruct Hu.
Qed.

Lemma create_diet_plan_ok (assigned : date) (diet_plan : DietPlanCreate.t)
    (caller : option User.t) (db db' : DB) (r : DietPlanResponse.t) :
  create_diet_plan assigned diet_plan caller db = (Ok r, db') ->
  exists c user,
    caller = Some c /\ User.role c = "trainer"
    /\ first (user_in_branch (DietPlanCreate.user_id diet_plan) (User.branch c))
         (users db) = Some user
    /\ r = {| DietPlanResponse.plan :=
                {| DietPlan.id := next_id (DietPlan.id <$> diet_plans db);
                   DietPlan.user_id := DietPlanCreate.user_id diet_plan;
                   DietPlan.assigned_by_trainer_id := User.id c;
                   DietPlan.title := DietPlanCreate.title diet_plan;
                   DietPlan.description := DietPlanCreate.description diet_plan;
                   DietPlan.assigned_date := assigned;
                   DietPlan.expiry_date := DietPlanCreate.expiry_date diet_plan;
                   DietPlan.branch_name := User.branch c |};
              DietPlanResponse.user := user;
              DietPlanResponse.assigned_by_trainer := caller_trainer_schema c db |}
    /\ db' = set_diet_plans (diet_plans db ++ [DietPlanResponse.plan r]) db.
Proof.
  unfold create_diet_plan, get_current_trainer, get_current_active_user.
  unfold_handler. destruct caller as [c|]; simpl; [|done].
  destruct (bool_decide_reflect (User.role c ≠ "trainer")) as [|Hrole]; simpl; [done |].
  destruct (first _ (users db)) as [user|] eqn:Hu; [|done].
  intros [= <- <-]. exists c, user. repeat split; try done.
  destruct (decide (User.role c = "trainer")); [done | by destruct Hrole].
Qed.

Lemma create_exercise_plan_ok (assigned : date) (exercise_plan : ExercisePlanCreate.t)
    (caller : option User.t) (db db' : DB) (r : ExercisePlanResponse.t) :
  create_exercise_plan assigned exercise_plan caller db = (Ok r, db') ->
  exists c user,
    caller = Some c /\ User.role c = "trainer"
    /\ first (user_in_branch (ExercisePlanCreate.user_id exercise_plan) (User.branch c))
         (users db) = Some user
    /\ r = {| ExercisePlanResponse.plan :=
                {| ExercisePlan.id := next_id (ExercisePlan.id <$> exercise_plans db);
                   ExercisePlan.user_id := ExercisePlanCreate.user_id exercise_plan;
                   ExercisePlan.assigned_by_trainer_id := User.id c;
                   ExercisePlan.title := ExercisePlanCreate.title exercise_plan;
                   ExercisePlan.description :=
                     ExercisePlanCreate.description exercise_plan;
                   ExercisePlan.assigned_date := assigned;
                   ExercisePlan.expiry_date :=
                     ExercisePlanCreate.expiry_date exercise_plan;
                   ExercisePlan.branch_name := User.branch c |};
              ExercisePlanResponse.user := user;
              ExercisePlanResponse.assigned_by_trainer := caller_trainer_schema c db |}
    /\ db' = set_exercise_plans
               (exercise_plans db ++ [ExercisePlanResponse.plan r]) db.
Proof.
  unfold create_exercise_plan, get_current_trainer, get_current_active_user.
  unfold_handler. destruct caller as [c|]; simpl; [|done].
  destruct (bool_decide_reflect (User.role c ≠ "trainer")) as [|Hrole]; simpl; [done |].
  destruct (first _ (users db)) as [user|] eqn:Hu; [|done].
  intros [= <- <-]. exists c, user. repeat split; try done.
  destruct (decide (User.role c = "trainer")); [done | by destruct Hrole].
Qed.

(** X14: a trainer assigns a diet plan or an exercise plan only to a user
    of the trainer's branch: when no user row with the payload's user_id
    carries the trainer's branch the call answers [NotFound] on an untouched
    store; a plan that is created names the trainer as owner, carries the
    trainer's branch, and its subject is a stored user of that branch. *)
Theorem plan_subject_is_in_trainer_branch (db : DB) (c : User.t) (assigned : date) :
  User.role c = "trainer" ->
  (forall diet_plan,
     Forall (λ u, User.id u = DietPlanCreate.user_id diet_plan ->
                  User.branch u ≠ User.branch c) (users db) ->
     create_diet_plan assigned diet_plan (Some c) db = (Raise NotFound, db))
  /\ (forall exercise_plan,
        Forall (λ u, User.id u = ExercisePlanCreate.user_id exercise_plan ->
                     User.branch u ≠ User.branch c) (users db) ->
        create_exercise_plan assigned exercise_plan (Some c) db = (Raise NotFound, db))
  /\ (forall diet_plan r db',
        create_diet_plan assigned diet_plan (Some c) db = (Ok r, db') ->
        DietPlan.assigned_by_trainer_id (DietPlanResponse.plan r) = User.id c
        /\ DietPlan.branch_name (DietPlanResponse.plan r) = User.branch c
        /\ DietPlan.user_id (DietPlanResponse.plan r) = DietPlanCreate.user_id diet_plan
        /\ DietPlanResponse.user r ∈ users db
        /\ User.id (DietPlanResponse.user r) = DietPlanCreate.user_id diet_plan
        /\ User.branch (DietPlanResponse.user r) = User.branch c
        /\ diet_plans db' = diet_plans db ++ [DietPlanResponse.plan r])
  /\ (forall exercise_plan r db',
        create_exercise_plan assigned exercise_plan (Some c) db = (Ok r, db') ->
        ExercisePlan.assigned_by_trainer_id (ExercisePlanResponse.plan r) = User.id c
        /\ ExercisePlan.branch_name (ExercisePlanResponse.plan r) = User.branch c
        /\ ExercisePlan.user_id (ExercisePlanResponse.plan r)
           = ExercisePlanCreate.user_id exercise_plan
        /\ ExercisePlanResponse.user r ∈ users db
        /\ User.id (ExercisePlanResponse.user r)
           = ExercisePlanCreate.user_id exercise_plan
        /\ User.branch (ExercisePlanResponse.user r) = User.branch c
        /\ exercise_plans db' = exercise_plans db ++ [ExercisePlanResponse.plan r]).
Proof.
  intros Hrole. split; [|split; [|split]].
  - intros diet_plan Hnone. apply no_user_in_branch in Hnone.
    unfold create_diet_plan. unfold_handler.
    rewrite (get_current_trainer_ok c db Hrole). simpl. by rewrite Hnone.
  - intros exercise_plan Hnone. apply no_user_in_branch in Hnone.
    unfold create_exercise_plan. unfold_handler.
    rewrite (get_current_trainer_ok c db Hrole). simpl. by rewrite Hnone.
  - intros diet_plan r db' Hok.
    apply create_diet_plan_ok in Hok as (c' & user & [= <-] & _ & Hu & -> & ->).
    apply first_Some in Hu as [Hin Hu]. apply user_in_branch_true in Hu as [? ?].
    by repeat split.
  - intros exercise_plan r db' Hok.
    apply create_exercise_plan_ok in Hok as (c' & user & [= <-] & _ & Hu & -> & ->).
    apply first_Some in Hu as [Hin Hu]. apply user_in_branch_true in Hu as [? ?].
    by repeat split.
Qed.

(** Trainer A of branch X assigns a plan to member N of branch Y. *)
Lemma plan_subject_is_in_trainer_branch_witness :
  create_diet_plan Example.june1 Example.cut_for_n (Some Example.trainer_a) Example.gym
  = (Raise NotFound, Example.gym).
Proof.
  assert (User.role Example.trainer_a = "trainer") as Hrole by reflexivity.
  destruct (plan_subject_is_in_trainer_branch Example.gym Example.trainer_a
              Example.june1 Hrole) as (Hdiet & _).
  apply (Hdiet Example.cut_for_n).
  repeat constructor; simpl; intros H; discriminate.
Defined.

(** X15: a diet plan that trainer [T] has just assigned cannot be updated or
    deleted by a trainer with another id, who gets [NotFound] on an untouched
    store; [T] deleting it gives back the store from before the
    assignment. *)
Theorem assigned_diet_plan_belongs_to_trainer (db db1 : DB) (T : User.t)
    (assigned : date) (diet_plan : DietPlanCreate.t) (r : DietPlanResponse.t) :
  create_diet_plan assigned diet_plan (Some T) db = (Ok r, db1) ->
  (forall c diet_plan_update, User.role c = "trainer" -> User.id c ≠ User.id T ->
     update_diet_plan (DietPlan.id (DietPlanResponse.plan r)) diet_plan_update
       (Some c) db1 = (Raise NotFound, db1)
     /\ delete_diet_plan (DietPlan.id (DietPlanResponse.plan r)) (Some c) db1
        = (Raise NotFound, db1))
  /\ delete_diet_plan (DietPlan.id (DietPlanResponse.plan r)) (Some T) db1
     = (Ok "Diet plan deleted successfully", db).
Proof.
  intros Hcreate.
  apply create_diet_plan_ok in Hcreate as (T' & user & [= <-] & Hrole & _ & -> & ->).
  simpl.
  set (new_id := next_id (DietPlan.id <$> diet_plans db)).
  set (new_plan := DietPlan.mk _ _ _ _ _ _ _ _).
  assert (forall c, Forall (λ p, own_diet_plan new_id c p = false) (diet_plans db))
    as Hold.
  { intros c. pose proof (next_id_not_stored DietPlan.id (diet_plans db)) as H.
    eapply Forall_impl; [exact H |]. simpl. intros p Hp. unfold own_diet_plan.
    rewrite bool_decide_eq_false_2; [done | unfold new_id; lia]. }
  split.
  - intros c diet_plan_update Hc Hne.
    assert (first (own_diet_plan new_id c) (diet_plans db ++ [new_plan]) = None)
      as Hnone.
    { apply first_snoc_None; [apply Hold |]. unfold own_diet_plan. simpl.
      rewrite (bool_decide_eq_false_2 (User.id T = User.id c)) by congruence.
      by rewrite andb_false_r. }
    unfold update_diet_plan, delete_diet_plan. unfold_handler.
    rewrite !(get_current_trainer_ok c _ Hc). simpl. by rewrite Hnone.
  - assert (own_diet_plan new_id T new_plan = true) as Hnew.
    { unfold own_diet_plan. simpl. by rewrite !bool_decide_eq_true_2. }
    unfold delete_diet_plan. unfold_handler.
    rewrite (get_current_trainer_ok T _ Hrole). simpl.
    rewrite (first_snoc _ _ _ (Hold T) Hnew). simpl.
    rewrite (delete_first_snoc _ _ _ (Hold T) Hnew).
    by rewrite set_diet_plans_back.
Qed.

(** X16: an exercise plan that trainer [T] has just assigned cannot be
    updated or deleted by a trainer with another id, who gets [NotFound] on
    an untouched store; [T] deleting it gives back the store from before the
    assignment. *)
Theorem assigned_exercise_plan_belongs_to_trainer (db db1 : DB) (T : User.t)
    (assigned : date) (exercise_plan : ExercisePlanCreate.t)
    (r : ExercisePlanResponse.t) :
  create_exercise_plan assigned exercise_plan (Some T) db = (Ok r, db1) ->
  (forall c exercise_plan_update, User.role c = "trainer" -> User.id c ≠ User.id T ->
     update_exercise_plan (ExercisePlan.id (ExercisePlanResponse.plan r))
       exercise_plan_update (Some c) db1 = (Raise NotFound, db1)
     /\ delete_exercise_plan (ExercisePlan.id (ExercisePlanResponse.plan r)) (Some c) db1
        = (Raise NotFound, db1))
  /\ delete_exercise_plan (ExercisePlan.id (ExercisePlanResponse.plan r)) (Some T) db1
     = (Ok "Exercise plan deleted successfully", db).
Proof.
  intros Hcreate.
  apply create_exercise_plan_ok in Hcreate
    as (T' & user & [= <-] & Hrole & _ & -> & ->).
  simpl.
  set (new_id := next_id (ExercisePlan.id <$> exercise_plans db)).
  set (new_plan := ExercisePlan.mk _ _ _ _ _ _ _ _).
  assert (forall c, Forall (λ p, own_exercise_plan new_id c p = false)
                      (exercise_plans db)) as Hold.
  { intros c. pose proof (next_id_not_stored ExercisePlan.id (exercise_plans db)) as H.
    eapply Forall_impl; [exact H |]. simpl. intros p Hp. unfold own_exercise_plan.
    rewrite bool_decide_eq_false_2; [done | unfold new_id; lia]. }
  split.
  - intros c exercise_plan_update Hc Hne.
    assert (first (own_exercise_plan new_id c) (exercise_plans db ++ [new_plan]) = None)
      as Hnone.
    { apply first_snoc_None; [apply Hold |]. unfold own_exercise_plan. simpl.
      rewrite (bool_decide_eq_false_2 (User.id T = User.id c)) by congruence.
      by rewrite andb_false_r. }
    unfold update_exercise_plan, delete_exercise_plan. unfold_handler.
    rewrite !(get_current_trainer_ok c _ Hc). simpl. by rewrite Hnone.
  - assert (own_exercise_plan new_id T new_plan = true) as Hnew.
    { unfold own_exercise_plan. simpl. by rewrite !bool_decide_eq_true_2. }
    unfold delete_exercise_plan. unfold_handler.
    rewrite (get_current_trainer_ok T _ Hrole). simpl.
    rewrite (first_snoc _ _ _ (Hold T) Hnew). simpl.
    rewrite (delete_first_snoc _ _ _ (Hold T) Hnew).
    by rewrite set_exercise_plans_back.
Qed.

(** Trainer A assigns the plan "Cut" to member M and deletes it again. *)
Lemma assigned_diet_plan_belongs_to_trainer_witness :
  delete_diet_plan 1 (Some Example.trainer_a)
    (set_diet_plans [Example.cut] Example.gym)
  = (Ok "Diet plan deleted successfully", Example.gym).
Proof.
  apply (assigned_diet_plan_belongs_to_trainer Example.gym
           (set_diet_plans [Example.cut] Example.gym) Example.trainer_a Example.june1
           (DietPlanCreate.mk 5 "Cut" None None)
           (DietPlanResponse.mk Example.cut Example.member_m
              (caller_trainer_schema Example.trainer_a Example.gym))).
  reflexivity.
Defined.

(** Trainer A assigns the plan "Strength" to member M and deletes it again. *)
Lemma assigned_exercise_plan_belongs_to_trainer_witness :
  delete_exercise_plan 1 (Some Example.trainer_a)
    (set_exercise_plans [Example.strength] Example.gym)
  = (Ok "Exercise plan deleted successfully", Example.gym).
Proof.
  apply (assigned_exercise_plan_belongs_to_trainer Example.gym
           (set_exercise_plans [Example.strength] Example.gym) Example.trainer_a
           Example.june1 (ExercisePlanCreate.mk 5 "Strength" None None)
           (ExercisePlanResponse.mk Example.strength Example.member_m
              (caller_trainer_schema Example.trainer_a Example.gym))).
  reflexivity.
Defined.

Lemma joined_user_found (users : list User.t) (user_id : Z) :
  joined_with_user users user_id = true ->
  exists u, first (user_with_id user_id) users = Some u
            /\ u ∈ users /\ User.id u = user_id.
Proof.
  unfold joined_with_user. intros (u & Hu & Hp)%existsb_exists.
  apply list_elem_of_In in Hu.
  destruct (first_is_Some _ _ _ Hu Hp) as [u' Hu']. exists u'.
  split; [done |]. apply first_Some in Hu' as [? Hid].
  by apply bool_decide_eq_true_1 in Hid.
Qed.

Lemma Forall2_Forall_result {A B} (R : A -> B -> Prop) (Q : A -> Prop) (S : B -> Prop)
    (l : list A) (k : list B) :
  Forall2 R l k -> Forall Q l -> (forall x y, R x y -> Q x -> S y) -> Forall S k.
Proof.
  intros HR HQ HS. induction HR as [|x y l k Hxy _ IH]; [constructor |].
  inversion HQ; subst. constructor; [by eapply HS | by apply IH].
Qed.

(** X17: the diet plan list of a trainer holds only plans that the trainer
    assigned and that carry the trainer's branch, each with a stored user
    row of its subject and, when [user_id] is given and not 0, only plans
    of that subject; without [user_id] every such plan whose subject has a
    user row is listed.  The call fails only for a missing caller or a
    caller who is not a trainer, and never changes the store. *)
Theorem diet_plan_listing_is_scoped (db : DB) (caller : option User.t)
    (user_id : option Z) :
  (forall rs db',
     get_trainer_diet_plans user_id caller db = (Ok rs, db') ->
     db' = db
     /\ exists c,
          caller = Some c /\ User.role c = "trainer"
          /\ Forall (λ r, DietPlanResponse.plan r ∈ diet_plans db
                          /\ DietPlan.assigned_by_trainer_id (DietPlanResponse.plan r)
                             = User.id c
                          /\ DietPlan.branch_name (DietPlanResponse.plan r)
                             = User.branch c
                          /\ DietPlanResponse.user r ∈ users db
                          /\ User.id (DietPlanResponse.user r)
                             = DietPlan.user_id (DietPlanResponse.plan r)
                          /\ (forall u, user_id = Some u -> u ≠ 0 ->
                                DietPlan.user_id (DietPlanResponse.plan r) = u)) rs
          /\ (user_id = None ->
              forall p u, p ∈ diet_plans db ->
                DietPlan.assigned_by_trainer_id p = User.id c ->
                DietPlan.branch_name p = User.branch c ->
                u ∈ users db -> User.id u = DietPlan.user_id p ->
                exists r, r ∈ rs /\ DietPlanResponse.plan r = p))
  /\ (forall e db',
        get_trainer_diet_plans user_id caller db = (Raise e, db') ->
        db' = db /\ (e = Unauthenticated \/ e = Forbidden)).
Proof.
  unfold get_trainer_diet_plans, get_current_trainer, get_current_active_user.
  unfold_handler. destruct caller as [c|]; simpl; [|split; [done |]].
  2: { intros e db' [= <- <-]. split; [done | by left]. }
  destruct (bool_decide_reflect (User.role c ≠ "trainer")) as [|Hrole]; simpl.
  { split; [done |]. intros e db' [= <- <-]. split; [done | by right]. }
  set (own := λ p, bool_decide (DietPlan.assigned_by_trainer_id p = User.id c)
                   && bool_decide (DietPlan.branch_name p = User.branch c)
                   && joined_with_user (users db) (DietPlan.user_id p)).
  set (query := if truthy_int user_id then _ else _).
  assert (Forall (λ p, p ∈ diet_plans db /\ own p = true
                       /\ (forall u, user_id = Some u -> u ≠ 0 -> DietPlan.user_id p = u))
            query) as Hquery.
  { apply Forall_forall. intros p Hp. apply list_elem_of_In in Hp. subst query.
    destruct user_id as [u|]; simpl in Hp.
    - destruct (bool_decide_reflect (u = 0)) as [->|Hu]; simpl in Hp.
      + apply filter_In in Hp as [Hp Hown]. apply list_elem_of_In in Hp.
        repeat split; try done. by intros u [= <-].
      + apply filter_In in Hp as [Hp Hsel]. apply filter_In in Hp as [Hp Hown].
        apply list_elem_of_In in Hp. apply bool_decide_eq_true_1 in Hsel.
        repeat split; try done. intros u' [= <-] _. by injection Hsel.
    - apply filter_In in Hp as [Hp Hown]. apply list_elem_of_In in Hp.
      by repeat split. }
  destruct (diet_plan_responses (users db) (caller_trainer_schema c db) query)
    as [result|] eqn:E.
  - split; [|done]. intros rs db' [= <- <-]. split; [done |].
    exists c. split; [done |]. split.
    { destruct (decide (User.role c = "trainer")); [done | by destruct Hrole]. }
    apply mapM_Some_1 in E. split.
    + eapply (Forall2_Forall_result _ _ _ _ _ E Hquery). simpl.
      intros p r Hr (Hin & Hown & Hsel).
      destruct (first (user_with_id (DietPlan.user_id p)) (users db)) as [u|] eqn:Hu;
        [|done].
      injection Hr as <-. simpl.
      apply andb_prop in Hown as [[H1 H2]%andb_prop _].
      apply bool_decide_eq_true_1 in H1. apply bool_decide_eq_true_1 in H2.
      apply first_Some in Hu as [Huin Hu]. apply bool_decide_eq_true_1 in Hu.
      by repeat split.
    + intros -> p u Hp Hby Hbranch Hu Huid.
      assert (p ∈ query) as Hq.
      { subst query. simpl. apply list_elem_of_In, filter_In.
        split; [by apply list_elem_of_In |]. subst own. simpl.
        rewrite !bool_decide_eq_true_2 by done. simpl.
        apply existsb_exists. exists u.
        split; [by apply list_elem_of_In | by apply bool_decide_eq_true_2]. }
      apply list_elem_of_lookup in Hq as [i Hi].
      destruct (Forall2_lookup_l _ _ _ _ _ E Hi) as (r & Hr & Hpr).
      exists r. split; [by eapply list_elem_of_lookup_2 |].
      destruct (first (user_with_id (DietPlan.user_id p)) (users db)); [|done].
      by injection Hpr as <-.
  - exfalso. apply mapM_None_1 in E. apply Exists_exists in E as (p & Hp & Hnone).
    rewrite Forall_forall in Hquery. destruct (Hquery p Hp) as (_ & Hown & _).
    apply andb_prop in Hown as [_ Hj].
    destruct (joined_user_found _ _ Hj) as (u & Hu & _). by rewrite Hu in Hnone.
Qed.

(** X18: the exercise plan list of a trainer holds only plans that the trainer
    assigned and that carry the trainer's branch, each with a stored user
    row of its subject and, when [user_id] is given and not 0, only plans
    of that subject; without [user_id] every such plan whose subject has a
    user row is listed.  The call fails only for a missing caller or a
    caller who is not a trainer, and never changes the store. *)
Theorem exercise_plan_listing_is_scoped (db : DB) (caller : option User.t)
    (user_id : option Z) :
  (forall rs db',
     get_trainer_exercise_plans user_id caller db = (Ok rs, db') ->
     db' = db
     /\ exists c,
          caller = Some c /\ User.role c = "trainer"
          /\ Forall (λ r, ExercisePlanResponse.plan r ∈ exercise_plans db
                          /\ ExercisePlan.assigned_by_trainer_id (ExercisePlanResponse.plan r)
                             = User.id c
                          /\ ExercisePlan.branch_name (ExercisePlanResponse.plan r)
                             = User.branch c
                          /\ ExercisePlanResponse.user r ∈ users db
                          /\ User.id (ExercisePlanResponse.user r)
                             = ExercisePlan.user_id (ExercisePlanResponse.plan r)
                          /\ (forall u, user_id = Some u -> u ≠ 0 ->
                                ExercisePlan.user_id (ExercisePlanResponse.plan r) = u)) rs
          /\ (user_id = None ->
              forall p u, p ∈ exercise_plans db ->
                ExercisePlan.assigned_by_trainer_id p = User.id c ->
                ExercisePlan.branch_name p = User.branch c ->
                u ∈ users db -> User.id u = ExercisePlan.user_id p ->
                exists r, r ∈ rs /\ ExercisePlanResponse.plan r = p))
  /\ (forall e db',
        get_trainer_exercise_plans user_id caller db = (Raise e, db') ->
        db' = db /\ (e = Unauthenticated \/ e = Forbidden)).
Proof.
  unfold get_trainer_exercise_plans, get_current_trainer, get_current_active_user.
  unfold_handler. destruct caller as [c|]; simpl; [|split; [done |]].
  2: { intros e db' [= <- <-]. split; [done | by left]. }
  destruct (bool_decide_reflect (User.role c ≠ "trainer")) as [|Hrole]; simpl.
  { split; [done |]. intros e db' [= <- <-]. split; [done | by right]. }
  set (own := λ p, bool_decide (ExercisePlan.assigned_by_trainer_id p = User.id c)
                   && bool_decide (ExercisePlan.branch_name p = User.branch c)
                   && joined_with_user (users db) (ExercisePlan.user_id p)).
  set (query := if truthy_int user_id then _ else _).
  assert (Forall (λ p, p ∈ exercise_plans db /\ own p = true
                       /\ (forall u, user_id = Some u -> u ≠ 0 -> ExercisePlan.user_id p = u))
            query) as Hquery.
  { apply Forall_forall. intros p Hp. apply list_elem_of_In in Hp. subst query.
    destruct user_id as [u|]; simpl in Hp.
    - destruct (bool_decide_reflect (u = 0)) as [->|Hu]; simpl in Hp.
      + apply filter_In in Hp as [Hp Hown]. apply list_elem_of_In in Hp.
        repeat split; try done. by intros u [= <-].
      + apply filter_In in Hp as [Hp Hsel]. apply filter_In in Hp as [Hp Hown].
        apply list_elem_of_In in Hp. apply bool_decide_eq_true_1 in Hsel.
        repeat split; try done. intros u' [= <-] _. by injection Hsel.
    - apply filter_In in Hp as [Hp Hown]. apply list_elem_of_In in Hp.
      by repeat split. }
  destruct (exercise_plan_responses (users db) (caller_trainer_schema c db) query)
    as [result|] eqn:E.
  - split; [|done]. intros rs db' [= <- <-]. split; [done |].
    exists c. split; [done |]. split.
    { destruct (decide (User.role c = "trainer")); [done | by destruct Hrole]. }
    apply mapM_Some_1 in E. split.
    + eapply (Forall2_Forall_result _ _ _ _ _ E Hquery). simpl.
      intros p r Hr (Hin & Hown & Hsel).
      destruct (first (user_with_id (ExercisePlan.user_id p)) (users db)) as [u|] eqn:Hu;
        [|done].
      injection Hr as <-. simpl.
      apply andb_prop in Hown as [[H1 H2]%andb_prop _].
      apply bool_decide_eq_true_1 in H1. apply bool_decide_eq_true_1 in H2.
      apply first_Some in Hu as [Huin Hu]. apply bool_decide_eq_true_1 in Hu.
      by repeat split.
    + intros -> p u Hp Hby Hbranch Hu Huid.
      assert (p ∈ query) as Hq.
      { subst query. simpl. apply list_elem_of_In, filter_In.
        split; [by apply list_elem_of_In |]. subst own. simpl.
        rewrite !bool_decide_eq_true_2 by done. simpl.
        apply existsb_exists. exists u.
        split; [by apply list_elem_of_In | by apply bool_decide_eq_true_2]. }
      apply list_elem_of_lookup in Hq as [i Hi].
      destruct (Forall2_lookup_l _ _ _ _ _ E Hi) as (r & Hr & Hpr).
      exists r. split; [by eapply list_elem_of_lookup_2 |].
      destruct (first (user_with_id (ExercisePlan.user_id p)) (users db)); [|done].
      by injection Hpr as <-.
  - exfalso. apply mapM_None_1 in E. apply Exists_exists in E as (p & Hp & Hnone).
    rewrite Forall_forall in Hquery. destruct (Hquery p Hp) as (_ & Hown & _).
    apply andb_prop in Hown as [_ Hj].
    destruct (joined_user_found _ _ Hj) as (u & Hu & _). by rewrite Hu in Hnone.
Qed.

(** X19: an update of a stored diet plan (or exercise plan) that carries
    the branch of the trainer who assigned it, sent by that trainer with the
    stored user_id, replaces title, description and expiry date of that plan
    and keeps its id, subject, owner, assignment date and branch; the plan is rewritten before the response is built, so
    the call returns the rewritten plan with the subject's user row, and
    when the subject has no user row it fails with an internal error after
    the plan has been rewritten. *)
Theorem plan_update_rewrites_three_fields (db : DB) (c : User.t) (plan_id : Z) :
  User.role c = "trainer" ->
  (forall diet_plan_update p,
     first (diet_plan_with_id plan_id) (diet_plans db) = Some p ->
     DietPlan.assigned_by_trainer_id p = User.id c ->
     DietPlan.branch_name p = User.branch c ->
     DietPlanCreate.user_id diet_plan_update = DietPlan.user_id p ->
     exists db',
       let p' := {| DietPlan.id := DietPlan.id p;
                    DietPlan.user_id := DietPlan.user_id p;
                    DietPlan.assigned_by_trainer_id := DietPlan.assigned_by_trainer_id p;
                    DietPlan.title := DietPlanCreate.title diet_plan_update;
                    DietPlan.description := DietPlanCreate.description diet_plan_update;
                    DietPlan.assigned_date := DietPlan.assigned_date p;
                    DietPlan.expiry_date := DietPlanCreate.expiry_date diet_plan_update;
                    DietPlan.branch_name := DietPlan.branch_name p |} in
       first (diet_plan_with_id plan_id) (diet_plans db') = Some p'
       /\ length (diet_plans db') = length (diet_plans db)
       /\ db' = set_diet_plans (diet_plans db') db
       /\ (forall u, first (user_with_id (DietPlan.user_id p)) (users db) = Some u ->
             update_diet_plan plan_id diet_plan_update (Some c) db
             = (Ok {| DietPlanResponse.plan := p';
                      DietPlanResponse.user := u;
                      DietPlanResponse.assigned_by_trainer :=
                        trainer_schema (DietPlan.assigned_by_trainer_id p) db |}, db'))
       /\ (Forall (λ u, User.id u ≠ DietPlan.user_id p) (users db) ->
           update_diet_plan plan_id diet_plan_update (Some c) db
           = (Raise HTTP_500_INTERNAL_SERVER_ERROR, db')))
  /\ (forall exercise_plan_update p,
        first (exercise_plan_with_id plan_id) (exercise_plans db) = Some p ->
        ExercisePlan.assigned_by_trainer_id p = User.id c ->
        ExercisePlan.branch_name p = User.branch c ->
        ExercisePlanCreate.user_id exercise_plan_update = ExercisePlan.user_id p ->
        exists db',
          let p' := {| ExercisePlan.id := ExercisePlan.id p;
                       ExercisePlan.user_id := ExercisePlan.user_id p;
                       ExercisePlan.assigned_by_trainer_id :=
                         ExercisePlan.assigned_by_trainer_id p;
                       ExercisePlan.title := ExercisePlanCreate.title exercise_plan_update;
                       ExercisePlan.description :=
                         ExercisePlanCreate.description exercise_plan_update;
                       ExercisePlan.assigned_date := ExercisePlan.assigned_date p;
                       ExercisePlan.expiry_date :=
                         ExercisePlanCreate.expiry_date exercise_plan_update;
                       ExercisePlan.branch_name := ExercisePlan.branch_name p |} in
          first (exercise_plan_with_id plan_id) (exercise_plans db') = Some p'
          /\ length (exercise_plans db') = length (exercise_plans db)
          /\ db' = set_exercise_plans (exercise_plans db') db
          /\ (forall u,
                first (user_with_id (ExercisePlan.user_id p)) (users db) = Some u ->
                update_exercise_plan plan_id exercise_plan_update (Some c) db
                = (Ok {| ExercisePlanResponse.plan := p';
                         ExercisePlanResponse.user := u;
                         ExercisePlanResponse.assigned_by_trainer :=
                           trainer_schema (ExercisePlan.assigned_by_trainer_id p) db |},
                   db'))
          /\ (Forall (λ u, User.id u ≠ ExercisePlan.user_id p) (users db) ->
              update_exercise_plan plan_id exercise_plan_update (Some c) db
              = (Raise HTTP_500_INTERNAL_SERVER_ERROR, db'))).
Proof.
  intros Hrole. split.
  - intros diet_plan_update p Hp Hby Hbranch Huser.
    assert (first (own_diet_plan plan_id c) (diet_plans db) = Some p) as Hown.
    { apply (first_stronger _ (diet_plan_with_id plan_id)); [|done|].
      - intros y Hy. unfold own_diet_plan in Hy.
        by apply andb_prop in Hy as [[Hy _]%andb_prop _].
      - apply first_Some in Hp as [_ Hp]. unfold own_diet_plan.
        unfold diet_plan_with_id in Hp. rewrite Hp. simpl.
        by rewrite !bool_decide_eq_true_2. }
    exists (set_diet_plans
              (update_first (own_diet_plan plan_id c)
                 (assign_diet_plan diet_plan_update) (diet_plans db)) db).
    simpl. split; [|split; [|split; [|split]]].
    + clear Hown. revert Hp. unfold first. generalize (diet_plans db).
      induction l as [|x l IH]; simpl; [done |].
      unfold own_diet_plan at 1, diet_plan_with_id at 1 3.
      destruct (bool_decide_reflect (DietPlan.id x = plan_id)) as [Hx|Hx]; simpl.
      * intros [= ->]. rewrite !bool_decide_eq_true_2 by done. simpl.
        by rewrite bool_decide_eq_true_2.
      * intros Hl. simpl. rewrite bool_decide_eq_false_2 by done. by apply IH.
    + apply length_update_first.
    + done.
    + intros u Hu. unfold update_diet_plan. unfold_handler.
      rewrite (get_current_trainer_ok c db Hrole). simpl. rewrite Hown.
      rewrite bool_decide_eq_false_2 by (by intros []). simpl. by rewrite Hu.
    + intros Hnone.
      assert (first (user_with_id (DietPlan.user_id p)) (users db) = None) as Hu.
      { apply first_None. eapply Forall_impl; [exact Hnone |]. simpl. intros u Hu.
        by apply bool_decide_eq_false_2. }
      unfold update_diet_plan. unfold_handler.
      rewrite (get_current_trainer_ok c db Hrole). simpl. rewrite Hown.
      rewrite bool_decide_eq_false_2 by (by intros []). simpl. by rewrite Hu.
  - intros exercise_plan_update p Hp Hby Hbranch Huser.
    assert (first (own_exercise_plan plan_id c) (exercise_plans db) = Some p) as Hown.
    { apply (first_stronger _ (exercise_plan_with_id plan_id)); [|done|].
      - intros y Hy. unfold own_exercise_plan in Hy.
        by apply andb_prop in Hy as [[Hy _]%andb_prop _].
      - apply first_Some in Hp as [_ Hp]. unfold own_exercise_plan.
        unfold exercise_plan_with_id in Hp. rewrite Hp. simpl.
        by rewrite !bool_decide_eq_true_2. }
    exists (set_exercise_plans
              (update_first (own_exercise_plan plan_id c)
                 (assign_exercise_plan exercise_plan_update) (exercise_plans db)) db).
    simpl. split; [|split; [|split; [|split]]].
    + clear Hown. revert Hp. unfold first. generalize (exercise_plans db).
      induction l as [|x l IH]; simpl; [done |].
      unfold own_exercise_plan at 1, exercise_plan_with_id at 1 3.
      destruct (bool_decide_reflect (ExercisePlan.id x = plan_id)) as [Hx|Hx]; simpl.
      * intros [= ->]. rewrite !bool_decide_eq_true_2 by done. simpl.
        by rewrite bool_decide_eq_true_2.
      * intros Hl. simpl. rewrite bool_decide_eq_false_2 by done. by apply IH.
    + apply length_update_first.
    + done.
    + intros u Hu. unfold update_exercise_plan. unfold_handler.
      rewrite (get_current_trainer_ok c db Hrole). simpl. rewrite Hown.
      rewrite bool_decide_eq_false_2 by (by intros []). simpl. by rewrite Hu.
    + intros Hnone.
      assert (first (user_with_id (ExercisePlan.user_id p)) (users db) = None) as Hu.
      { apply first_None. eapply Forall_impl; [exact Hnone |]. simpl. intros u Hu.
        by apply bool_decide_eq_false_2. }
      unfold update_exercise_plan. unfold_handler.
      rewrite (get_current_trainer_ok c db Hrole). simpl. rewrite Hown.
      rewrite bool_decide_eq_false_2 by (by intros []). simpl. by rewrite Hu.
Qed.

(** Trainer A renames the plan "Cut" of member M. *)
Lemma plan_update_rewrites_three_fields_witness :
  exists db',
    first (diet_plan_with_id 1) (diet_plans db')
    = Some (DietPlan.mk 1 5 1 "Bulk" None Example.june1 None (Some "X"))
    /\ length (diet_plans db') = length (diet_plans Example.gym_plans).
Proof.
  destruct (plan_update_rewrites_three_fields Example.gym_plans Example.trainer_a 1
              eq_refl) as [Hdiet _].
  destruct (Hdiet (DietPlanCreate.mk 5 "Bulk" None None) Example.cut
              eq_refl eq_refl eq_refl eq_refl) as (db' & H).
  cbv zeta in H. destruct H as (H1 & H2 & _).
  exists db'. split; assumption.
Defined.

(** ** Trainer records: creation, listing, deletion *)

(** X20: trainer creation keeps emails unique: for an admin or superadmin,
    an email that a stored trainer already has is answered [InvalidState] on
    an untouched store; after a trainer has been created, creating another
    one with the same email fails in that way; and a trainer table without
    repeated emails stays so. *)
Theorem add_trainer_keeps_emails_unique (get_password_hash : string -> string)
    (db : DB) (c : User.t) (trainer : TrainerCreate.t) :
  User.role c = "admin" \/ User.role c = "superadmin" ->
  (forall t, t ∈ trainers db -> Trainer.email t = TrainerCreate.email trainer ->
     add_trainer get_password_hash trainer (Some c) db = (Raise InvalidState, db))
  /\ (forall r db1 c2 again,
        add_trainer get_password_hash trainer (Some c) db = (Ok r, db1) ->
        User.role c2 = "admin" \/ User.role c2 = "superadmin" ->
        TrainerCreate.email again = TrainerCreate.email trainer ->
        add_trainer get_password_hash again (Some c2) db1 = (Raise InvalidState, db1))
  /\ (NoDup (Trainer.email <$> trainers db) ->
      NoDup (Trainer.email
               <$> trainers (add_trainer get_password_hash trainer (Some c) db).2)).
Proof.
  intros Hrole. rewrite (add_trainer_cases _ _ _ _ Hrole).
  set (same_email := λ t, bool_decide (Trainer.email t = TrainerCreate.email trainer)).
  split; [|split].
  - intros t Hin Hemail.
    destruct (first_is_Some same_email (trainers db) t Hin) as [t' ->];
      [by apply bool_decide_eq_true_2 | done].
  - intros r db1 c2 again. destruct (first same_email (trainers db)) eqn:E; [done |].
    intros [= <- <-] Hrole2 Hagain.
    rewrite (add_trainer_cases _ _ _ _ Hrole2). simpl. rewrite Hagain. fold same_email.
    apply first_None in E. by rewrite (first_snoc _ _ _ E) by (by apply bool_decide_eq_true_2).
  - intros Hnodup. destruct (first same_email (trainers db)) eqn:E; [done |].
    simpl. rewrite fmap_app. simpl. apply NoDup_app. split; [done |]. split.
    + intros e He Hnew. apply list_elem_of_singleton in Hnew as ->.
      apply list_elem_of_fmap in He as (t & Ht & Hin).
      apply first_None in E. rewrite Forall_forall in E. specialize (E t Hin).
      apply bool_decide_eq_false_1 in E. by destruct E.
    + apply NoDup_singleton.
Qed.

(** An admin adds a second trainer with the email of coach CX. *)
Lemma add_trainer_keeps_emails_unique_witness :
  add_trainer (λ p, String.append "hash:" p)
    (TrainerCreate.mk "CZ" [] 3%float 0 "300" "cx@gym" "pw" None None)
    (Some Example.admin_x) Example.gym_coaches
  = (Raise InvalidState, Example.gym_coaches).
Proof.
  assert (User.role Example.admin_x = "admin" \/ User.role Example.admin_x = "superadmin")
    as Hrole by (left; reflexivity).
  destruct (add_trainer_keeps_emails_unique (λ p, String.append "hash:" p)
              Example.gym_coaches Example.admin_x
              (TrainerCreate.mk "CZ" [] 3%float 0 "300" "cx@gym" "pw" None None) Hrole)
    as (Htaken & _).
  apply (Htaken Example.coach_x); [apply list_elem_of_here | reflexivity].
Defined.

Lemma add_trainer_caller (get_password_hash : string -> string)
    (trainer : TrainerCreate.t) (c : User.t) (db db1 : DB) (r : TrainerResponse.t) :
  add_trainer get_password_hash trainer (Some c) db = (Ok r, db1) ->
  User.role c = "admin" \/ User.role c = "superadmin".
Proof.
  unfold add_trainer, get_current_admin_or_superadmin, get_current_active_user.
  unfold_handler. simpl.
  destruct (bool_decide_reflect (User.role c ∈ ["admin"; "superadmin"])) as [Hin|];
    simpl; [|done].
  intros _. apply elem_of_cons in Hin as [?|Hin]; [by left |].
  apply elem_of_cons in Hin as [?|Hin]; [by right | by inversion Hin].
Qed.

(** X21: a trainer created by an admin gets the admin's branch, whatever
    branch the payload names, and a trainer created by a superadmin gets the
    payload's branch; the row is appended under a key larger than every
    stored key and stores the hash of the payload's password.  An admin
    with a non-empty branch then finds the new trainer at the end of the
    trainer list; an admin whose branch is null or empty creates a trainer
    with that branch but cannot list trainers. *)
Theorem added_trainer_gets_admin_branch (get_password_hash : string -> string)
    (db db1 : DB) (c : User.t) (trainer : TrainerCreate.t) (r : TrainerResponse.t) :
  add_trainer get_password_hash trainer (Some c) db = (Ok r, db1) ->
  (User.role c = "admin" -> TrainerResponse.branch_name r = User.branch c)
  /\ (User.role c = "superadmin" ->
      TrainerResponse.branch_name r = TrainerCreate.branch_name trainer)
  /\ (exists t,
        trainers db1 = trainers db ++ [t]
        /\ Trainer.id t = TrainerResponse.id r
        /\ Trainer.branch_name t = TrainerResponse.branch_name r
        /\ Trainer.password t = get_password_hash (TrainerCreate.password trainer)
        /\ Forall (λ x, Trainer.id x < Trainer.id t) (trainers db))
  /\ (forall b, User.role c = "admin" -> User.branch c = Some b -> b ≠ "" ->
        exists rs r',
          get_trainers (Some c) db = (Ok rs, db)
          /\ get_trainers (Some c) db1 = (Ok (rs ++ [r']), db1)
          /\ TrainerResponse.id r' = TrainerResponse.id r
          /\ TrainerResponse.branch_name r' = Some b)
  /\ (User.role c = "admin" -> User.branch c = None \/ User.branch c = Some "" ->
      get_trainers (Some c) db1 = (Raise InvalidState, db1)).
Proof.
  intros Hadd. pose proof (add_trainer_caller _ _ _ _ _ _ Hadd) as Hrole.
  rewrite (add_trainer_cases _ _ _ _ Hrole) in Hadd.
  destruct (first _ (trainers db)); [done |]. cbv zeta in Hadd.
  injection Hadd as <- <-. simpl.
  split; [|split; [|split; [|split]]].
  - intros ->. done.
  - intros ->. done.
  - eexists. split; [reflexivity |]. simpl. repeat split.
    apply (next_id_not_stored Trainer.id).
  - intros b Hadmin Hb Hne.
    unfold get_trainers, get_current_active_user. unfold_handler. simpl.
    rewrite Hadmin, Hb. simpl. rewrite (bool_decide_eq_false_2 _ Hne). simpl.
    eexists _, _. split; [reflexivity |].
    rewrite List.filter_app. simpl. rewrite bool_decide_eq_true_2 by done.
    rewrite fmap_app. simpl. split; [reflexivity |]. done.
  - intros Hadmin Hb.
    unfold get_trainers, get_current_active_user. unfold_handler. simpl.
    rewrite Hadmin. by destruct Hb as [-> | ->].
Qed.

(** An admin of branch X adds coach CX, naming no branch. *)
Lemma added_trainer_gets_admin_branch_witness :
  TrainerResponse.branch_name (trainer_response ["yoga"; "pilates"] Example.coach_x)
  = User.branch Example.admin_x.
Proof.
  destruct (added_trainer_gets_admin_branch (λ _, "h1") Example.gym
              (set_trainers [Example.coach_x] Example.gym) Example.admin_x
              (TrainerCreate.mk "CX" ["yoga"; "pilates"] 4.5%float 3 "100" "cx@gym"
                 "secret" None None)
              (trainer_response ["yoga"; "pilates"] Example.coach_x) eq_refl)
    as (Hadmin & _).
  apply Hadmin. reflexivity.
Defined.

(** ** Every call: what it writes, what it keeps *)

Lemma table_write_NoDup {A} (key : A -> Z) (rows rows' : list A) :
  table_write key rows rows' -> NoDup (key <$> rows) -> NoDup (key <$> rows').
Proof.
  intros [-> | x Hx -> | p f Hf -> | p ->] Hnodup.
  - done.
  - rewrite fmap_app. simpl. apply NoDup_app. split; [done |]. split.
    + intros k Hk Hnew. apply list_elem_of_singleton in Hnew as ->.
      pose proof (next_id_fresh (key <$> rows)) as Hfresh.
      rewrite Forall_forall in Hfresh. specialize (Hfresh _ Hk). lia.
    + apply NoDup_singleton.
  - replace (key <$> update_first p f rows) with (key <$> rows); [done |].
    clear Hnodup. induction rows as [|r rows IH]; simpl; [done |].
    destruct (p r) eqn:E; simpl; [by rewrite Hf | f_equal; apply IH].
  - induction rows as [|r rows IH]; simpl in *; [done |].
    apply NoDup_cons in Hnodup as [Hr Hrows].
    destruct (p r); [done |]. simpl. apply NoDup_cons. split; [|by apply IH].
    intros Hin. apply Hr. clear -Hin.
    induction rows as [|r' rows IH]; simpl in *; [done |].
    destruct (p r'); [by apply list_elem_of_further |].
    simpl in Hin. apply elem_of_cons in Hin as [-> | Hin];
      [apply list_elem_of_here | by apply list_elem_of_further, IH].
Qed.

Lemma store_write_refl (db : DB) : store_write db db.
Proof. repeat split; by apply write_none. Qed.

Ltac solve_store_write :=
  first
    [ apply store_write_refl
    | split; [reflexivity |];
      repeat split;
      first
        [ by apply write_none
        | eapply write_insert; [|reflexivity]; reflexivity
        | eapply write_delete; reflexivity
        | eapply write_update; [|reflexivity]; by intros ] ].

Ltac unfold_endpoints :=
  unfold route, create_session, update_session, delete_session,
    mark_session_attendance, update_session_attendance, delete_session_attendance,
    update_diet_plan, update_exercise_plan, add_trainer, get_trainers,
    get_trainer_by_id, update_trainer, delete_trainer, get_trainer_sessions,
    get_public_sessions, get_session_attendance, create_diet_plan, delete_diet_plan,
    get_trainer_diet_plans, create_exercise_plan, delete_exercise_plan,
    get_trainer_exercise_plans, get_current_trainer, get_current_admin_or_superadmin,
    get_current_active_user in *.

Lemma update_session_attendance_store_write (attendance_id : Z)
    (attendance_data : SessionAttendanceCreate.t) (caller : option User.t) (db : DB) :
  store_write db (update_session_attendance attendance_id attendance_data caller db).2.
Proof.
  unfold update_session_attendance, get_current_active_user. unfold_handler.
  destruct caller as [c|]; simpl; [|apply store_write_refl].
  destruct (first (attendance_with_id attendance_id) (attendances db)) as [a|] eqn:Ha;
    [|apply store_write_refl].
  apply first_Some in Ha as [_ Ha]. apply bool_decide_eq_true_1 in Ha.
  assert (forall b, SessionAttendance.id b = attendance_id ->
            store_write db
              (set_attendances
                 (update_first (attendance_with_id attendance_id) (λ _, b)
                    (attendances db)) db)) as Hwrite.
  { intros b Hb. split; [reflexivity |]. repeat split; try by apply write_none.
    eapply write_update; [|reflexivity]. simpl. intros r Hr.
    apply bool_decide_eq_true_1 in Hr. congruence. }
  repeat case_match; simplify_eq/=;
    first [apply store_write_refl | by apply Hwrite].
Qed.

Lemma dispatch_store_write (get_password_hash : string -> string)
    (credentials : option User.t) (call : Call) (db : DB) :
  store_write db (dispatch get_password_hash credentials call db).2.
Proof.
  destruct call as [req| | | | | | | | |]; [destruct req|..]; simpl;
    try (pose proof (update_session_attendance_store_write
                       attendance_id attendance_data credentials db) as H;
         revert H; unfold fmap, Handler_fmap, bind, ret;
         by destruct (update_session_attendance _ _ _ _) as [[?|?] ?]);
    unfold_endpoints; unfold_handler;
    repeat case_match; simplify_eq/=; solve_store_write.
Qed.

(** X22: primary keys stay unique: when the keys of every table are pairwise
    distinct, they still are after any sequence of calls to the router, by
    any callers, failed or not. *)
Theorem keys_stay_unique (get_password_hash : string -> string)
    (calls : list (option User.t * Call)) (db : DB) :
  keys_unique db -> keys_unique (run_calls get_password_hash calls db).
Proof.
  revert db. induction calls as [|[credentials call] calls IH]; intros db Hdb;
    simpl; [done |].
  apply IH.
  destruct (dispatch_store_write get_password_hash credentials call db)
    as (_ & Ht & Hs & Ha & Hd & He).
  destruct Hdb as (Ht' & Hs' & Ha' & Hd' & He').
  repeat split; by eapply table_write_NoDup.
Qed.

(** A superadmin adds two coaches to an empty store and deletes the first. *)
Lemma keys_stay_unique_witness :
  keys_unique
    (run_calls (λ p, String.append "hash:" p)
       [(Some Example.root,
         Routed (POST_add_trainer
                   (TrainerCreate.mk "CX" ["yoga"] 4%float 3 "100" "cx@gym" "pw" None
                      (Some "X"))));
        (Some Example.root,
         Routed (POST_add_trainer
                   (TrainerCreate.mk "CY" [] 4%float 1 "200" "cy@gym" "pw" None
                      (Some "Y"))));
        (None, Routed (DELETE_trainer 1))]
       Example.empty_db).
Proof.
  apply keys_stay_unique. repeat split; constructor.
Defined.

(** X23: a call that the router answers with [InvalidState],
    [Unauthenticated], [Forbidden] or [NotFound] leaves the store untouched;
    a call that only reads never changes the store, whatever its outcome;
    and no call of this router writes the user table. *)
Theorem failed_calls_leave_store_untouched (get_password_hash : string -> string)
    (credentials : option User.t) (call : Call) (db : DB) :
  (forall e,
     (dispatch get_password_hash credentials call db).1 = Raise e ->
     e ≠ HTTP_500_INTERNAL_SERVER_ERROR ->
     (dispatch get_password_hash credentials call db).2 = db)
  /\ (read_only call = true ->
      (dispatch get_password_hash credentials call db).2 = db)
  /\ users (dispatch get_password_hash credentials call db).2 = users db.
Proof.
  split; [|split].
  - destruct call as [req| | | | | | | | |]; [destruct req|..]; simpl;
      unfold_endpoints; unfold_handler;
      intros e; repeat case_match; simplify_eq/=; intros; simplify_eq/=; done.
  - destruct call as [req| | | | | | | | |]; [destruct req|..]; simpl; try done;
      intros _; unfold_endpoints; unfold_handler;
      repeat case_match; simplify_eq/=; done.
  - apply dispatch_store_write.
Qed.

(** ** Deleted rows are gone *)

Lemma delete_first_key_gone {A} (key : A -> Z) (p : A -> bool) (k : Z)
    (rows : list A) (x : A) :
  NoDup (key <$> rows) -> first p rows = Some x -> key x = k ->
  Forall (λ r, key r ≠ k) (delete_first p rows)
  /\ length rows = S (length (delete_first p rows)).
Proof.
  unfold first. induction rows as [|r rows IH]; simpl; [done |].
  intros [Hr Hrows]%NoDup_cons Hx Hk. destruct (p r) eqn:E.
  - injection Hx as ->. split; [|done]. apply Forall_forall. intros y Hy Heq.
    apply Hr. apply list_elem_of_fmap. exists y. split; [congruence | done].
  - destruct (IH Hrows Hx Hk) as [Hgone Hlen]. split; [|simpl; by rewrite Hlen].
    constructor; [|done]. intros Heq. apply Hr.
    apply find_some in Hx as [Hin _]. apply list_elem_of_In in Hin.
    apply list_elem_of_fmap. exists x. split; [congruence | done].
Qed.

(** X24: with pairwise distinct trainer keys, a deleted trainer is gone: the
    table is one row shorter, and reading, updating and deleting that id
    again all answer [NotFound] and leave the store as the delete left
    it. *)
Theorem deleted_trainer_is_gone (get_password_hash : string -> string)
    (db db1 : DB) (trainer_id : Z) (message : string) :
  NoDup (Trainer.id <$> trainers db) ->
  delete_trainer trainer_id db = (Ok message, db1) ->
  length (trainers db) = S (length (trainers db1))
  /\ Forall (λ t, Trainer.id t ≠ trainer_id) (trainers db1)
  /\ get_trainer_by_id trainer_id db1 = (Raise NotFound, db1)
  /\ (forall trainer,
        update_trainer get_password_hash trainer_id trainer db1 = (Raise NotFound, db1))
  /\ delete_trainer trainer_id db1 = (Raise NotFound, db1).
Proof.
  intros Hnodup. unfold delete_trainer at 1. unfold_handler. simpl.
  destruct (first (trainer_with_id trainer_id) (trainers db)) as [t|] eqn:Ht; [|done].
  intros [= <- <-]. simpl.
  pose proof Ht as Hid. apply first_Some in Hid as [_ Hid].
  apply bool_decide_eq_true_1 in Hid.
  destruct (delete_first_key_gone Trainer.id _ trainer_id _ _ Hnodup Ht Hid)
    as [Hgone Hlen].
  assert (first (trainer_with_id trainer_id)
            (delete_first (trainer_with_id trainer_id) (trainers db)) = None) as Hnone.
  { apply first_None. eapply Forall_impl; [exact Hgone |]. simpl. intros x Hx.
    by apply bool_decide_eq_false_2. }
  split; [done |]. split; [done |].
  unfold get_trainer_by_id, update_trainer, delete_trainer. unfold_handler. simpl.
  by rewrite Hnone.
Qed.

(** Coach CX is deleted and looked up again. *)
Lemma deleted_trainer_is_gone_witness :
  get_trainer_by_id 1 (set_trainers [Example.coach_y] Example.gym_coaches)
  = (Raise NotFound, set_trainers [Example.coach_y] Example.gym_coaches).
Proof.
  apply (deleted_trainer_is_gone (λ p, String.append "hash:" p) Example.gym_coaches
           (set_trainers [Example.coach_y] Example.gym_coaches) 1
           "Trainer deleted successfully").
  - simpl. apply NoDup_cons. split.
    + intros H. apply list_elem_of_singleton in H. discriminate H.
    + apply NoDup_singleton.
  - reflexivity.
Defined.

(** X25: with pairwise distinct session keys, a session that its trainer
    has deleted is gone for everybody: booking it, listing its attendance and
    updating it answer [NotFound] to every authenticated caller who passes
    the role check, on an untouched store. *)
Theorem deleted_session_is_gone (db db1 : DB) (T : User.t) (session_id : Z)
    (message : string) :
  NoDup (SessionSchedule.id <$> sessions db) ->
  delete_session session_id (Some T) db = (Ok message, db1) ->
  Forall (λ s, SessionSchedule.id s ≠ session_id) (sessions db1)
  /\ (forall c attendance_data,
        mark_session_attendance session_id attendance_data (Some c) db1
        = (Raise NotFound, db1))
  /\ (forall c user_id attendance_date,
        get_session_attendance session_id user_id attendance_date (Some c) db1
        = (Raise NotFound, db1))
  /\ (forall c session_update, User.role c = "trainer" ->
        update_session session_id session_update (Some c) db1 = (Raise NotFound, db1)).
Proof.
  intros Hnodup. unfold delete_session at 1. unfold_handler.
  destruct (get_current_trainer (Some T) db) as [[T'|e] db0] eqn:HT; [|done].
  assert (db0 = db) as ->.
  { revert HT. unfold get_current_trainer, get_current_active_user. unfold_handler.
    simpl. by destruct (bool_decide _); intros [= _ <-]. }
  simpl.
  destruct (first (own_session session_id T') (sessions db)) as [s|] eqn:Hs; [|done].
  intros [= <- <-]. simpl.
  pose proof Hs as Hid. apply first_Some in Hid as [_ Hid].
  apply andb_prop in Hid as [Hid _]. apply bool_decide_eq_true_1 in Hid.
  destruct (delete_first_key_gone SessionSchedule.id _ session_id _ _ Hnodup Hs Hid)
    as [Hgone _].
  assert (forall p : SessionSchedule.t -> bool,
            (forall x, p x = true -> SessionSchedule.id x = session_id) ->
            first p (delete_first (own_session session_id T') (sessions db)) = None)
    as Hnone.
  { intros p Hp. apply first_None. eapply Forall_impl; [exact Hgone |]. simpl.
    intros x Hx. destruct (p x) eqn:E; [|done]. by apply Hp in E. }
  split; [done |]. split; [|split].
  - intros c attendance_data.
    unfold mark_session_attendance, get_current_active_user. unfold_handler. simpl.
    rewrite Hnone; [done |]. intros x Hx. by apply bool_decide_eq_true_1 in Hx.
  - intros c user_id attendance_date.
    unfold get_session_attendance, get_current_active_user. unfold_handler. simpl.
    rewrite Hnone; [done |]. intros x Hx. by apply bool_decide_eq_true_1 in Hx.
  - intros c session_update Hc. unfold update_session. unfold_handler.
    rewrite (get_current_trainer_ok c _ Hc). simpl.
    rewrite Hnone; [done |]. intros x Hx. unfold own_session in Hx.
    apply andb_prop in Hx as [Hx _]. by apply bool_decide_eq_true_1 in Hx.
Qed.

(** Trainer A deletes the yoga session; member M tries to book it. *)
Lemma deleted_session_is_gone_witness :
  mark_session_attendance 1 Example.book_m (Some Example.member_m)
    (set_sessions [] Example.gym)
  = (Raise NotFound, set_sessions [] Example.gym).
Proof.
  destruct (deleted_session_is_gone Example.gym (set_sessions [] Example.gym)
              Example.trainer_a 1 "Session deleted successfully")
    as (_ & Hmark & _).
  - simpl. apply NoDup_singleton.
  - reflexivity.
  - apply Hmark.
Defined.

(** X26: a trainer updates and deletes the attendance records of their own
    sessions only: for a stored record whose session is not a session of the
    trainer in the trainer's branch both calls answer [Forbidden]; for a
    record of such a session the delete removes the record, whoever its
    subject is, and an update that names a subject without a user row in
    the trainer's branch answers [NotFound].  Every failure leaves the store
    untouched. *)
Theorem trainer_touches_records_of_own_sessions (db : DB) (c : User.t)
    (attendance_id : Z) (a : SessionAttendance.t) :
  User.role c = "trainer" ->
  first (attendance_with_id attendance_id) (attendances db) = Some a ->
  (Forall (λ s, SessionSchedule.id s = SessionAttendance.session_id a ->
                SessionSchedule.trainer_id s = User.id c ->
                SessionSchedule.branch_name s ≠ User.branch c) (sessions db) ->
   (forall attendance_data,
      update_session_attendance attendance_id attendance_data (Some c) db
      = (Raise Forbidden, db))
   /\ delete_session_attendance attendance_id (Some c) db = (Raise Forbidden, db))
  /\ (forall s,
        s ∈ sessions db ->
        SessionSchedule.id s = SessionAttendance.session_id a ->
        SessionSchedule.trainer_id s = User.id c ->
        SessionSchedule.branch_name s = User.branch c ->
        delete_session_attendance attendance_id (Some c) db
        = (Ok "Session deleted successfully",
           set_attendances
             (delete_first (attendance_with_id attendance_id) (attendances db)) db)
        /\ (forall attendance_data,
              SessionAttendanceCreate.user_id attendance_data
              ≠ SessionAttendance.user_id a ->
              Forall (λ u, User.id u = SessionAttendanceCreate.user_id attendance_data ->
                           User.branch u ≠ User.branch c) (users db) ->
              update_session_attendance attendance_id attendance_data (Some c) db
              = (Raise NotFound, db))).
Proof.
  intros Hrole Ha. split.
  - intros Hnone.
    assert (first (own_session_in_branch (SessionAttendance.session_id a) c)
              (sessions db) = None) as Hs.
    { apply first_None. eapply Forall_impl; [exact Hnone |]. simpl. intros s Hs.
      unfold own_session_in_branch.
      destruct (bool_decide_reflect
                  (SessionSchedule.id s = SessionAttendance.session_id a)); [|done].
      destruct (bool_decide_reflect (SessionSchedule.trainer_id s = User.id c));
        [|done].
      simpl. apply bool_decide_eq_false_2. by apply Hs. }
    split; [intros attendance_data |];
      unfold update_session_attendance, delete_session_attendance,
        get_current_active_user; unfold_handler; simpl;
      by rewrite Ha, (bool_decide_eq_true_2 _ Hrole), Hs.
  - intros s Hin Hid Ht Hb.
    destruct (first_is_Some (own_session_in_branch (SessionAttendance.session_id a) c)
                (sessions db) s Hin) as [s' Hs'].
    { unfold own_session_in_branch. by rewrite !bool_decide_eq_true_2. }
    split.
    + unfold delete_session_attendance, get_current_active_user. unfold_handler.
      simpl. by rewrite Ha, (bool_decide_eq_true_2 _ Hrole), Hs'.
    + intros attendance_data Hchg Husers. apply no_user_in_branch in Husers.
      unfold update_session_attendance, get_current_active_user. unfold_handler.
      simpl. rewrite Ha, (bool_decide_eq_true_2 _ Hrole), Hs'.
      by rewrite (bool_decide_eq_true_2 _ Hchg), Husers.
Qed.

(** Trainer B and the booking of member M on the session of trainer A. *)
Lemma trainer_touches_records_of_own_sessions_witness :
  (forall attendance_data,
     update_session_attendance 1 attendance_data (Some Example.trainer_b)
       Example.gym_booked = (Raise Forbidden, Example.gym_booked))
  /\ delete_session_attendance 1 (Some Example.trainer_b) Example.gym_booked
     = (Raise Forbidden, Example.gym_booked).
Proof.
  destruct (trainer_touches_records_of_own_sessions Example.gym_booked
              Example.trainer_b 1 Example.booked_m eq_refl eq_refl) as [Hforbidden _].
  apply Hforbidden. repeat constructor. simpl. intros _ H. discriminate H.
Defined.
